(** * Model of the workerpals OpenHands executor
    (apps/workerpals/scripts/openhands_executor.py).

    Strings are Stdlib strings of ASCII characters; Python's [str.strip],
    [str.lower], [in], [startswith] and [endswith] are written out below
    for that alphabet.  Network and SDK calls are the environment: they
    appear as functions from the request to its outcome, and every Python
    exception they may raise is one constructor of that outcome. *)

From Stdlib Require Import String Ascii ZArith List Bool.
From stdpp Require Import base list strings pretty.
Import ListNotations.
Open Scope string_scope.

(** ** Python string helpers on ASCII strings *)

Fixpoint string_rev_app (s acc : string) : string :=
  match s with
  | EmptyString => acc
  | String c r => string_rev_app r (String c acc)
  end.

Definition string_rev (s : string) : string := string_rev_app s EmptyString.

(** [str.isspace] on ASCII: \t \n \x0b \x0c \r, \x1c-\x1f and space. *)
Definition py_is_space (c : ascii) : bool :=
  let n := nat_of_ascii c in
  (Nat.leb 9 n && Nat.leb n 13) || (Nat.leb 28 n && Nat.leb n 32).

Fixpoint py_lstrip (s : string) : string :=
  match s with
  | EmptyString => EmptyString
  | String c r => if py_is_space c then py_lstrip r else s
  end.

Definition py_rstrip (s : string) : string :=
  string_rev (py_lstrip (string_rev s)).

(** [str.strip()] *)
Definition py_strip (s : string) : string := py_rstrip (py_lstrip s).

(** [str.rstrip("/")] *)
Fixpoint lstrip_slash (s : string) : string :=
  match s with
  | EmptyString => EmptyString
  | String c r => if Ascii.eqb c "/"%char then lstrip_slash r else s
  end.

Definition rstrip_slash (s : string) : string :=
  string_rev (lstrip_slash (string_rev s)).

Definition lower_char (c : ascii) : ascii :=
  let n := nat_of_ascii c in
  if Nat.leb 65 n && Nat.leb n 90 then ascii_of_nat (n + 32) else c.

(** [str.lower()] *)
Fixpoint py_lower (s : string) : string :=
  match s with
  | EmptyString => EmptyString
  | String c r => String (lower_char c) (py_lower r)
  end.

(** [s.startswith(p)] *)
Fixpoint starts_with (p s : string) : bool :=
  match p, s with
  | EmptyString, _ => true
  | String c p', String d s' => Ascii.eqb c d && starts_with p' s'
  | String _ _, EmptyString => false
  end.

(** [p in s] *)
Fixpoint contains (p s : string) : bool :=
  starts_with p s ||
  match s with
  | EmptyString => false
  | String _ s' => contains p s'
  end.

(** [s.endswith(p)] *)
Definition ends_with (p s : string) : bool :=
  starts_with (string_rev p) (string_rev s).

(** [s.split("/", 1)] when ["/" in s]: the text before and after the first
    slash. *)
Fixpoint split_slash (s : string) : option (string * string) :=
  match s with
  | EmptyString => None
  | String c r =>
      if Ascii.eqb c "/"%char then Some (EmptyString, r)
      else match split_slash r with
           | Some (a, b) => Some (String c a, b)
           | None => None
           end
  end.

Definition str_in (x : string) (l : list string) : bool :=
  existsb (String.eqb x) l.

(** [list(dict.fromkeys(xs))]: duplicates removed, first occurrence kept. *)
Fixpoint dedup_go (seen : list string) (l : list string) : list string :=
  match l with
  | [] => []
  | x :: r => if str_in x seen then dedup_go seen r else x :: dedup_go (x :: seen) r
  end.

Definition dict_fromkeys (l : list string) : list string := dedup_go [] l.

(** [sep.join(xs)] *)
Fixpoint py_join (sep : string) (l : list string) : string :=
  match l with
  | [] => ""
  | [x] => x
  | x :: r => x ++ sep ++ py_join sep r
  end.

(** ** Provider and model names *)

Definition DEFAULT_OPENHANDS_MODEL : string := "local-model".

Definition KNOWN_LITELLM_PROVIDER_PREFIXES : list string :=
  ["openai"; "azure"; "ollama"; "openrouter"; "anthropic"; "google"; "gemini";
   "vertex_ai"; "bedrock"; "cohere"; "groq"; "mistral"; "huggingface";
   "replicate"; "deepseek"; "xai"; "together_ai"; "fireworks_ai"].

Definition _model_is_provider_qualified (model : string) : bool :=
  match split_slash model with
  | None => false
  | Some (pre, _) => str_in (py_lower (py_strip pre)) KNOWN_LITELLM_PROVIDER_PREFIXES
  end.

Definition _normalize_litellm_model (model provider : string) : string :=
  let normalized := py_strip model in
  if String.eqb normalized "" then normalized
  else if _model_is_provider_qualified normalized then normalized
  else if String.eqb provider "" then normalized
  else provider ++ "/" ++ normalized.

Definition _providerless_model_name (model : string) : string :=
  let normalized := py_strip model in
  match split_slash normalized with
  | None => normalized
  | Some (pre, post) =>
      if str_in (py_lower (py_strip pre)) KNOWN_LITELLM_PROVIDER_PREFIXES
      then py_strip post else normalized
  end.

Definition _is_embedding_model (model : string) : bool :=
  let lowered := py_lower (_providerless_model_name model) in
  contains "embedding" lowered || starts_with "embed-" lowered
  || contains "/embed" lowered || contains "nomic-embed" lowered.

(** ** Model selection *)

Definition _pick_configured_or_available_model
    (configured_model : string) (available_models : list string) : string * string :=
  let configured := py_strip configured_model in
  match available_models with
  | first :: _ =>
      if negb (String.eqb configured "") then
        let wanted := py_lower (_providerless_model_name configured) in
        match find (fun c => String.eqb (py_lower (_providerless_model_name c)) wanted)
                   available_models with
        | Some c => (c, "configured")
        | None => (first, "available_fallback")
        end
      else (first, "available_default")
  | [] =>
      if negb (String.eqb configured "") then (configured, "configured_unverified")
      else (DEFAULT_OPENHANDS_MODEL, "default_local_model")
  end.

(** [_fallback_models_after_load_failure]: [discovery] is the pair
    returned by [_discover_available_models] for this call. *)
Definition _fallback_models_after_load_failure
    (discovery : list string * string) (provider failed_model : string)
    : list string * string :=
  let '(available_models, probe_detail) := discovery in
  let failed_norm := _normalize_litellm_model failed_model provider in
  let candidates :=
    List.filter (fun n => negb (String.eqb n "") && negb (String.eqb n failed_norm)
                     && negb (_is_embedding_model n))
           (map (fun m => _normalize_litellm_model m provider) available_models) in
  let default_fallback := _normalize_litellm_model DEFAULT_OPENHANDS_MODEL provider in
  let candidates :=
    if negb (String.eqb default_fallback "") && negb (String.eqb default_fallback failed_norm)
       && negb (_is_embedding_model default_fallback)
    then app candidates [default_fallback] else candidates in
  (dict_fromkeys candidates, probe_detail).

(** The filter applied in [_run_agentic_task_execute] before fallback
    candidates are appended to [models_to_try]. *)
Definition new_fallback_candidates
    (attempted pending fallback : list string) : list string :=
  List.filter (fun m => negb (str_in m attempted) && negb (str_in m pending)) fallback.

Example providerless_ex : _providerless_model_name " openai/GPT-4 " = "GPT-4".
Proof. reflexivity. Qed.
Example embedding_ex : _is_embedding_model "openai/text-embedding-3-small" = true.
Proof. reflexivity. Qed.
Example pick_ex :
  _pick_configured_or_available_model "openai/gpt-4" ["llama-3-8b"]
  = ("llama-3-8b", "available_fallback").
Proof. reflexivity. Qed.
Example fallback_ex :
  fst (_fallback_models_after_load_failure (["llama3"; "nomic-embed-text"; "llama3"], "")
         "openai" "openai/qwen")
  = ["openai/llama3"; "openai/local-model"].
Proof. reflexivity. Qed.

(** ** Network outcomes *)

(** The Python exceptions the code distinguishes: [socket.timeout] and
    [TimeoutError] (one class since Python 3.10), [urllib.error.URLError]
    with its [reason], [TypeError], and any other [Exception]. *)
Inductive exc_kind : Type :=
| KTimeout
| KURLError (reason : string)
| KTypeError
| KOther.

Record exc : Type := mkExc { exc_kind_of : exc_kind; exc_msg : string (* str(exc) *) }.

Definition _is_timeout_error (e : exc) : bool :=
  match exc_kind_of e with
  | KTimeout => true
  | _ =>
      let from_reason :=
        match exc_kind_of e with
        | KURLError reason =>
            contains "timed out" (py_lower reason) || contains "timeout" (py_lower reason)
        | _ => false
        end in
      from_reason ||
      (let lowered := py_lower (exc_msg e) in
       contains "timed out" lowered || contains "timeout" lowered)
  end.

(** The outcome of one [urllib.request.urlopen] call: a response
    ([res.status]), an [HTTPError] with its code and the text
    [exc.read().decode()] ([None] when reading the body raised), or any other
    exception. *)
Inductive http_outcome : Type :=
| HResp (status : Z)
| HHttpError (code : Z) (body : option string)
| HExc (e : exc).

Set Warnings "-register-all".

(** JSON values, for request bodies and result records. Floats are kept as
    their Python [repr]. *)
Inductive json : Type :=
| JNull
| JBool (b : bool)
| JInt (z : Z)
| JFloat (repr : string)
| JStr (s : string)
| JArr (l : list json)
| JObj (fields : list (string * json)).

Definition dict : Type := list (string * json).

(** [{**d, k: v}]: an existing key keeps its position, a new key goes last. *)
Fixpoint dict_set (k : string) (v : json) (d : dict) : dict :=
  match d with
  | [] => [(k, v)]
  | (k', v') :: r => if String.eqb k k' then (k, v) :: r else (k', v') :: dict_set k v r
  end.

Fixpoint dict_get (k : string) (d : dict) : option json :=
  match d with
  | [] => None
  | (k', v) :: r => if String.eqb k k' then Some v else dict_get k r
  end.

Definition dict_keys (d : dict) : list string := map fst d.

(** ** Endpoint prober *)

Definition _llm_probe_urls (base_url model : string) : list string :=
  let normalized := rstrip_slash base_url in
  let provider :=
    match split_slash model with
    | Some (pre, _) => py_lower (py_strip pre)
    | None => ""
    end in
  if String.eqb provider "ollama" then
    [normalized ++ "/api/tags"; normalized ++ "/tags"; normalized]
  else if ends_with "/v1" normalized then
    [normalized ++ "/models"; normalized ++ "/chat/completions"; normalized]
  else
    [normalized ++ "/v1/models"; normalized ++ "/models"; normalized].

(** The probe loop of [_llm_endpoint_reachable]; [get url] is the outcome
    of [urlopen(url, timeout=timeout)].  The second component lists the
    URLs opened, in order. *)
Fixpoint probe_loop (get : string -> http_outcome) (probes : list string)
    (last_error : string) : (bool * string) * list string :=
  match probes with
  | [] => ((false, last_error), [])
  | probe :: rest =>
      match get probe with
      | HResp status => ((true, probe ++ " -> " ++ pretty status), [probe])
      | HHttpError code _ => ((true, probe ++ " -> HTTP " ++ pretty code), [probe])
      | HExc e =>
          let '(res, opened) := probe_loop get rest (probe ++ ": " ++ exc_msg e) in
          (res, probe :: opened)
      end
  end.

Definition _llm_endpoint_reachable_run (get : string -> http_outcome)
    (base_url model : string) : (bool * string) * list string :=
  if String.eqb base_url "" then ((true, ""), [])
  else probe_loop get (_llm_probe_urls base_url model) "connection failed".

Definition _llm_endpoint_reachable (get : string -> http_outcome)
    (base_url model : string) : bool * string :=
  fst (_llm_endpoint_reachable_run get base_url model).

(** ** Chat preflight validator *)

Definition _session_field_rejected (detail : string) : bool :=
  let lowered := py_lower detail in
  contains "session_id" lowered || contains "conversation_id" lowered
  || contains "id_slot" lowered || contains "unknown field" lowered
  || contains "unknown property" lowered || contains "additional properties" lowered.

Definition _is_model_load_failure (error_text : string) : bool :=
  let lowered := py_lower error_text in
  contains "failed to load model" lowered || contains "model loading was stopped" lowered
  || contains "insufficient system resources" lowered || contains "out of memory" lowered
  || (contains "model" lowered && contains "not found" lowered).

Definition _chat_completion_url (base_url provider : string) : string :=
  let normalized := rstrip_slash base_url in
  if String.eqb provider "ollama" then
    (if ends_with "/api/chat" normalized then normalized else normalized ++ "/api/chat")
  else if ends_with "/chat/completions" normalized then normalized
  else if ends_with "/v1" normalized then normalized ++ "/chat/completions"
  else normalized ++ "/v1/chat/completions".

Definition _session_hint_headers (session_user : string) : list (string * string) :=
  if String.eqb session_user "" then []
  else [("X-PushPals-Session-Id", session_user); ("X-Session-Id", session_user);
        ("X-Conversation-Id", session_user)].

(** [slot_id] is the value of [_lmstudio_slot_id()] (a configured
    non-negative integer, or [None]). *)
Definition _session_hint_body_variants (body : dict) (provider session_user : string)
    (slot_id : option Z) : list dict :=
  if negb (String.eqb provider "openai") || String.eqb session_user "" then [body]
  else
    let variants :=
      [dict_set "conversation_id" (JStr session_user)
         (dict_set "session_id" (JStr session_user)
            (dict_set "user" (JStr session_user) body));
       dict_set "user" (JStr session_user) body;
       body] in
    match slot_id with
    | None => variants
    | Some s => flat_map (fun v => [dict_set "id_slot" (JInt s) v; v]) variants
    end.

(** [text[:n]] *)
Definition py_prefix (n : nat) (s : string) : string := substring 0 n s.

Definition preflight_body (provider payload_model : string) : dict :=
  if String.eqb provider "ollama" then
    [("model", JStr payload_model);
     ("messages", JArr [JObj [("role", JStr "user"); ("content", JStr "ping")]]);
     ("stream", JBool false);
     ("options", JObj [("temperature", JFloat "0.0"); ("num_predict", JInt 1)])]
  else
    [("model", JStr payload_model);
     ("messages", JArr [JObj [("role", JStr "user"); ("content", JStr "ping")]]);
     ("temperature", JFloat "0.0");
     ("max_tokens", JInt 1)].

Definition preflight_headers (provider api_key session_user : string)
    : list (string * string) :=
  [("Content-Type", "application/json"); ("Accept", "application/json")]
  ++ (if negb (String.eqb api_key "") && String.eqb provider "openai"
      then [("Authorization", "Bearer " ++ api_key)] else [])
  ++ _session_hint_headers session_user.

Section ChatPreflight.

(** [post url headers body] is the outcome of the POST request. *)
Variable post : string -> list (string * string) -> json -> http_outcome.
Variables (url : string) (headers : list (string * string)).
(** [timeout] in whole seconds, as printed by [{timeout:.0f}]. *)
Variable timeout : N.
Variable n_variants : nat.

(** The [for idx, request_body in enumerate(body_variants)] loop; the second
    component lists the bodies posted, in order. *)
Fixpoint chat_preflight_loop (idx : nat) (variants : list dict) (last_detail : string)
    : (bool * string) * list dict :=
  match variants with
  | [] => ((false, last_detail), [])
  | request_body :: rest =>
      let sent (r : (bool * string) * list dict) := (fst r, request_body :: snd r) in
      match post url headers (JObj request_body) with
      | HResp status =>
          if (200 <=? status)%Z && (status <? 300)%Z
          then ((true, url ++ " -> " ++ pretty status), [request_body])
          else sent (chat_preflight_loop (S idx) rest (url ++ " -> HTTP " ++ pretty status))
      | HHttpError code body =>
          let body_text := match body with Some t => t | None => "" end in
          let detail := url ++ " -> HTTP " ++ pretty code ++
            (if String.eqb body_text "" then ""
             else " (" ++ py_strip (py_prefix 180 body_text) ++ ")") in
          if (code =? 400)%Z && Nat.ltb idx (n_variants - 1)
             && _session_field_rejected body_text
          then sent (chat_preflight_loop (S idx) rest detail)
          else if _is_model_load_failure body_text then ((false, detail), [request_body])
          else
            let lowered := py_lower body_text in
            if contains "model" lowered && contains "not found" lowered
            then ((false, detail), [request_body])
            else if (code =? 401)%Z || (code =? 403)%Z
            then ((true, detail), [request_body])
            else ((false, detail), [request_body])
      | HExc e =>
          if _is_timeout_error e
          then ((false, url ++ ": timed out after " ++ pretty timeout ++ "s"), [request_body])
          else ((false, url ++ ": " ++ exc_msg e), [request_body])
      end
  end.

End ChatPreflight.

Definition _llm_model_chat_preflight_run
    (post : string -> list (string * string) -> json -> http_outcome)
    (slot_id : option Z)
    (base_url provider api_key model session_user : string) (timeout : N)
    : (bool * string) * list dict :=
  if String.eqb base_url "" then ((true, "base URL unset"), [])
  else
    let url := _chat_completion_url base_url provider in
    let body := preflight_body provider (_providerless_model_name model) in
    let headers := preflight_headers provider api_key session_user in
    let body_variants := _session_hint_body_variants body provider session_user slot_id in
    chat_preflight_loop post url headers timeout (length body_variants) 0 body_variants
      (url ++ ": preflight request failed").

Definition _llm_model_chat_preflight
    (post : string -> list (string * string) -> json -> http_outcome)
    (slot_id : option Z)
    (base_url provider api_key model session_user : string) (timeout : N) : bool * string :=
  fst (_llm_model_chat_preflight_run post slot_id base_url provider api_key model
         session_user timeout).

(** ** Tool-need classifier *)

Definition nl : string := String (ascii_of_nat 10) EmptyString.

Record tool_decision : Type := mkDecision {
  needs_tools : bool; why : string; plan : string; first_command : string;
  error : string; hard_fail : bool }.

(** The request part of [_tool_need_preflight]: either one of its early
    returns (HTTP error, timeout, request failure or empty payload; each
    has [needs_tools=True] and [hard_fail=False] and is given by its [why]
    and [error]), or the message content and [finish_reason] read from the
    decoded payload. *)
Inductive tool_http : Type :=
| ToolHttpFailed (why error : string)
| ToolPayload (raw_text finish_reason : string).

(** The outcome of [json.loads(text)]: a dict, another JSON value, or a
    [ValueError] with its message. *)
Inductive parse_outcome : Type :=
| PObject (d : dict)
| PNotObject
| PError (msg : string).

Fixpoint find_char_from (c : ascii) (s : string) (i : nat) : option nat :=
  match s with
  | EmptyString => None
  | String d r => if Ascii.eqb c d then Some i else find_char_from c r (S i)
  end.

(** [s.find(c)] and [s.rfind(c)], [None] standing for [-1]. *)
Definition py_find (c : ascii) (s : string) : option nat := find_char_from c s 0.
Definition py_rfind (c : ascii) (s : string) : option nat :=
  match py_find c (string_rev s) with
  | Some j => Some (String.length s - 1 - j)
  | None => None
  end.

Definition py_truthy (j : json) : bool :=
  match j with
  | JNull => false
  | JBool b => b
  | JInt z => negb (z =? 0)%Z
  | JFloat r => negb (String.eqb r "0.0")
  | JStr s => negb (String.eqb s "")
  | JArr l => negb (Nat.eqb (length l) 0)
  | JObj f => negb (Nat.eqb (length f) 0)
  end.

(** [str(v)] for the scalar values a classifier answer holds; a list or
    dict prints with its bracket first, which is all the code looks at. *)
Definition py_str (j : json) : string :=
  match j with
  | JNull => "None"
  | JBool b => if b then "True" else "False"
  | JInt z => pretty z
  | JFloat r => r
  | JStr s => s
  | JArr _ => "[...]"
  | JObj _ => "{...}"
  end.

Section ToolNeed.

Variable json_loads : string -> parse_outcome.

(** [_extract_first_json_object]: [inr msg] when it raises. *)
Definition _extract_first_json_object (raw : string) : dict + string :=
  let text := py_strip raw in
  if String.eqb text "" then inr "empty response"
  else match json_loads text with
       | PObject d => inl d
       | _ =>
           match py_find "{"%char text, py_rfind "}"%char text with
           | Some first, Some last =>
               if Nat.ltb first last then
                 match json_loads (substring first (last + 1 - first) text) with
                 | PObject d => inl d
                 | PNotObject => inr "response did not contain parseable JSON object"
                 | PError m => inr m
                 end
               else inr "response did not contain parseable JSON object"
           | _, _ => inr "response did not contain parseable JSON object"
           end
       end.

Definition field_str (d : dict) (k : string) : string :=
  match dict_get k d with
  | Some v => if py_truthy v then py_strip (py_str v) else ""
  | None => ""
  end.

(** [_tool_need_preflight], with [enabled = _tool_preflight_enabled()] and
    [require_strict_json = _tool_preflight_require_json()]. *)
Definition _tool_need_preflight (enabled require_strict_json : bool) (http : tool_http)
    : tool_decision :=
  if negb enabled then mkDecision true "tool preflight disabled by env" "" "" "" false
  else
    match http with
    | ToolHttpFailed w err => mkDecision true w "" "" err false
    | ToolPayload raw_text finish_reason =>
        let parsed :=
          if require_strict_json then
            match json_loads (py_strip raw_text) with
            | PObject d => inl d
            | PNotObject => inr "response is not a JSON object"
            | PError m => inr m
            end
          else _extract_first_json_object raw_text in
        match parsed with
        | inr msg =>
            let detail := py_prefix 160 msg ++ " | raw=" ++ py_prefix 240 (py_strip raw_text) in
            let detail := if String.eqb finish_reason "" then detail
                          else detail ++ " | finish_reason=" ++ finish_reason in
            let detail :=
              if String.eqb (py_lower finish_reason) "length"
              then detail ++ " | model hit max_tokens before valid JSON (increase WORKERPALS_OPENHANDS_TOOL_PREFLIGHT_MAX_TOKENS)"
              else detail in
            mkDecision true "tool preflight response parse failed" "" "" detail
              require_strict_json
        | inl d =>
            let nt :=
              match dict_get "needs_tools" d with
              | None => true
              | Some (JBool b) => b
              | Some v => str_in (py_lower (py_strip (py_str v))) ["1"; "true"; "yes"; "on"]
              end in
            mkDecision nt (py_prefix 240 (field_str d "why")) (py_prefix 600 (field_str d "plan"))
              (py_prefix 180 (field_str d "first_command")) "" false
        end
    end.

End ToolNeed.

(** ** Result envelopes *)

Definition result_fail (summary stderr : string) (exit_code : Z) : dict :=
  [("ok", JBool false); ("summary", JStr summary); ("stderr", JStr stderr);
   ("exitCode", JInt exit_code)].

Definition result_ok (summary stdout : string) : dict :=
  [("ok", JBool true); ("summary", JStr summary); ("stdout", JStr stdout);
   ("stderr", JStr ""); ("exitCode", JInt 0)].

(** ** Execution attempt loop of [_run_agentic_task_execute] *)

(** What the loop does to the outside world, in order. *)
Inductive event : Type :=
| EvChatPreflight (model : string)
| EvDiscover
| EvToolPreflight (model classifier_model : string)
| EvAgent (model : string)           (* LLM(...), Agent(...), Conversation(...) *)
| EvSend (model msg : string)        (* conversation.send_message(msg) *)
| EvRun (model : string) (with_max_steps : bool).  (* conversation.run(...) *)

(** The environment of one execution: the endpoint, the configuration read
    through [_setting_*], and the agent SDK. *)
Record env : Type := mkEnv {
  e_post : string -> list (string * string) -> json -> http_outcome;
  e_slot_id : option Z;                      (* _lmstudio_slot_id() *)
  e_discover : nat -> list string * string;  (* n-th _discover_available_models call *)
  e_tool_enabled : bool;                     (* _tool_preflight_enabled() *)
  e_tool_strict : bool;                      (* _tool_preflight_require_json() *)
  e_tool_model_raw : string;                 (* WORKERPALS_OPENHANDS_TOOL_PREFLIGHT_MODEL *)
  e_tool_http : string -> tool_http;         (* request part of _tool_need_preflight *)
  e_json_loads : string -> parse_outcome;
  (* LLM/Agent/Conversation construction and the first send_message for a
     model: [Some e] when that block raises [e]. *)
  e_agent_build : string -> option exc;
  (* conversation.run(max_steps=...) ([true]) or conversation.run() ([false]). *)
  e_run : string -> bool -> option exc;
  e_changed : string -> list string          (* _summarize_git_changes(repo) *)
}.

Record loop_state : Type := mkState {
  models_to_try : list string;
  attempted_models : list string;
  last_error_text : string;
  preflight_failures : list string;
  discover_calls : nat;
  trace : list event }.

Inductive step_result : Type :=
| Continue (s : loop_state)
| Return (r : dict) (s : loop_state).

Definition lastn {A} (n : nat) (l : list A) : list A := skipn (length l - n) l.

Section Execution.

Variable E : env.
Variables (base_url provider api_key session_user : string).
Variable model_probe_timeout : N.
Variable user_message : string.

Definition log (s : loop_state) (e : event) : list event := app (trace s) [e].

Definition or_default (s d : string) : string := if String.eqb s "" then d else s.

(** The fallback branch shared by a failed preflight and a model-load
    failure of the run. *)
Definition fallback_step (s : loop_state) (rest : list string) (active_model : string)
    (err_text last_err : string) (pf : list string) (tr : list event)
    (summary : string) : step_result :=
  let '(fallback_models, probe_detail) :=
    _fallback_models_after_load_failure (e_discover E (discover_calls s)) provider active_model in
  let tr := app tr [EvDiscover] in
  let new_candidates := new_fallback_candidates (attempted_models s) rest fallback_models in
  let s' := mkState rest (attempted_models s) last_err pf (S (discover_calls s)) tr in
  match new_candidates with
  | _ :: _ => Continue (mkState (app rest new_candidates) (attempted_models s) last_err pf
                          (S (discover_calls s)) tr)
  | [] =>
      Return (result_fail summary
                (err_text ++ nl ++ "Attempted models: " ++ py_join ", " (attempted_models s)
                 ++ nl ++ "Model probe detail: " ++ probe_detail) 2) s'
  end.

(** The [except Exception as exc] handler of the run block. *)
Definition run_exception_step (s : loop_state) (rest : list string) (active_model : string)
    (e : exc) (tr : list event) : step_result :=
  let err_text := exc_msg e in
  let lowered := py_lower err_text in
  let pf := preflight_failures s in
  if _is_model_load_failure err_text then
    fallback_step s rest active_model err_text err_text pf tr
      "OpenHands model failed to load and no fallback model succeeded"
  else
    let s' := mkState rest (attempted_models s) err_text pf (discover_calls s) tr in
    if contains "connection error" lowered || contains "connection refused" lowered then
      Return (result_fail "OpenHands could not connect to the configured local LLM endpoint"
                (err_text ++ nl ++ "Model: " ++ active_model ++ nl ++ "Base URL: " ++ base_url
                 ++ nl ++ "Verify the host LLM server is running and reachable from Docker.") 2) s'
    else if contains "cannot truncate prompt with n_keep" lowered && contains "n_ctx" lowered then
      Return (result_fail "OpenHands prompt exceeded LM Studio context window"
                (err_text ++ nl ++ "Reduce overall prompt/context size, increase model context window, "
                 ++ "or use a model/runtime with larger context support.") 2) s'
    else Return (result_fail "OpenHands agent task execution failed" err_text 1) s'.

Definition changed_files_result (changed_paths : list string) : dict :=
  match changed_paths with
  | [] => result_ok "Executed task via OpenHands agent (no file changes detected)"
            "No modified files were detected after execution."
  | _ :: _ =>
      let listed := py_join nl (map (fun p => "- " ++ p) (firstn 40 changed_paths)) in
      let listed := if Nat.ltb 40 (length changed_paths) then listed ++ nl ++ "- ..." else listed in
      result_ok ("Executed task and modified " ++ pretty (length changed_paths) ++ " file(s)")
        ("Changed files:" ++ nl ++ listed)
  end.

(** The [try] block for a model whose chat preflight passed: tool
    preflight, agent construction, send and run. *)
Definition run_step (s : loop_state) (rest : list string) (active_model : string)
    (tr : list event) : step_result :=
  let s_ret tr := mkState rest (attempted_models s) (last_error_text s)
                    (preflight_failures s) (discover_calls s) tr in
  let agent_stage (msg : string) (tr : list event) : step_result :=
    let tr := app tr [EvAgent active_model] in
    match e_agent_build E active_model with
    | Some e => run_exception_step s rest active_model e tr
    | None =>
        let tr := app tr [EvSend active_model msg; EvRun active_model true] in
        match e_run E active_model true with
        | None => Return (changed_files_result (e_changed E active_model)) (s_ret tr)
        | Some e =>
            match exc_kind_of e with
            | KTypeError =>
                let tr := app tr [EvRun active_model false] in
                match e_run E active_model false with
                | None => Return (changed_files_result (e_changed E active_model)) (s_ret tr)
                | Some e' => run_exception_step s rest active_model e' tr
                end
            | _ => run_exception_step s rest active_model e tr
            end
        end
    end in
  if e_tool_enabled E then
    let preflight_model_raw := py_strip (e_tool_model_raw E) in
    let preflight_model := if String.eqb preflight_model_raw "" then active_model
                           else _normalize_litellm_model preflight_model_raw provider in
    let tr := app tr [EvToolPreflight active_model preflight_model] in
    let d := _tool_need_preflight (e_json_loads E) (e_tool_enabled E) (e_tool_strict E)
               (e_tool_http E preflight_model) in
    if hard_fail d then
      Return (result_fail "Tool preflight returned non-JSON response"
                ("Preflight must return one valid JSON object in a single response." ++ nl
                 ++ "Reason: " ++ or_default (why d) "parse failed" ++ nl
                 ++ "Detail: " ++ or_default (py_strip (error d)) "(none)") 2) (s_ret tr)
    else if negb (needs_tools d) then
      let plan_lines :=
        app (if String.eqb (py_strip (why d)) "" then [] else ["Reason: " ++ py_strip (why d)])
            (if String.eqb (py_strip (plan d)) "" then [] else ["Plan: " ++ py_strip (plan d)]) in
      Return (result_ok "Preflight handled request without repository tools"
                (match plan_lines with
                 | [] => "No repository tools required."
                 | _ => py_join nl plan_lines
                 end)) (s_ret tr)
    else
      let fc := py_strip (first_command d) in
      let msg := if String.eqb fc "" then user_message
                 else user_message ++ nl ++ nl
                      ++ "Preflight hint: start with this first command if it fits the task: `"
                      ++ fc ++ "`" in
      agent_stage msg tr
  else agent_stage user_message tr.

(** One iteration of [while models_to_try:]. *)
Definition loop_step (s : loop_state) : step_result :=
  match models_to_try s with
  | [] => Continue s
  | active_model :: rest =>
      if str_in active_model (attempted_models s) then
        Continue (mkState rest (attempted_models s) (last_error_text s)
                    (preflight_failures s) (discover_calls s) (trace s))
      else
        let s := mkState rest (app (attempted_models s) [active_model]) (last_error_text s)
                   (preflight_failures s) (discover_calls s) (trace s) in
        if _is_embedding_model active_model then Continue s
        else
          let tr := log s (EvChatPreflight active_model) in
          let '(preflight_ok, preflight_detail) :=
            _llm_model_chat_preflight (e_post E) (e_slot_id E) base_url provider api_key
              active_model session_user model_probe_timeout in
          if negb preflight_ok then
            let entry := active_model ++ ": " ++ preflight_detail in
            let pf := app (preflight_failures s) [entry] in
            let lowered_preflight := py_lower preflight_detail in
            if _is_model_load_failure preflight_detail
               || (contains "model" lowered_preflight && contains "not found" lowered_preflight)
            then fallback_step s rest active_model preflight_detail entry pf tr
                   "OpenHands model preflight failed and no fallback model succeeded"
            else Continue (mkState rest (attempted_models s) entry pf (discover_calls s) tr)
          else run_step s rest active_model tr
  end.

Definition exhausted_result (s : loop_state) : dict :=
  result_fail "OpenHands model selection exhausted with no successful execution"
    ("Attempted models: "
     ++ (match attempted_models s with [] => "(none)" | l => py_join ", " l end) ++ nl
     ++ (match preflight_failures s with
         | [] => ""
         | pf => "Preflight failures:" ++ nl
                 ++ py_join nl (map (fun x => "- " ++ x) (lastn 5 pf)) ++ nl
         end)
     ++ "Last error: " ++ or_default (last_error_text s) "(none captured)") 2.

(** The [while] loop, run for at most [fuel] iterations ([None] when the
    fuel runs out; the Python loop has no such bound). *)
Fixpoint candidate_loop (fuel : nat) (s : loop_state) : option (dict * loop_state) :=
  match models_to_try s with
  | [] => Some (exhausted_result s, s)
  | _ :: _ =>
      match fuel with
      | O => None
      | S fuel' =>
          match loop_step s with
          | Continue s' => candidate_loop fuel' s'
          | Return r s' => Some (r, s')
          end
      end
  end.

End Execution.

Definition initial_state (model : string) : loop_state := mkState [model] [] "" [] 0 [].

(** ** Result protocol *)

Definition hex_digit (n : nat) : ascii :=
  if Nat.ltb n 10 then ascii_of_nat (48 + n) else ascii_of_nat (87 + n).

Definition chr (n : nat) : string := String (ascii_of_nat n) EmptyString.
Definition dq : string := chr 34.   (* the double quote *)
Definition bs : string := chr 92.   (* the backslash *)

(** One character as [json.dumps(..., ensure_ascii=True)] writes it. *)
Definition json_escape_char (c : ascii) : string :=
  let n := nat_of_ascii c in
  if Nat.eqb n 34 then bs ++ dq
  else if Nat.eqb n 92 then bs ++ bs
  else if Nat.eqb n 10 then bs ++ "n"
  else if Nat.eqb n 13 then bs ++ "r"
  else if Nat.eqb n 9 then bs ++ "t"
  else if Nat.eqb n 8 then bs ++ "b"
  else if Nat.eqb n 12 then bs ++ "f"
  else if Nat.ltb n 32 || Nat.ltb 126 n
  then bs ++ "u00" ++ String (hex_digit (n / 16)) (String (hex_digit (n mod 16)) EmptyString)
  else String c EmptyString.

Fixpoint json_escape (s : string) : string :=
  match s with
  | EmptyString => EmptyString
  | String c r => json_escape_char c ++ json_escape r
  end.

Definition json_quote (s : string) : string := dq ++ json_escape s ++ dq.

(** [json.dumps] with its default separators [", "] and [": "]. *)
Fixpoint json_dumps (j : json) : string :=
  match j with
  | JNull => "null"
  | JBool b => if b then "true" else "false"
  | JInt z => pretty z
  | JFloat r => r
  | JStr s => json_quote s
  | JArr l =>
      "[" ++ (fix go (l : list json) : string :=
                match l with
                | [] => ""
                | [x] => json_dumps x
                | x :: r => json_dumps x ++ ", " ++ go r
                end) l ++ "]"
  | JObj f =>
      "{" ++ (fix go (f : list (string * json)) : string :=
                match f with
                | [] => ""
                | [(k, v)] => json_quote k ++ ": " ++ json_dumps v
                | (k, v) :: r => json_quote k ++ ": " ++ json_dumps v ++ ", " ++ go r
                end) f ++ "}"
  end.



(** ** [_run_agentic_task_execute] and [main] *)

(** Inputs of [_run_agentic_task_execute] besides the loop environment. *)
Record agentic_input : Type := mkAgentic {
  a_sdk_ok : bool;                         (* the openhands imports succeed *)
  a_model : string; a_api_key : string; a_base_url : string;  (* _resolve_llm_config() *)
  a_backend : string;                      (* WORKERPALS_LLM_BACKEND, lowered *)
  a_session_user : string;                 (* _stable_llm_session_user(payload) *)
  a_probe_timeout : N;                     (* model_probe_timeout_sec *)
  a_user_message : string;                 (* _build_agent_user_message(...) *)
  a_get : string -> http_outcome           (* urlopen outcome of a reachability probe *)
}.

Definition _looks_local_base_url (base_url : string) : bool :=
  if String.eqb base_url "" then false
  else let lowered := py_lower base_url in
       contains "localhost" lowered || contains "127.0.0.1" lowered
       || contains "host.docker.internal" lowered.

Definition _infer_litellm_provider (backend base_url : string) : string :=
  if str_in backend ["ollama"; "ollama_chat"] then "ollama"
  else if str_in backend ["lmstudio"; "openai"; "openai_compatible"] then "openai"
  else if contains "11434" (py_lower base_url) then "ollama"
  else "openai".

Definition _run_agentic_task_execute (E : env) (a : agentic_input) (fuel : nat)
    : option (dict * loop_state) :=
  let model := a_model a in
  let base_url := a_base_url a in
  if negb (a_sdk_ok a) then
    Some (result_fail "OpenHands agent mode unavailable in worker runtime"
            "No module named 'openhands'" 3, initial_state model)
  else if String.eqb model "" then
    Some (result_fail "task.execute requires an LLM model for agentic execution. Set WORKERPALS_LLM_MODEL."
            "" 2, initial_state model)
  else
    let api_key_check :=
      if String.eqb (a_api_key a) "" then
        if _looks_local_base_url base_url then inl "local" else inr tt
      else inl (a_api_key a) in
    match api_key_check with
    | inr _ =>
        Some (result_fail "task.execute agent mode requires an API key. Set WORKERPALS_LLM_API_KEY."
                "" 2, initial_state model)
    | inl api_key =>
        let '(reachable, reachability_detail) := _llm_endpoint_reachable (a_get a) base_url model in
        if negb reachable then
          Some (result_fail "OpenHands LLM endpoint is unreachable from worker runtime"
                  ("Could not reach LLM endpoint for model " ++ model ++ " at " ++ base_url
                   ++ ". Last probe error: " ++ reachability_detail) 2, initial_state model)
        else
          candidate_loop E base_url (_infer_litellm_provider (a_backend a) base_url) api_key
            (a_session_user a) (a_probe_timeout a) (a_user_message a) fuel (initial_state model)
    end.





(** * Runtime configuration and settings *)

(** [repr] of a Python value; strings pick their quote as CPython does
    and escape the backslash, that quote, \t \n \r and the other control
    characters. *)
Definition repr_char (q c : ascii) : string :=
  let n := nat_of_ascii c in
  if Ascii.eqb c q || Nat.eqb n 92 then bs ++ String c EmptyString
  else if Nat.eqb n 9 then bs ++ "t"
  else if Nat.eqb n 10 then bs ++ "n"
  else if Nat.eqb n 13 then bs ++ "r"
  else if Nat.ltb n 32 || Nat.eqb n 127
  then bs ++ "x" ++ String (hex_digit (n / 16)) (String (hex_digit (n mod 16)) EmptyString)
  else String c EmptyString.

Fixpoint repr_body (q : ascii) (s : string) : string :=
  match s with
  | EmptyString => EmptyString
  | String c r => repr_char q c ++ repr_body q r
  end.

Definition repr_str (s : string) : string :=
  let q := if contains "'" s && negb (contains dq s) then ascii_of_nat 34 else "'"%char in
  String q (repr_body q s ++ String q EmptyString).

Definition float_truthy (r : string) : bool := negb (String.eqb r "0.0" || String.eqb r "-0.0").

Fixpoint py_repr (j : json) : string :=
  match j with
  | JNull => "None"
  | JBool b => if b then "True" else "False"
  | JInt z => pretty z
  | JFloat r => r
  | JStr s => repr_str s
  | JArr l =>
      "[" ++ (fix go (l : list json) : string :=
                match l with
                | [] => ""
                | [x] => py_repr x
                | x :: r => py_repr x ++ ", " ++ go r
                end) l ++ "]"
  | JObj f =>
      "{" ++ (fix go (f : list (string * json)) : string :=
                match f with
                | [] => ""
                | [(k, v)] => repr_str k ++ ": " ++ py_repr v
                | (k, v) :: r => repr_str k ++ ": " ++ py_repr v ++ ", " ++ go r
                end) f ++ "}"
  end.

(** [str(v)] *)
Definition py_str_full (j : json) : string :=
  match j with
  | JStr s => s
  | _ => py_repr j
  end.

(** [bool(v)] *)
Definition py_bool (j : json) : bool :=
  match j with
  | JNull => false
  | JBool b => b
  | JInt z => negb (z =? 0)%Z
  | JFloat r => float_truthy r
  | JStr s => negb (String.eqb s "")
  | JArr l => negb (Nat.eqb (length l) 0)
  | JObj f => negb (Nat.eqb (length f) 0)
  end.

(** The loop of [_deep_merge] over [override.items()], with the recursive
    call as a parameter. *)
Fixpoint merge_fields (mv : dict -> json -> dict) (out : dict) (fs : dict) : dict :=
  match fs with
  | [] => out
  | (key, value) :: fs' =>
      let v := match dict_get key out, value with
               | Some (JObj existing), JObj _ => JObj (mv existing value)
               | _, _ => value
               end in
      merge_fields mv (dict_set key v out) fs'
  end.

Fixpoint merge_into (base : dict) (override : json) {struct override} : dict :=
  match override with
  | JObj fs => merge_fields merge_into base fs
  | _ => base
  end.

(** [_deep_merge(base, override)] *)
Definition _deep_merge (base override : dict) : dict := merge_into base (JObj override).

(** [s.split(c)] *)
Fixpoint py_split_char (c : ascii) (s : string) : list string :=
  match s with
  | EmptyString => [EmptyString]
  | String d r =>
      let parts := py_split_char c r in
      if Ascii.eqb c d then EmptyString :: parts
      else match parts with
           | p :: ps => String d p :: ps
           | [] => [String d EmptyString]
           end
  end.

(** The loop of [_config_get]. *)
Fixpoint config_walk (default node : json) (parts : list string) : json :=
  match parts with
  | [] => node
  | part :: ps =>
      match node with
      | JObj d => match dict_get part d with
                  | Some v => config_walk default v ps
                  | None => default
                  end
      | _ => default
      end
  end.

(** [_config_get(path, default)] on the loaded configuration [cfg]. *)
Definition _config_get (cfg : dict) (path : string) (default : json) : json :=
  config_walk default (JObj cfg) (py_split_char "."%char path).

(** The environment, [os.environ.get]. *)
Definition environ : Type := string -> option string.

(** [_runtime_config()] without its cache: [load f] is
    [_parse_toml_file(config_dir / f)], [{}] for a missing or invalid
    file. *)
Definition _runtime_config (env : environ) (load : string -> dict) : dict :=
  let default_cfg := load "default.toml" in
  let profile :=
    or_default (py_strip (match env "PUSHPALS_PROFILE" with Some v => v | None => "" end))
      (or_default
         (py_strip (match dict_get "profile" default_cfg with
                    | Some v => if py_bool v then py_str_full v else ""
                    | None => ""
                    end))
         "dev") in
  let profile_cfg := load (profile ++ ".toml") in
  let local_cfg := load "local.toml" in
  _deep_merge (_deep_merge default_cfg profile_cfg) local_cfg.

Definition env_text (env : environ) (name : string) : string :=
  match env name with Some v => v | None => "" end.

Definition _setting_str (env : environ) (cfg : dict) (name config_path default : string)
    : string :=
  let raw := py_strip (env_text env name) in
  if negb (String.eqb raw "") then raw
  else match _config_get cfg config_path JNull with
       | JNull => default
       | JStr s => let trimmed := py_strip s in
                   if String.eqb trimmed "" then default else trimmed
       | v => or_default (py_strip (py_str_full v)) default
       end.

Definition on_words : list string := ["1"; "true"; "yes"; "on"].
Definition off_words : list string := ["0"; "false"; "no"; "off"].

Definition _setting_bool (env : environ) (cfg : dict) (name config_path : string)
    (default : bool) : bool :=
  match env name with
  | Some raw =>
      let text := py_lower (py_strip raw) in
      if str_in text on_words then true
      else if str_in text off_words then false
      else default
  | None =>
      match _config_get cfg config_path (JBool default) with
      | JBool b => b
      | JInt z => negb (z =? 0)%Z
      | JFloat r => float_truthy r
      | JStr s =>
          let text := py_lower (py_strip s) in
          if str_in text on_words then true
          else if str_in text off_words then false
          else default
      | _ => default
      end
  end.

Definition _is_truthy_env (env : environ) (cfg : dict) (name : string) (default : bool)
    (config_path : string) : bool :=
  if negb (String.eqb config_path "") then _setting_bool env cfg name config_path default
  else match env name with
       | None => default
       | Some raw => str_in (py_lower (py_strip raw)) on_words
       end.

Definition _tool_preflight_enabled (env : environ) (cfg : dict) : bool :=
  _is_truthy_env env cfg "WORKERPALS_OPENHANDS_TOOL_PREFLIGHT_ENABLED" true
    "workerpals.openhands.tool_preflight_enabled".

Definition _tool_preflight_require_json (env : environ) (cfg : dict) : bool :=
  _is_truthy_env env cfg "WORKERPALS_OPENHANDS_TOOL_PREFLIGHT_REQUIRE_JSON" true
    "workerpals.openhands.tool_preflight_require_json".

Definition _browser_tool_enabled (env : environ) (cfg : dict) : bool :=
  _is_truthy_env env cfg "WORKERPALS_OPENHANDS_ENABLE_BROWSER_TOOL" false
    "workerpals.openhands.enable_browser_tool".

(** ** Session identifiers *)

(** The class [a-z0-9._:-]. *)
Definition session_char (c : ascii) : bool :=
  let n := nat_of_ascii c in
  (Nat.leb 97 n && Nat.leb n 122) || (Nat.leb 48 n && Nat.leb n 57)
  || Nat.eqb n 46 || Nat.eqb n 95 || Nat.eqb n 58 || Nat.eqb n 45.

Definition hyphen : ascii := "-"%char.

(** [re.sub(r"[^a-z0-9._:-]+", "-", s)]; [in_run] is set inside a run of
    replaced characters. *)
Fixpoint sub_disallowed (in_run : bool) (s : string) : string :=
  match s with
  | EmptyString => EmptyString
  | String c r =>
      if session_char c then String c (sub_disallowed false r)
      else if in_run then sub_disallowed true r
      else String hyphen (sub_disallowed true r)
  end.

(** [re.sub(r"-{2,}", "-", s)]: every run of hyphens becomes one. *)
Fixpoint collapse_hyphens (prev : bool) (s : string) : string :=
  match s with
  | EmptyString => EmptyString
  | String c r =>
      if Ascii.eqb c hyphen then
        if prev then collapse_hyphens true r else String c (collapse_hyphens true r)
      else String c (collapse_hyphens false r)
  end.

(** [s.lstrip(c)] and [s.rstrip(c)] *)
Fixpoint lstrip_char (c : ascii) (s : string) : string :=
  match s with
  | EmptyString => EmptyString
  | String d r => if Ascii.eqb d c then lstrip_char c r else s
  end.

Fixpoint rstrip_char (c : ascii) (s : string) : string :=
  match s with
  | EmptyString => EmptyString
  | String d r =>
      let r' := rstrip_char c r in
      if String.eqb r' "" && Ascii.eqb d c then EmptyString else String d r'
  end.

Definition strip_char (c : ascii) (s : string) : string := rstrip_char c (lstrip_char c s).

Definition _safe_session_component (value : json) (fallback : string) : string :=
  let text := py_lower (py_strip (if py_bool value then py_str_full value else "")) in
  let text := if String.eqb text "" then fallback else text in
  let text := strip_char hyphen (collapse_hyphens false (sub_disallowed false text)) in
  let text := if String.eqb text "" then fallback else text in
  substring 0 64 text.

(** [(payload or {}).get(k)], [None] read as [JNull]. *)
Definition payload_get (payload : option dict) (k : string) : json :=
  match payload with
  | Some d => match dict_get k d with Some v => v | None => JNull end
  | None => JNull
  end.

Definition _stable_llm_session_user (env : environ) (cfg : dict) (payload : option dict)
    : string :=
  let override := _setting_str env cfg "WORKERPALS_LLM_SESSION_ID" "workerpals.llm.session_id" "" in
  if negb (String.eqb override "") then _safe_session_component (JStr override) "pushpals-worker"
  else
    let session_id :=
      _safe_session_component (JStr (_setting_str env cfg "PUSHPALS_SESSION_ID" "session_id" ""))
        "session" in
    let worker_id := _safe_session_component (payload_get payload "workerId") "worker" in
    let task_id := _safe_session_component (payload_get payload "taskId") "task" in
    "pushpals-" ++ session_id ++ "-" ++ worker_id ++ "-" ++ task_id.

(** * Changed files: [_summarize_git_changes] *)

(** The line boundaries of [str.splitlines] in ASCII: \n \x0b \x0c \r
    \x1c \x1d \x1e, with \r\n read as one. *)
Definition is_line_break (c : ascii) : bool :=
  let n := nat_of_ascii c in
  (Nat.leb 10 n && Nat.leb n 13) || (Nat.leb 28 n && Nat.leb n 30).

(** [acc] holds the current line reversed. *)
Fixpoint splitlines_go (acc : string) (s : string) : list string :=
  match s with
  | EmptyString => if String.eqb acc "" then [] else [string_rev acc]
  | String c r =>
      if Nat.eqb (nat_of_ascii c) 13 then
        match r with
        | String d r' =>
            if Nat.eqb (nat_of_ascii d) 10 then string_rev acc :: splitlines_go "" r'
            else string_rev acc :: splitlines_go "" r
        | EmptyString => string_rev acc :: splitlines_go "" r
        end
      else if is_line_break c then string_rev acc :: splitlines_go "" r
      else splitlines_go (String c acc) r
  end.

(** [s.splitlines()] *)
Definition py_splitlines (s : string) : list string := splitlines_go "" s.

(** [s.split(sep, 1)] when [sep in s]: the text before and after the first
    occurrence. *)
Fixpoint split_once (sep s : string) : option (string * string) :=
  match s with
  | EmptyString => None
  | String c r =>
      if starts_with sep s
      then Some (EmptyString, substring (String.length sep) (String.length s - String.length sep) s)
      else match split_once sep r with
           | Some (a, b) => Some (String c a, b)
           | None => None
           end
  end.

(** The body of the loop over [proc.stdout.splitlines()]: the path it
    appends, if any. *)
Definition porcelain_line_path (line : string) : list string :=
  let clean := py_strip line in
  if String.eqb clean "" then []
  else
    let path := if Nat.ltb 3 (String.length clean)
                then substring 3 (String.length clean - 3) clean else clean in
    let path := if contains " -> " path
                then match split_once " -> " path with Some (_, b) => b | None => path end
                else path in
    if String.eqb path "" then [] else [path].

(** [_summarize_git_changes(repo)]: [run] is the outcome of
    [git status --porcelain] (its return code and standard output), [None]
    when [subprocess.run] raises. *)
Definition _summarize_git_changes (run : option (Z * string)) : list string :=
  match run with
  | None => []
  | Some (returncode, stdout) =>
      if negb (returncode =? 0)%Z then []
      else List.concat (map porcelain_line_path (py_splitlines stdout))
  end.

(** * Model discovery *)

(** [_model_candidates_url(base_url, provider)] *)
Definition _model_candidates_url (base_url provider : string) : list string :=
  let normalized := rstrip_slash base_url in
  if String.eqb normalized "" then []
  else if String.eqb provider "ollama" then [normalized ++ "/api/tags"; normalized ++ "/tags"]
  else if ends_with "/v1" normalized then
    let root := rstrip_slash (substring 0 (String.length normalized - String.length "/v1") normalized) in
    app [normalized ++ "/models"] (if String.eqb root "" then [] else [root ++ "/models"])
  else [normalized ++ "/v1/models"; normalized ++ "/models"].

(** The inner loop [for key in keys]: the first key holding a string that
    is not blank, stripped. *)
Fixpoint first_str_id (keys : list string) (item : dict) : option string :=
  match keys with
  | [] => None
  | key :: rest =>
      match dict_get key item with
      | Some (JStr value) =>
          if String.eqb (py_strip value) "" then first_str_id rest item
          else Some (py_strip value)
      | _ => first_str_id rest item
      end
  end.

(** The ids appended by the loop over [items]; items that are not dicts
    are skipped. *)
Definition item_ids (keys : list string) (items : list json) : list string :=
  flat_map (fun item => match item with
                        | JObj f => match first_str_id keys f with Some v => [v] | None => [] end
                        | _ => []
                        end) items.

(** [_extract_model_ids(payload, provider)] *)
Definition _extract_model_ids (payload : json) (provider : string) : list string :=
  if String.eqb provider "ollama" then
    let models := match payload with JObj d => dict_get "models" d | _ => None end in
    match models with
    | Some (JArr items) => dict_fromkeys (item_ids ["name"; "model"; "id"] items)
    | _ => []
    end
  else
    let data := match payload with JObj d => dict_get "data" d | _ => None end in
    match data with
    | Some (JArr items) => dict_fromkeys (item_ids ["id"] items)
    | _ => []
    end.

(** What [urllib.request.urlopen] gives for one URL: a response with its
    status and decoded body, an [HTTPError] with its code and decoded body
    ([None] when reading it raised), or another exception with its text. *)
Inductive fetch_outcome : Type :=
| FResp (status : Z) (raw : string)
| FHttpError (code : Z) (body : option string)
| FExc (msg : string).

(** The request headers. *)
Definition discovery_headers (provider api_key : string) : list (string * string) :=
  app [("Accept", "application/json")]
      (if negb (String.eqb api_key "") && String.eqb provider "openai"
       then [("Authorization", "Bearer " ++ api_key)] else []).

Section Discovery.

Variable fetch : string -> list (string * string) -> fetch_outcome.
Variable json_loads : string -> parse_outcome.

(** [json.loads(raw)] as the payload handed to [_extract_model_ids];
    [inr] is the text of the exception. *)
Definition loads_payload (raw : string) : json + string :=
  match json_loads raw with
  | PObject d => inl (JObj d)
  | PNotObject => inl JNull
  | PError msg => inr msg
  end.

(** The text of [last_error] after an [HTTPError]. *)
Definition http_error_text (url : string) (code : Z) (body : option string) : string :=
  let body := match body with Some b => b | None => "" end in
  let hint := if String.eqb body "" then "" else py_strip (py_prefix 120 body) in
  url ++ ": HTTP " ++ pretty code ++ (if String.eqb hint "" then "" else " (" ++ hint ++ ")").

(** The loop over the candidate URLs. *)
Fixpoint discover_loop (headers : list (string * string)) (provider : string)
    (urls : list string) (last_error : string) : list string * string :=
  match urls with
  | [] => ([], last_error)
  | url :: rest =>
      match fetch url headers with
      | FResp status raw =>
          match loads_payload raw with
          | inl payload =>
              let ids := _extract_model_ids payload provider in
              match ids with
              | _ :: _ => (ids, url ++ " -> " ++ pretty status)
              | [] => discover_loop headers provider rest (url ++ ": no models found in payload")
              end
          | inr msg => discover_loop headers provider rest (url ++ ": " ++ msg)
          end
      | FHttpError code body => discover_loop headers provider rest (http_error_text url code body)
      | FExc msg => discover_loop headers provider rest (url ++ ": " ++ msg)
      end
  end.

(** [_discover_available_models(base_url, provider, api_key)] *)
Definition _discover_available_models (base_url provider api_key : string) : list string * string :=
  if String.eqb base_url "" then ([], "base URL is empty")
  else discover_loop (discovery_headers provider api_key) provider
         (_model_candidates_url base_url provider) "model list probe failed".

(** The ids one URL yields, [[]] when it yields none or fails. *)
Definition url_ids (headers : list (string * string)) (provider url : string) : list string :=
  match fetch url headers with
  | FResp _ raw =>
      match loads_payload raw with
      | inl payload => _extract_model_ids payload provider
      | inr _ => []
      end
  | _ => []
  end.

End Discovery.

(** * LLM configuration *)

(** [_normalize_base_url(raw)] *)
Definition _normalize_base_url (raw : string) : string :=
  let base := py_strip raw in
  if String.eqb base "" then ""
  else
    let base := rstrip_slash base in
    let base := if ends_with "/api/chat" base
                then substring 0 (String.length base - String.length "/api/chat") base else base in
    let base := if ends_with "/chat/completions" base
                then substring 0 (String.length base - String.length "/chat/completions") base
                else base in
    base.

(** [re.match(r"^https?://[^/]+$", s, flags=re.I)] *)
Definition bare_host_url (s : string) : bool :=
  let l := py_lower s in
  let host_ok (h : string) := negb (String.eqb h "") && negb (contains "/" h) in
  (starts_with "http://" l && host_ok (substring 7 (String.length l - 7) l))
  || (starts_with "https://" l && host_ok (substring 8 (String.length l - 8) l)).

(** [_normalize_base_url_for_provider(base_url, provider)] *)
Definition _normalize_base_url_for_provider (base_url provider : string) : string :=
  let normalized := _normalize_base_url base_url in
  if String.eqb normalized "" then normalized
  else if negb (String.eqb provider "openai") then normalized
  else if bare_host_url normalized then normalized ++ "/v1"
  else normalized.

(** [_resolve_llm_config()]: [in_container] is [_running_in_container()],
    [rewrite] is [_rewrite_localhost_for_container]; the messages written
    to stderr are left out. Returns [(model, api_key, base_url)]. *)
Definition _resolve_llm_config (env : environ) (cfg : dict) (in_container : bool)
    (rewrite : string -> string)
    (fetch : string -> list (string * string) -> fetch_outcome)
    (json_loads : string -> parse_outcome) : string * string * string :=
  let raw_model := _setting_str env cfg "WORKERPALS_LLM_MODEL" "workerpals.llm.model" "" in
  let api_key := _setting_str env cfg "WORKERPALS_LLM_API_KEY" "workerpals.llm.api_key" "" in
  let raw_base_url := _setting_str env cfg "WORKERPALS_LLM_ENDPOINT" "workerpals.llm.endpoint" "" in
  let backend := py_lower (_setting_str env cfg "WORKERPALS_LLM_BACKEND" "workerpals.llm.backend" "") in
  let provider := _infer_litellm_provider backend raw_base_url in
  let configured_model := _normalize_litellm_model raw_model provider in
  let base_url := _normalize_base_url_for_provider raw_base_url provider in
  let base_url :=
    if in_container then
      let rewritten := rewrite base_url in
      if negb (String.eqb rewritten base_url) then rewritten else base_url
    else base_url in
  let '(available_models, _) :=
    _discover_available_models fetch json_loads base_url provider api_key in
  let '(selected_model, _) := _pick_configured_or_available_model configured_model available_models in
  let model := _normalize_litellm_model selected_model provider in
  (model, api_key, base_url).

(** * Prompt templates *)

(** [[a-zA-Z0-9_]] *)
Definition is_key_char (c : ascii) : bool :=
  let n := nat_of_ascii c in
  (Nat.leb 97 n && Nat.leb n 122) || (Nat.leb 65 n && Nat.leb n 90)
  || (Nat.leb 48 n && Nat.leb n 57) || Nat.eqb n 95.

(** The longest prefix whose characters satisfy [p], and the rest. *)
Fixpoint span (p : ascii -> bool) (s : string) : string * string :=
  match s with
  | EmptyString => (EmptyString, EmptyString)
  | String c r => if p c then let '(a, b) := span p r in (String c a, b) else (EmptyString, s)
  end.

(** A match of [PROMPT_TOKEN_REGEX], [\{\{\s*([a-zA-Z0-9_]+)\s*\}\}], at
    the start of [s]: the key and the text after the match.  [\s] is
    [str.isspace]; the classes of the pattern are disjoint, so the greedy
    match is the only one. *)
Definition match_token (s : string) : option (string * string) :=
  match s with
  | String "{" (String "{" r) =>
      let '(_, r1) := span py_is_space r in
      let '(key, r2) := span is_key_char r1 in
      if String.eqb key "" then None
      else
        let '(_, r3) := span py_is_space r2 in
        match r3 with
        | String "}" (String "}" r4) => Some (key, r4)
        | _ => None
        end
  | _ => None
  end.

(** [str] lookups in a [Dict[str, str]]. *)
Fixpoint str_lookup (k : string) (d : list (string * string)) : option string :=
  match d with
  | [] => None
  | (k', v) :: rest => if String.eqb k k' then Some v else str_lookup k rest
  end.

(** [PROMPT_TOKEN_REGEX.sub(_replace, s)], scanning left to right; [inr key]
    when [_replace] raises [KeyError] for [key].  [fuel] bounds the number of
    steps; [S (length s)] is enough. *)
Fixpoint sub_tokens (fuel : nat) (replacements : list (string * string)) (s : string)
    : string + string :=
  match fuel with
  | O => inl s
  | S fuel' =>
      match s with
      | EmptyString => inl EmptyString
      | String c r =>
          match match_token s with
          | Some (key, rest) =>
              match str_lookup key replacements with
              | None => inr key
              | Some v =>
                  match sub_tokens fuel' replacements rest with
                  | inl t => inl (v ++ t)
                  | inr e => inr e
                  end
              end
          | None =>
              match sub_tokens fuel' replacements r with
              | inl t => inl (String c t)
              | inr e => inr e
              end
          end
      end
  end.

Definition prompt_sub (replacements : list (string * string)) (template : string) : string + string :=
  sub_tokens (S (String.length template)) replacements template.

Inductive template_error : Type :=
| TemplateNotFound (path : string)           (* FileNotFoundError *)
| MissingReplacement (key : string).         (* KeyError *)

(** [_load_prompt_template(relative_path, replacements)]: [prompt_key] is
    [str(_resolve_prompt_file(relative_path))], [read] the file system
    ([None] when the file does not exist) and [cache] the module-level
    [_PROMPT_TEMPLATE_CACHE], threaded through. *)
Definition _load_prompt_template (cache : list (string * string)) (read : string -> option string)
    (prompt_key : string) (replacements : option (list (string * string)))
    : (string + template_error) * list (string * string) :=
  let loaded :=
    match str_lookup prompt_key cache with
    | Some template => inl (template, cache)
    | None =>
        match read prompt_key with
        | None => inr (TemplateNotFound prompt_key)
        | Some template => inl (template, (prompt_key, template) :: cache)
        end
    end in
  match loaded with
  | inr e => (inr e, cache)
  | inl (template, cache') =>
      match replacements with
      | None | Some [] => (inl template, cache')
      | Some repl =>
          match prompt_sub repl template with
          | inl s => (inl s, cache')
          | inr key => (inr (MissingReplacement key), cache')
          end
      end
  end.

(** * Shell commands of the deterministic jobs *)

(** ** [base64.b64encode] and [base64.b64decode] *)

Definition b64_alphabet : string :=
  "ABCDEFGHIJKLMNOPQRSTUVWXYZabcdefghijklmnopqrstuvwxyz0123456789+/".

Definition b64_char (n : nat) : ascii :=
  match String.get n b64_alphabet with Some c => c | None => "="%char end.

(** The position of a character in the alphabet. *)
Definition b64_index (c : ascii) : option nat :=
  let n := nat_of_ascii c in
  if Nat.leb 65 n && Nat.leb n 90 then Some (n - 65)
  else if Nat.leb 97 n && Nat.leb n 122 then Some (n - 71)
  else if Nat.leb 48 n && Nat.leb n 57 then Some (n + 4)
  else if Nat.eqb n 43 then Some 62
  else if Nat.eqb n 47 then Some 63
  else None.

(** Each group of three bytes gives four characters; a last group of one or
    two bytes is padded with [=]. *)
Fixpoint b64encode (s : string) : string :=
  match s with
  | String a (String b (String c r)) =>
      let x := nat_of_ascii a in let y := nat_of_ascii b in let z := nat_of_ascii c in
      String (b64_char (x / 4)) (String (b64_char ((x mod 4) * 16 + y / 16))
        (String (b64_char ((y mod 16) * 4 + z / 64)) (String (b64_char (z mod 64))
          (b64encode r))))
  | String a (String b EmptyString) =>
      let x := nat_of_ascii a in let y := nat_of_ascii b in
      String (b64_char (x / 4)) (String (b64_char ((x mod 4) * 16 + y / 16))
        (String (b64_char ((y mod 16) * 4)) "="))
  | String a EmptyString =>
      let x := nat_of_ascii a in
      String (b64_char (x / 4)) (String (b64_char ((x mod 4) * 16)) "==")
  | EmptyString => EmptyString
  end.

(** Decoding of canonical input (groups of four alphabet characters, [=]
    padding in the last group only); other input gives [None]. *)
Fixpoint b64decode (s : string) : option string :=
  match s with
  | EmptyString => Some EmptyString
  | String w (String x (String y (String z r))) =>
      match b64_index w, b64_index x with
      | Some i, Some j =>
          let a := ascii_of_nat (i * 4 + j / 16) in
          match b64_index y with
          | None =>
              if Ascii.eqb y "="%char && Ascii.eqb z "="%char && String.eqb r ""
              then Some (String a EmptyString) else None
          | Some k =>
              let b := ascii_of_nat ((j mod 16) * 16 + k / 4) in
              match b64_index z with
              | None =>
                  if Ascii.eqb z "="%char && String.eqb r ""
                  then Some (String a (String b EmptyString)) else None
              | Some l =>
                  let c := ascii_of_nat ((k mod 4) * 64 + l) in
                  option_map (fun t => String a (String b (String c t))) (b64decode r)
              end
          end
      | _, _ => None
      end
  | _ => None
  end.

(** [str.encode("utf-8")] of a string of code points below 256. *)
Fixpoint utf8_encode (s : string) : string :=
  match s with
  | EmptyString => EmptyString
  | String c r =>
      let n := nat_of_ascii c in
      if Nat.ltb n 128 then String c (utf8_encode r)
      else String (ascii_of_nat (192 + n / 64)) (String (ascii_of_nat (128 + n mod 64)) (utf8_encode r))
  end.

(** ** [shlex.quote] *)

(** [[\w@%+=:,./-]] with [re.ASCII]: the characters left unquoted. *)
Definition shlex_safe_char (c : ascii) : bool :=
  is_key_char c ||
  (let n := nat_of_ascii c in
   Nat.eqb n 64 || Nat.eqb n 37 || Nat.eqb n 43 || Nat.eqb n 61 || Nat.eqb n 58
   || Nat.eqb n 44 || Nat.eqb n 46 || Nat.eqb n 47 || Nat.eqb n 45).

(** [_find_unsafe(s) is not None] *)
Fixpoint find_unsafe (s : string) : bool :=
  match s with
  | EmptyString => false
  | String c r => negb (shlex_safe_char c) || find_unsafe r
  end.

(** [s.replace(q, ...)]: each single quote becomes the five characters
    single quote, double quote, single quote, double quote, single quote. *)
Fixpoint quote_single (s : string) : string :=
  match s with
  | EmptyString => EmptyString
  | String c r =>
      if Ascii.eqb c "'"%char then "'" ++ dq ++ "'" ++ dq ++ "'" ++ quote_single r
      else String c (quote_single r)
  end.

Definition shlex_quote (s : string) : string :=
  if String.eqb s "" then "''"
  else if negb (find_unsafe s) then s
  else "'" ++ quote_single s ++ "'".

(** ** One word as a POSIX shell reads it *)

Inductive sh_mode : Type := ShUnquoted | ShSingle | ShDouble.

(** Unquoted characters that end a word or are not taken literally: blanks,
    operators, expansions, glob characters and, to be safe, [# ~ { } ! ^]. *)
Definition sh_special (c : ascii) : bool :=
  let n := nat_of_ascii c in
  existsb (Nat.eqb n)
    [32; 9; 10; 124; 38; 59; 60; 62; 40; 41; 36; 96; 42; 63; 91; 93; 35; 126; 123; 125; 33; 94].

(** Quote removal over the whole text: [Some v] when the text is one word
    whose value is [v] with no expansion; [None] otherwise (an unclosed
    quote, an expansion, a character that ends the word, or a NUL byte). *)
Fixpoint sh_word_go (m : sh_mode) (s : string) : option string :=
  match s with
  | EmptyString => match m with ShUnquoted => Some EmptyString | _ => None end
  | String c r =>
      let n := nat_of_ascii c in
      if Nat.eqb n 0 then None else
      match m with
      | ShSingle =>
          if Nat.eqb n 39 then sh_word_go ShUnquoted r
          else option_map (String c) (sh_word_go ShSingle r)
      | ShDouble =>
          if Nat.eqb n 34 then sh_word_go ShUnquoted r
          else if Nat.eqb n 36 || Nat.eqb n 96 then None
          else if Nat.eqb n 92 then
            match r with
            | String d r' =>
                let k := nat_of_ascii d in
                if Nat.eqb k 10 then sh_word_go ShDouble r'
                else if Nat.eqb k 36 || Nat.eqb k 96 || Nat.eqb k 34 || Nat.eqb k 92
                then (if Nat.eqb k 0 then None else option_map (String d) (sh_word_go ShDouble r'))
                else option_map (String c) (sh_word_go ShDouble r)
            | EmptyString => None
            end
          else option_map (String c) (sh_word_go ShDouble r)
      | ShUnquoted =>
          if Nat.eqb n 39 then sh_word_go ShSingle r
          else if Nat.eqb n 34 then sh_word_go ShDouble r
          else if Nat.eqb n 92 then
            match r with
            | String d r' =>
                let k := nat_of_ascii d in
                if Nat.eqb k 0 then None
                else if Nat.eqb k 10 then sh_word_go ShUnquoted r'
                else option_map (String d) (sh_word_go ShUnquoted r')
            | EmptyString => None
            end
          else if sh_special c then None
          else option_map (String c) (sh_word_go ShUnquoted r)
      end
  end.

Definition sh_word (s : string) : option string :=
  if String.eqb s "" then None else sh_word_go ShUnquoted s.

(** ** [int(value)] *)

Definition is_digit (c : ascii) : bool :=
  Nat.leb 48 (nat_of_ascii c) && Nat.leb (nat_of_ascii c) 57.

Definition digit_val (c : ascii) : Z := Z.of_nat (nat_of_ascii c - 48).

(** Decimal digits, an underscore allowed between two digits. *)
Fixpoint int_digits (acc : Z) (s : string) : option Z :=
  match s with
  | EmptyString => Some acc
  | String c r =>
      if is_digit c then int_digits (acc * 10 + digit_val c)%Z r
      else if Ascii.eqb c "_"%char then
        match r with
        | String d r' => if is_digit d then int_digits (acc * 10 + digit_val d)%Z r' else None
        | EmptyString => None
        end
      else None
  end.

Definition int_unsigned (s : string) : option Z :=
  match s with
  | String c _ => if is_digit c then int_digits 0 s else None
  | EmptyString => None
  end.

(** [int(s)] of a string: surrounding whitespace, an optional sign, then
    the digits. *)
Definition py_int_str (s : string) : option Z :=
  match py_strip s with
  | String c r =>
      if Ascii.eqb c "-"%char then option_map Z.opp (int_unsigned r)
      else if Ascii.eqb c "+"%char then int_unsigned r
      else int_unsigned (String c r)
  | EmptyString => None
  end.

(** ** [_extract_target_path_from_instruction] *)

(** A lower-case word matched case-insensitively at the start of [s]: the
    rest of [s]. *)
Fixpoint match_word_ci (w s : string) : option string :=
  match w, s with
  | EmptyString, _ => Some s
  | String c w', String d s' => if Ascii.eqb c (lower_char d) then match_word_ci w' s' else None
  | String _ _, EmptyString => None
  end.

(** [\s+]: the rest after the longest run of at least one whitespace. *)
Definition match_spaces (s : string) : option string :=
  match s with
  | String c r => if py_is_space c then Some (py_lstrip r) else None
  | EmptyString => None
  end.

Definition is_quote_char (c : ascii) : bool :=
  Nat.eqb (nat_of_ascii c) 34 || Nat.eqb (nat_of_ascii c) 39 || Nat.eqb (nat_of_ascii c) 96.

(** [[^\s]] without the three quote characters: double quote, single
    quote and backquote. *)
Definition path_char (c : ascii) : bool := negb (py_is_space c) && negb (is_quote_char c).

(** [\s+], an optional quote character, then the path group of
    characters [path_char], at the start of [s].
    Backtracking cannot help: a shorter [\s+] leaves a blank, a skipped quote
    is not a path character, a shorter path ends the match just the same. *)
Definition match_path_tail (s : string) : option string :=
  match match_spaces s with
  | Some t =>
      let t' := match t with
                | String c r => if is_quote_char c then r else t
                | EmptyString => t
                end in
      match span path_char t' with
      | (EmptyString, _) => None
      | (p, _) => Some p
      end
  | None => None
  end.

Definition opt_list (o : option string) : list string :=
  match o with Some t => [t] | None => [] end.

(** The texts after each way of matching
    [file\s+(?:called|named)|create\s+(?:a\s+)?file|write\s+(?:to|into)]
    at the start of [s], in the order the regex tries them. *)
Definition alt_rests (s : string) : list string :=
  let kw (w r : string) : list string := opt_list (match_word_ci w r) in
  let sp (r : string) : list string := opt_list (match_spaces r) in
  app (flat_map (fun r1 => flat_map (fun r2 => app (kw "called" r2) (kw "named" r2)) (sp r1))
         (kw "file" s))
  (app (flat_map (fun r1 =>
          flat_map (fun r2 => app (flat_map (fun r3 => flat_map (kw "file") (sp r3)) (kw "a" r2))
                                  (kw "file" r2)) (sp r1)) (kw "create" s))
       (flat_map (fun r1 => flat_map (fun r2 => app (kw "to" r2) (kw "into" r2)) (sp r1))
          (kw "write" s))).

Fixpoint first_some (l : list (option string)) : option string :=
  match l with
  | [] => None
  | Some p :: _ => Some p
  | None :: r => first_some r
  end.

Definition match_target_at (s : string) : option string :=
  first_some (map match_path_tail (alt_rests s)).

(** [re.search]: the leftmost position with a match. *)
Fixpoint search_target (s : string) : option string :=
  match match_target_at s with
  | Some p => Some p
  | None => match s with String _ r => search_target r | EmptyString => None end
  end.

(** [s.rstrip(chars)] *)
Fixpoint lstrip_set (cs s : string) : string :=
  match s with
  | EmptyString => EmptyString
  | String c r => if contains (String c EmptyString) cs then lstrip_set cs r else s
  end.

Definition rstrip_set (cs s : string) : string := string_rev (lstrip_set cs (string_rev s)).

Definition _extract_target_path_from_instruction (instruction : string) : string :=
  match search_target instruction with
  | Some p => rstrip_set ".,!?;:" (py_strip p)
  | None => ""
  end.

(** ** [_python_cmd], [_python_script_cmd] and [_job_to_command] *)

Section Jobs.

(** [int(x)] of a float given by its repr ([None] for inf and nan), and
    [str(Path(p).resolve())], which reads the file system. *)
Variable float_int : string -> option Z.
Variable path_resolve : string -> string.
Variables (env : environ) (cfg : dict).

Definition _to_int (value : json) (default : Z) : Z :=
  match value with
  | JInt z => z
  | JBool b => if b then 1%Z else 0%Z
  | JFloat r => match float_int r with Some z => z | None => default end
  | JStr s => match py_int_str s with Some z => z | None => default end
  | _ => default
  end.

Definition _python_cmd (script : string) : string :=
  let encoded := b64encode (utf8_encode script) in
  let python_bin := shlex_quote (_setting_str env cfg "WORKERPALS_OPENHANDS_WORKSPACE_PYTHON"
                                   "workerpals.openhands.workspace_python" "python3") in
  python_bin ++ " - <<'PY'" ++ nl
  ++ "import base64" ++ nl
  ++ "exec(base64.b64decode('" ++ encoded ++ "').decode('utf-8'))" ++ nl
  ++ "PY".

(** The [runner] f-string of [_python_script_cmd]. *)
Definition python_runner (repo_resolved script_rel payload_b64 : string) : string :=
  nl ++ "import runpy" ++ nl
  ++ "import sys" ++ nl
  ++ "from pathlib import Path" ++ nl
  ++ nl
  ++ "repo_root = Path(" ++ json_quote repo_resolved ++ ").resolve()" ++ nl
  ++ "script_path = (repo_root / " ++ json_quote script_rel ++ ").resolve()" ++ nl
  ++ "if not script_path.exists():" ++ nl
  ++ "    raise SystemExit(f" ++ dq ++ "Script not found: {script_path}" ++ dq ++ ")" ++ nl
  ++ "sys.argv = [str(script_path), " ++ json_quote payload_b64 ++ "]" ++ nl
  ++ "runpy.run_path(str(script_path), run_name=" ++ dq ++ "__main__" ++ dq ++ ")" ++ nl.

Definition _python_script_cmd (repo script_rel : string) (payload : dict) : string :=
  let payload_b64 := b64encode (utf8_encode (json_dumps (JObj payload))) in
  let repo_resolved := path_resolve repo in
  _python_cmd (python_runner repo_resolved script_rel payload_b64).

(** [req(name)]: [inr] is the [ValueError] message. *)
Definition job_req (kind name : string) (params : dict) : json + string :=
  match dict_get name params with
  | None | Some JNull | Some (JStr EmptyString) => inr (kind ++ " requires '" ++ name ++ "'")
  | Some v => inl v
  end.

Definition req_then {A : Type} (r : json + string) (k : json -> A + string) : A + string :=
  match r with inl v => k v | inr e => inr e end.

(** [params.get(name)] in a condition *)
Definition get_truthy (name : string) (params : dict) : bool :=
  match dict_get name params with Some v => py_bool v | None => false end.

(** [params.get(name) or default] *)
Definition get_or (name : string) (params : dict) (default : json) : json :=
  match dict_get name params with Some v => if py_bool v then v else default | None => default end.

(** [params.get(name, default)] *)
Definition get_default (name : string) (params : dict) (default : json) : json :=
  match dict_get name params with Some v => v | None => default end.

Definition ops_script : string := "apps/workerpals/scripts/deterministic_ops.py".

(** [_job_to_command(kind, params, repo)]: the command and the preferred
    summary, or the message of the [ValueError] raised by [req]. *)
Definition _job_to_command (kind : string) (params : dict) (repo : string)
    : (option string * option string) + string :=
  let script := _python_script_cmd repo ops_script in
  if String.eqb kind "bun.test" then
    let cmd := if get_truthy "filter" params
               then "bun test" ++ " --filter " ++ shlex_quote (py_str_full (get_default "filter" params JNull))
               else "bun test" in
    inl (Some cmd, None)
  else if String.eqb kind "bun.lint" then inl (Some "bun run lint", None)
  else if String.eqb kind "git.status" then inl (Some "git status --porcelain", None)
  else if String.eqb kind "git.log" then
    let count := Z.min (Z.max (_to_int (get_default "count" params (JInt 20)) 20) 1) 100 in
    let cmd := "git log --oneline --format=%h\ %s\ (%an,\ %ar) -n " ++ pretty count in
    let cmd := if get_truthy "branch" params
               then cmd ++ " " ++ shlex_quote (py_str_full (get_default "branch" params JNull))
               else cmd in
    inl (Some cmd, None)
  else if String.eqb kind "git.branch" then
    if get_truthy "all" params then inl (Some "git branch -a -v", None)
    else inl (Some "git branch -v", None)
  else if String.eqb kind "git.diff" then inl (Some "git diff", None)
  else if String.eqb kind "file.read" then
    req_then (job_req kind "path" params) (fun path =>
      inl (Some ("cat " ++ shlex_quote (py_str_full path)), None))
  else if String.eqb kind "file.search" then
    req_then (job_req kind "pattern" params) (fun pattern =>
      inl (Some ("rg --no-heading --line-number "
                 ++ shlex_quote (py_str_full pattern) ++ " . || grep -rn "
                 ++ shlex_quote (py_str_full pattern) ++ " . || true"), None))
  else if String.eqb kind "file.list" then inl (Some "git ls-tree --name-only -r HEAD", None)
  else if String.eqb kind "ci.status" then
    inl (Some ("gh run list --limit 5 " ++ "--json status,conclusion,name,headBranch,createdAt,url"), None)
  else if String.eqb kind "project.summary" then
    let instruction := py_str_full (get_or "instruction" params
                         (JStr "Summarize repository architecture and key components.")) in
    let cmd := script [("op", JStr "project.summary"); ("repoRoot", JStr repo);
                       ("instruction", JStr instruction);
                       ("recentJobs", get_default "recentJobs" params (JArr []))] in
    inl (Some cmd, Some "Generated repository architecture summary")
  else if String.eqb kind "shell.exec" then
    req_then (job_req kind "command" params) (fun command => inl (Some (py_str_full command), None))
  else if String.eqb kind "task.execute" then
    req_then (job_req kind "instruction" params) (fun instr =>
      let instruction := py_str_full instr in
      let lane := py_lower (py_strip (py_str_full (get_or "lane" params (JStr "openhands")))) in
      let target_path := py_strip (py_str_full (get_or "targetPath" params
                                                 (get_or "path" params (JStr "")))) in
      let target_path := if String.eqb target_path ""
                         then _extract_target_path_from_instruction instruction
                         else target_path in
      let cmd := script [("op", JStr "task.summary"); ("repoRoot", JStr repo);
                         ("instruction", JStr instruction); ("lane", JStr lane);
                         ("targetPath", JStr target_path);
                         ("recentJobs", get_default "recentJobs" params (JArr []))] in
      if String.eqb target_path ""
      then inl (Some cmd, Some "Executed deterministic task summary (no targetPath provided)")
      else inl (Some cmd, Some ("Executed task and wrote " ++ target_path)))
  else if String.eqb kind "file.write" then
    req_then (job_req kind "path" params) (fun p =>
    req_then (job_req kind "content" params) (fun c =>
      let path := py_str_full p in let content := py_str_full c in
      let cmd := script [("op", JStr "file.write"); ("repoRoot", JStr repo);
                         ("path", JStr path); ("content", JStr content)] in
      inl (Some cmd, Some ("Wrote " ++ pretty (String.length content) ++ " bytes to " ++ path))))
  else if String.eqb kind "file.patch" then
    req_then (job_req kind "path" params) (fun p =>
    req_then (job_req kind "oldText" params) (fun o =>
    req_then (job_req kind "newText" params) (fun n =>
      let path := py_str_full p in
      let cmd := script [("op", JStr "file.patch"); ("repoRoot", JStr repo);
                         ("path", JStr path); ("oldText", JStr (py_str_full o));
                         ("newText", JStr (py_str_full n))] in
      inl (Some cmd, Some ("Patched " ++ path)))))
  else if String.eqb kind "file.rename" then
    req_then (job_req kind "from" params) (fun s =>
    req_then (job_req kind "to" params) (fun d =>
      let src := py_str_full s in let dst := py_str_full d in
      let cmd := script [("op", JStr "file.rename"); ("repoRoot", JStr repo);
                         ("from", JStr src); ("to", JStr dst)] in
      inl (Some cmd, Some ("Renamed " ++ src ++ " -> " ++ dst))))
  else if String.eqb kind "file.delete" then
    req_then (job_req kind "path" params) (fun p =>
      let path := py_str_full p in
      let cmd := script [("op", JStr "file.delete"); ("repoRoot", JStr repo); ("path", JStr path)] in
      inl (Some cmd, Some ("Deleted " ++ path)))
  else if String.eqb kind "file.copy" then
    req_then (job_req kind "from" params) (fun s =>
    req_then (job_req kind "to" params) (fun d =>
      let src := py_str_full s in let dst := py_str_full d in
      let cmd := script [("op", JStr "file.copy"); ("repoRoot", JStr repo);
                         ("from", JStr src); ("to", JStr dst)] in
      inl (Some cmd, Some ("Copied " ++ src ++ " -> " ++ dst))))
  else if String.eqb kind "file.append" then
    req_then (job_req kind "path" params) (fun p =>
    req_then (job_req kind "content" params) (fun c =>
      let path := py_str_full p in let content := py_str_full c in
      let cmd := script [("op", JStr "file.append"); ("repoRoot", JStr repo);
                         ("path", JStr path); ("content", JStr content)] in
      inl (Some cmd, Some ("Appended " ++ pretty (String.length content) ++ " bytes to " ++ path))))
  else if String.eqb kind "file.mkdir" then
    req_then (job_req kind "path" params) (fun p =>
      let path := py_str_full p in
      let cmd := script [("op", JStr "file.mkdir"); ("repoRoot", JStr repo); ("path", JStr path)] in
      inl (Some cmd, Some ("Created directory " ++ path)))
  else if String.eqb kind "web.fetch" then
    req_then (job_req kind "url" params) (fun u =>
      let url := py_str_full u in
      let cmd := script [("op", JStr "web.fetch"); ("repoRoot", JStr repo); ("url", JStr url)] in
      inl (Some cmd, Some ("Fetched " ++ url)))
  else if String.eqb kind "web.search" then
    req_then (job_req kind "query" params) (fun q =>
      let query := py_str_full q in
      let cmd := script [("op", JStr "web.search"); ("repoRoot", JStr repo); ("query", JStr query)] in
      inl (Some cmd, Some ("Search results for " ++ query)))
  else inl (None, None).

Definition DEFAULT_LARGE_INSTRUCTION_CHARS : Z := 1800.

Definition _large_instruction_threshold : Z :=
  let raw := _setting_str env cfg "WORKERPALS_OPENHANDS_LARGE_INSTRUCTION_CHARS"
               "workerpals.openhands.large_instruction_chars" "" in
  if String.eqb raw "" then DEFAULT_LARGE_INSTRUCTION_CHARS
  else match py_int_str raw with
       | None => DEFAULT_LARGE_INSTRUCTION_CHARS
       | Some parsed => if (parsed <=? 0)%Z then 0%Z else Z.max 512 parsed
       end.

(** [_prepare_instruction_for_agent(repo, instruction)]: [write_handoff repo
    instruction] writes the instruction to a new file under
    [workspace/workerpal_requests] and gives its display path. *)
Definition _prepare_instruction_for_agent (write_handoff : string -> string -> string)
    (repo instruction : string) : string * string :=
  let threshold := _large_instruction_threshold in
  if (threshold <=? 0)%Z || (Z.of_nat (String.length instruction) <=? threshold)%Z
  then (instruction, "")
  else
    let display_path := write_handoff repo instruction in
    ("Important: the full user instruction is too large to inline and has been "
     ++ "written to `" ++ display_path ++ "`." ++ nl
     ++ "Before doing anything else, read that file completely and treat its contents "
     ++ "as the authoritative task request." ++ nl
     ++ "After reading it, execute exactly what it asks.", display_path).

End Jobs.

(** The characters of base64 text: the alphabet and the padding [=]. *)
Definition b64_text (c : ascii) : bool :=
  match b64_index c with Some _ => true | None => Ascii.eqb c "="%char end.

(** Strings without a NUL character. *)
Fixpoint no_nul (s : string) : bool :=
  match s with
  | EmptyString => true
  | String c r => negb (Nat.eqb (nat_of_ascii c) 0) && no_nul r
  end.

(** * Properties *)

(** ** General lemmas *)

Lemma str_in_spec (x : string) (l : list string) : str_in x l = true <-> In x l.
Proof.
  unfold str_in. rewrite existsb_exists. split.
  - intros [y [Hy Heq]]. apply String.eqb_eq in Heq. subst. exact Hy.
  - intros H. exists x. split; [exact H | apply String.eqb_refl].
Qed.

Lemma str_in_false (x : string) (l : list string) : str_in x l = false <-> ~ In x l.
Proof.
  rewrite <- str_in_spec. destruct (str_in x l); split; congruence.
Qed.

Lemma dedup_go_sound (seen l : list string) (x : string) :
  In x (dedup_go seen l) -> In x l /\ ~ In x seen.
Proof.
  revert seen. induction l as [|y r IH]; intros seen H; simpl in H; [contradiction|].
  destruct (str_in y seen) eqn:Hy.
  - apply IH in H. simpl. tauto.
  - destruct H as [<- | H].
    + split; [left; reflexivity | apply str_in_false; exact Hy].
    + apply IH in H. simpl in *. tauto.
Qed.

Lemma dedup_go_nodup (seen l : list string) : List.NoDup (dedup_go seen l).
Proof.
  revert seen. induction l as [|y r IH]; intros seen; simpl; [constructor|].
  destruct (str_in y seen) eqn:Hy; [apply IH|].
  constructor; [|apply IH].
  intros Hin. apply dedup_go_sound in Hin. simpl in Hin. tauto.
Qed.

Lemma dedup_go_complete (seen l : list string) (x : string) :
  In x l -> In x seen \/ In x (dedup_go seen l).
Proof.
  revert seen. induction l as [|y r IH]; intros seen H; [contradiction|]. simpl.
  destruct (str_in y seen) eqn:Hy.
  - destruct H as [<- | H]; [left; apply str_in_spec; exact Hy | apply IH; exact H].
  - destruct (String.eqb_spec x y) as [-> | Hne]; [right; left; reflexivity|].
    destruct H as [<- | H]; [congruence|].
    destruct (IH (y :: seen) H) as [[<- | Hs] | Hd]; [congruence | left; exact Hs |].
    right; right; exact Hd.
Qed.


Lemma find_none_forall {A} (f : A -> bool) (l : list A) :
  (forall x, In x l -> f x = false) -> find f l = None.
Proof.
  induction l as [|y r IH]; intros H; simpl; [reflexivity|].
  rewrite (H y (or_introl eq_refl)). apply IH. intros x Hx. apply H. right. exact Hx.
Qed.

(** ** C4: model selection *)

(** C4: when discovery found models but none matches the configured model
    (case-insensitively, without provider prefix), the first discovered
    model is picked with reason [available_fallback]; when discovery found
    nothing and a model is configured, that model (stripped) is returned
    with reason [configured_unverified], not the default model. *)
Theorem pick_configured_or_available_spec (configured_model : string)
    (available_models : list string) :
  py_strip configured_model <> "" ->
  (forall first rest, available_models = first :: rest ->
     (forall c, In c available_models ->
        py_lower (_providerless_model_name c)
        <> py_lower (_providerless_model_name (py_strip configured_model))) ->
     _pick_configured_or_available_model configured_model available_models
     = (first, "available_fallback"))
  /\ (available_models = [] ->
      _pick_configured_or_available_model configured_model available_models
      = (py_strip configured_model, "configured_unverified")
      /\ snd (_pick_configured_or_available_model configured_model available_models)
         <> "default_local_model").
Proof.
  intros Hconf. split.
  - intros first rest -> Habsent. unfold _pick_configured_or_available_model.
    apply String.eqb_neq in Hconf. rewrite Hconf. cbn [negb].
    rewrite find_none_forall; [reflexivity|].
    intros c Hc. apply String.eqb_neq. apply Habsent. exact Hc.
  - intros ->. unfold _pick_configured_or_available_model.
    apply String.eqb_neq in Hconf. rewrite Hconf. simpl. split; [reflexivity | discriminate].
Qed.

Lemma pick_configured_or_available_spec_witness :
  _pick_configured_or_available_model "openai/gpt-4" ["llama-3-8b"]
  = ("llama-3-8b", "available_fallback")
  /\ _pick_configured_or_available_model " gpt-4 " [] = ("gpt-4", "configured_unverified").
Proof.
  split.
  - apply (proj1 (pick_configured_or_available_spec "openai/gpt-4" ["llama-3-8b"]
                    ltac:(discriminate)) "llama-3-8b" [] eq_refl).
    intros c [<- | []]. vm_compute. discriminate.
  - apply (proj2 (pick_configured_or_available_spec " gpt-4 " [] ltac:(discriminate)) eq_refl).
Defined.

(** ** C5: fallback candidates after a load failure *)





(** ** C10: no endpoint configured *)

(** C10: with an empty base URL, the reachability probe returns
    [(True, "")] and the chat preflight [(True, "base URL unset")], whatever
    the network would answer, and neither opens a URL. *)
Theorem empty_base_url_skips_validation
    (get : string -> http_outcome)
    (post : string -> list (string * string) -> json -> http_outcome)
    (slot_id : option Z) (provider api_key model session_user : string) (timeout : N) :
  _llm_endpoint_reachable_run get "" model = ((true, ""), [])
  /\ _llm_model_chat_preflight_run post slot_id "" provider api_key model session_user timeout
     = ((true, "base URL unset"), []).
Proof. split; reflexivity. Qed.

(** ** C9: endpoint prober *)

Definition responded (o : http_outcome) : bool :=
  match o with HExc _ => false | _ => true end.

Definition exc_text (o : http_outcome) : string :=
  match o with HExc e => exc_msg e | _ => "" end.

Lemma probe_loop_spec (get : string -> http_outcome) (probes : list string) (le : string) :
  probes <> [] ->
  fst (fst (probe_loop get probes le)) = existsb (fun p => responded (get p)) probes
  /\ (existsb (fun p => responded (get p)) probes = false ->
      fst (probe_loop get probes le)
      = (false, List.last probes "" ++ ": " ++ exc_text (get (List.last probes "")))).
Proof.
  revert le. induction probes as [|p rest IH]; intros le Hne; [congruence|].
  simpl. destruct (get p) as [st | code b | e] eqn:Hg; simpl.
  - split; [reflexivity | discriminate].
  - split; [reflexivity | discriminate].
  - destruct rest as [|q rest'].
    + simpl. rewrite Hg. simpl. split; reflexivity.
    + destruct (IH (p ++ ": " ++ exc_msg e) ltac:(discriminate)) as [IH1 IH2].
      destruct (probe_loop get (q :: rest') (p ++ ": " ++ exc_msg e)) as [res opened].
      simpl in *. split; [exact IH1|]. intros H. rewrite IH2; [reflexivity | exact H].
Qed.

Lemma probe_urls_nonempty (base_url model : string) : _llm_probe_urls base_url model <> [].
Proof.
  unfold _llm_probe_urls.
  destruct (String.eqb _ "ollama"); [discriminate|]. destruct (ends_with _ _); discriminate.
Qed.

(** C9: for a non-empty base URL the endpoint counts as reachable exactly
    when one of the probe URLs gets an HTTP response of any status (an
    [HTTPError] included); when every probe fails at the network level the
    result is [False] with the last probe's error.  Every exception of a
    probe is caught, so the function returns for every network behaviour. *)
Theorem llm_endpoint_reachable_spec (get : string -> http_outcome) (base_url model : string) :
  base_url <> "" ->
  (fst (_llm_endpoint_reachable get base_url model) = true
   <-> exists p, In p (_llm_probe_urls base_url model) /\ responded (get p) = true)
  /\ (fst (_llm_endpoint_reachable get base_url model) = false ->
      let p := List.last (_llm_probe_urls base_url model) "" in
      _llm_endpoint_reachable get base_url model = (false, p ++ ": " ++ exc_text (get p))).
Proof.
  intros Hb. unfold _llm_endpoint_reachable, _llm_endpoint_reachable_run.
  apply String.eqb_neq in Hb. rewrite Hb.
  destruct (probe_loop_spec get (_llm_probe_urls base_url model) "connection failed"
              (probe_urls_nonempty base_url model)) as [H1 H2].
  split.
  - rewrite H1. rewrite existsb_exists. reflexivity.
  - intros Hf. apply H2. rewrite <- H1. exact Hf.
Qed.

Lemma llm_endpoint_reachable_spec_witness :
  _llm_endpoint_reachable (fun p => if String.eqb p "http://h:1/v1/models"
                                    then HExc (mkExc KOther "refused") else HHttpError 404 None)
    "http://h:1/v1" "openai/gpt-4" = (true, "http://h:1/v1/chat/completions -> HTTP 404")
  /\ fst (_llm_endpoint_reachable (fun p => HExc (mkExc KOther "refused"))
            "http://h:1" "openai/gpt-4") = false.
Proof.
  split; [reflexivity|].
  destruct (llm_endpoint_reachable_spec (fun p => HExc (mkExc KOther "refused"))
              "http://h:1" "openai/gpt-4" ltac:(discriminate)) as [H _].
  destruct (fst _) eqn:E; [|reflexivity].
  destruct (proj1 H eq_refl) as [p [_ Hp]]. discriminate Hp.
Defined.

(** ** The body-variant cascade of the chat preflight *)

Definition body_text (b : option string) : string :=
  match b with Some t => t | None => "" end.










(** ** C7: session-hint body variants *)







(** ** The candidate loop: traces *)

Definition step_state (r : step_result) : loop_state :=
  match r with Continue s => s | Return _ s => s end.

(** The candidate an event is about ([None] for a discovery call). *)
Definition event_candidate (ev : event) : option string :=
  match ev with
  | EvChatPreflight m | EvToolPreflight m _ | EvAgent m | EvSend m _ | EvRun m _ => Some m
  | EvDiscover => None
  end.

(** Events about [m] only. *)
Definition events_about (m : string) (ext : list event) : Prop :=
  forall ev m', In ev ext -> event_candidate ev = Some m' -> m' = m.

(** No event is about an embedding-flagged model. *)
Definition no_embedding_events (tr : list event) : Prop :=
  forall ev m, In ev tr -> event_candidate ev = Some m -> _is_embedding_model m = false.

Lemma events_about_app (m : string) (l1 l2 : list event) :
  events_about m l1 -> events_about m l2 -> events_about m (app l1 l2).
Proof.
  intros H1 H2 ev m' Hin. apply in_app_or in Hin as [Hin | Hin]; [apply H1 | apply H2]; exact Hin.
Qed.

Lemma events_about_discover (m : string) : events_about m [EvDiscover].
Proof. intros ev m' [<- | []] H. discriminate H. Qed.

Ltac solve_about :=
  repeat (apply events_about_app);
  first [ apply events_about_discover
        | intros ?ev ?m' Hin Hc; simpl in Hin;
          repeat (destruct Hin as [Hin | Hin]); subst; simpl in Hc;
          first [ contradiction | injection Hc as <-; reflexivity | discriminate Hc ] ].

Lemma fallback_step_trace (E : env) (provider : string) (s : loop_state) (rest : list string)
    (m err_text last_err : string) (pf : list string) (tr : list event) (summary : string) :
  trace (step_state (fallback_step E provider s rest m err_text last_err pf tr summary))
  = app tr [EvDiscover].
Proof.
  unfold fallback_step.
  destruct (_fallback_models_after_load_failure _ _ _) as [fm pd].
  destruct (new_fallback_candidates _ _ _); reflexivity.
Qed.

Lemma run_exception_step_trace (E : env) (base_url provider : string) (s : loop_state)
    (rest : list string) (m : string) (e : exc) (tr : list event) :
  exists ext, trace (step_state (run_exception_step E base_url provider s rest m e tr))
              = app tr ext /\ events_about m ext.
Proof.
  unfold run_exception_step.
  destruct (_is_model_load_failure _).
  - exists [EvDiscover]. split; [apply fallback_step_trace | solve_about].
  - exists []. split; [|intros ev m' []].
    rewrite app_nil_r.
    repeat match goal with |- context [if ?c then _ else _] => destruct c end; reflexivity.
Qed.

(** [tr'] is [tr] followed by events about [m] only. *)
Definition extends_about (m : string) (tr tr' : list event) : Prop :=
  exists ext, tr' = app tr ext /\ events_about m ext.

Lemma ext_refl (m : string) (tr : list event) : extends_about m tr tr.
Proof. exists []. split; [symmetry; apply app_nil_r | intros ev m' []]. Qed.

Lemma ext_app_r (m : string) (tr l l2 : list event) :
  extends_about m tr l -> events_about m l2 -> extends_about m tr (app l l2).
Proof.
  intros [ext [-> H1]] H2. exists (app ext l2). split.
  - symmetry. apply app_assoc.
  - apply events_about_app; assumption.
Qed.

Lemma ext_trans (m : string) (tr1 tr2 tr3 : list event) :
  extends_about m tr1 tr2 -> extends_about m tr2 tr3 -> extends_about m tr1 tr3.
Proof.
  intros [e1 [-> H1]] [e2 [-> H2]]. exists (app e1 e2). split.
  - symmetry. apply app_assoc.
  - apply events_about_app; assumption.
Qed.

Lemma ext_run_exc (E : env) (base_url provider : string) (s : loop_state) (rest : list string)
    (m : string) (e : exc) (tr tr1 : list event) :
  extends_about m tr tr1 ->
  extends_about m tr (trace (step_state (run_exception_step E base_url provider s rest m e tr1))).
Proof.
  intros H. apply (ext_trans m tr tr1); [exact H|].
  destruct (run_exception_step_trace E base_url provider s rest m e tr1) as [ext [Heq Hab]].
  rewrite Heq. exists ext. split; [reflexivity | exact Hab].
Qed.

Ltac solve_ext :=
  repeat first [ apply ext_refl | apply ext_run_exc | apply ext_app_r; [ | solve_about ] ].

Lemma run_step_ext (E : env) (base_url provider user_message : string) (s : loop_state)
    (rest : list string) (m : string) (tr : list event) :
  extends_about m tr (trace (step_state (run_step E base_url provider user_message s rest m tr))).
Proof.
  unfold run_step. cbv zeta.
  repeat match goal with
    | |- context [if ?c then _ else _] => destruct c
    | |- context [match e_agent_build ?E ?m with _ => _ end] => destruct (e_agent_build E m)
    | |- context [match e_run ?E ?m ?b with _ => _ end] => destruct (e_run E m b)
    | |- context [match exc_kind_of ?e with _ => _ end] => destruct (exc_kind_of e)
  end; cbn [step_state trace]; solve_ext.
Qed.

Lemma loop_step_trace (E : env) (base_url provider api_key session_user : string)
    (timeout : N) (user_message : string) (s : loop_state) :
  let s' := step_state (loop_step E base_url provider api_key session_user timeout user_message s) in
  trace s' = trace s
  \/ exists m, _is_embedding_model m = false /\ extends_about m (trace s) (trace s').
Proof.
  cbv zeta. unfold loop_step.
  destruct (models_to_try s) as [|m rest]; [left; reflexivity|].
  destruct (str_in m (attempted_models s)); [left; reflexivity|].
  destruct (_is_embedding_model m) eqn:Hemb; [left; reflexivity|].
  right. exists m. split; [exact Hemb|].
  destruct (_llm_model_chat_preflight _ _ _ _ _ _ _ _) as [ok detail].
  unfold log. cbn [trace].
  destruct (negb ok).
  - destruct (_ || _).
    + rewrite fallback_step_trace. solve_ext.
    + cbn [step_state trace]. solve_ext.
  - apply (ext_trans m _ (app (trace s) [EvChatPreflight m])); [solve_ext | apply run_step_ext].
Qed.

Lemma no_embedding_events_step (E : env) (base_url provider api_key session_user : string)
    (timeout : N) (user_message : string) (s : loop_state) :
  no_embedding_events (trace s) ->
  no_embedding_events
    (trace (step_state (loop_step E base_url provider api_key session_user timeout user_message s))).
Proof.
  intros Hs.
  destruct (loop_step_trace E base_url provider api_key session_user timeout user_message s)
    as [Heq | [m [Hm [ext [Heq Hab]]]]]; rewrite Heq; [exact Hs|].
  intros ev m' Hin Hc. apply in_app_or in Hin as [Hin | Hin].
  - exact (Hs ev m' Hin Hc).
  - rewrite (Hab ev m' Hin Hc). exact Hm.
Qed.

Lemma candidate_loop_no_embedding_events (E : env)
    (base_url provider api_key session_user : string) (timeout : N) (user_message : string) :
  forall fuel s r s',
  no_embedding_events (trace s) ->
  candidate_loop E base_url provider api_key session_user timeout user_message fuel s
  = Some (r, s') ->
  no_embedding_events (trace s').
Proof.
  induction fuel as [|fuel IH]; intros s r s' Hs Hrun; simpl in Hrun;
    destruct (models_to_try s) eqn:Hq.
  - injection Hrun as _ <-. exact Hs.
  - discriminate.
  - injection Hrun as _ <-. exact Hs.
  - pose proof (no_embedding_events_step E base_url provider api_key session_user timeout
                  user_message s Hs) as Hstep.
    destruct (loop_step _ _ _ _ _ _ _ s) as [s1 | r1 s1]; simpl in Hstep.
    + exact (IH s1 r s' Hstep Hrun).
    + injection Hrun as _ <-. exact Hstep.
Qed.

(** ** C1: embedding-flagged candidates *)

(** C1 (amended): an embedding-flagged candidate taken from the queue is
    skipped — no chat preflight, tool preflight, agent, message or run is
    ever made for it — but it is appended to [attempted_models] before the
    check, so it is listed among the attempted models of a later failure
    report. *)
Theorem embedding_candidate_skipped (E : env)
    (base_url provider api_key session_user : string) (timeout : N) (user_message : string)
    (s : loop_state) (m : string) (rest : list string) :
  models_to_try s = m :: rest -> ~ In m (attempted_models s) -> _is_embedding_model m = true ->
  loop_step E base_url provider api_key session_user timeout user_message s
  = Continue (mkState rest (app (attempted_models s) [m]) (last_error_text s)
                (preflight_failures s) (discover_calls s) (trace s))
  /\ (forall (a : agentic_input) (fuel : nat) (r : dict) (s' : loop_state),
        _run_agentic_task_execute E a fuel = Some (r, s') -> no_embedding_events (trace s')).
Proof.
  intros Hq Hnot Hemb. split.
  - unfold loop_step. rewrite Hq. apply str_in_false in Hnot. rewrite Hnot. cbn [negb].
    rewrite Hemb. reflexivity.
  - intros a fuel r s' Hrun. unfold _run_agentic_task_execute in Hrun.
    assert (H0 : no_embedding_events (trace (initial_state (a_model a)))).
    { intros ev m' []. }
    repeat match type of Hrun with
      | context [if ?c then _ else _] => destruct c
      | context [match ?x with inl _ => _ | inr _ => _ end] => destruct x
      | context [let '(_, _) := ?p in _] => destruct p
    end;
    first [ injection Hrun as _ <-; exact H0
          | exact (candidate_loop_no_embedding_events _ _ _ _ _ _ _ _ _ _ _ H0 Hrun) ].
Qed.

(** A fixed environment for concrete runs: every request succeeds, no
    model is discovered, the tool preflight is off and the agent run
    completes without changing files. *)
Definition quiet_env : env :=
  mkEnv (fun _ _ _ => HResp 200) None (fun _ => ([], "no models")) false true ""
    (fun _ => ToolHttpFailed "" "") (fun _ => PError "Expecting value")
    (fun _ => None) (fun _ _ => None) (fun _ => []).

Definition local_input (model : string) : agentic_input :=
  mkAgentic true model "sk" "http://localhost:1234/v1" "" "" 10 "list files in repo"
    (fun _ => HResp 200).

Lemma embedding_candidate_skipped_witness :
  loop_step quiet_env "http://localhost:1234/v1" "openai" "sk" "" 10 "list files in repo"
    (initial_state "openai/text-embedding-3-small")
  = Continue (mkState [] ["openai/text-embedding-3-small"] "" [] 0 []).
Proof.
  apply (proj1 (embedding_candidate_skipped quiet_env "http://localhost:1234/v1" "openai" "sk" ""
                  10 "list files in repo" (initial_state "openai/text-embedding-3-small")
                  "openai/text-embedding-3-small" [] eq_refl (fun H => H) eq_refl)).
Defined.

(** C1 fails as stated: a configured embedding model is skipped, yet the
    failure report lists it among the attempted models. *)
Lemma embedding_candidate_counterexample :
  _is_embedding_model "openai/text-embedding-3-small" = true
  /\ option_map (fun '(r, _) => dict_get "stderr" r)
       (_run_agentic_task_execute quiet_env (local_input "openai/text-embedding-3-small") 5)
     = Some (Some (JStr ("Attempted models: openai/text-embedding-3-small" ++ nl
                         ++ "Last error: (none captured)"))).
Proof. split; vm_compute; reflexivity. Qed.

(** ** C2: no recovery around the agent run *)









(** ** C3: strict tool preflight parse failure *)







(** ** C8: the result line *)
















(** * Properties of the configuration and session helpers *)

(** ** Dict primitives *)

Lemma dict_get_set_eq (k : string) (v : json) (d : dict) : dict_get k (dict_set k v d) = Some v.
Proof.
  induction d as [|[k' v'] r IH]; cbn [dict_set dict_get]; [rewrite String.eqb_refl; reflexivity|].
  destruct (String.eqb k k') eqn:E; cbn [dict_get]; [rewrite String.eqb_refl; reflexivity|].
  rewrite E. exact IH.
Qed.

Lemma dict_get_set_neq (k k' : string) (v : json) (d : dict) :
  k <> k' -> dict_get k (dict_set k' v d) = dict_get k d.
Proof.
  intros Hne. apply String.eqb_neq in Hne.
  induction d as [|[k0 v0] r IH]; cbn [dict_set dict_get]; [rewrite Hne; reflexivity|].
  destruct (String.eqb k' k0) eqn:E; cbn [dict_get].
  - apply String.eqb_eq in E. subst k0. rewrite Hne. reflexivity.
  - destruct (String.eqb k k0); [reflexivity | exact IH].
Qed.

Lemma dict_get_not_in (k : string) (d : dict) : ~ In k (dict_keys d) -> dict_get k d = None.
Proof.
  induction d as [|[k' v'] r IH]; intros H; cbn [dict_get]; [reflexivity|].
  destruct (String.eqb k k') eqn:E.
  - apply String.eqb_eq in E. subst. exfalso. apply H. left. reflexivity.
  - apply IH. intros Hin. apply H. right. exact Hin.
Qed.

Lemma dict_get_in (k : string) (v : json) (d : dict) : dict_get k d = Some v -> In (k, v) d.
Proof.
  induction d as [|[k' v'] r IH]; cbn [dict_get]; [discriminate|].
  destruct (String.eqb k k') eqn:E; intros H.
  - apply String.eqb_eq in E. injection H as <-. subst. left. reflexivity.
  - right. exact (IH H).
Qed.

Lemma dict_keys_set (k : string) (v : json) (d : dict) :
  dict_keys (dict_set k v d)
  = if str_in k (dict_keys d) then dict_keys d else app (dict_keys d) [k].
Proof.
  unfold dict_keys, str_in.
  induction d as [|[k' v'] r IH]; cbn [dict_set map fst existsb]; [reflexivity|].
  destruct (String.eqb k k') eqn:E; cbn [map fst orb].
  - apply String.eqb_eq in E. subst. reflexivity.
  - rewrite IH. destruct (existsb (String.eqb k) (map fst r)); reflexivity.
Qed.

(** ** [_deep_merge] *)

Lemma merge_fields_get (mv : dict -> json -> dict) (out fs : dict) (k : string) :
  List.NoDup (dict_keys fs) ->
  dict_get k (merge_fields mv out fs) =
  match dict_get k fs with
  | None => dict_get k out
  | Some value => Some (match dict_get k out, value with
                        | Some (JObj existing), JObj _ => JObj (mv existing value)
                        | _, _ => value
                        end)
  end.
Proof.
  revert out. induction fs as [|[k' v'] fs IH]; intros out Hnd; [reflexivity|].
  cbn [merge_fields dict_get]. cbn [dict_keys map fst] in Hnd.
  inversion Hnd as [|? ? Hnin Hnd']; subst.
  rewrite IH by exact Hnd'.
  destruct (String.eqb k k') eqn:E.
  - apply String.eqb_eq in E. subst k'.
    rewrite (dict_get_not_in k fs Hnin), dict_get_set_eq. reflexivity.
  - apply String.eqb_neq in E.
    destruct (dict_get k fs); rewrite (dict_get_set_neq _ _ _ _ E); reflexivity.
Qed.

Lemma merge_fields_keys (mv : dict -> json -> dict) (out fs : dict) :
  List.NoDup (dict_keys fs) ->
  dict_keys (merge_fields mv out fs)
  = app (dict_keys out) (List.filter (fun k => negb (str_in k (dict_keys out))) (dict_keys fs)).
Proof.
  revert out. induction fs as [|[k v] fs IH]; intros out Hnd.
  - cbn. symmetry. apply app_nil_r.
  - cbn [merge_fields]. cbn [dict_keys map fst] in Hnd.
    inversion Hnd as [|? ? Hnin Hnd']; subst.
    rewrite IH by exact Hnd'. rewrite dict_keys_set.
    change (dict_keys ((k, v) :: fs)) with (k :: dict_keys fs). cbn [List.filter].
    destruct (str_in k (dict_keys out)) eqn:Hk; cbn [negb].
    + reflexivity.
    + rewrite <- app_assoc. cbn [app]. f_equal. f_equal. apply List.filter_ext_in.
      intros x Hx. unfold str_in. rewrite existsb_app. cbn [existsb].
      assert (Hxk : x <> k) by (intros ->; exact (Hnin Hx)).
      apply String.eqb_neq in Hxk. rewrite Hxk. rewrite !orb_false_r. reflexivity.
Qed.

(** [json_wf j]: every object inside [j], reached through objects, has
    distinct keys, as every Python dict has. *)
Fixpoint nodup_keys (l : list string) : bool :=
  match l with
  | [] => true
  | x :: r => negb (str_in x r) && nodup_keys r
  end.

Fixpoint json_wf (j : json) : bool :=
  match j with
  | JObj fs =>
      nodup_keys (dict_keys fs)
      && (fix go (fs : list (string * json)) : bool :=
            match fs with
            | [] => true
            | (_, v) :: r => json_wf v && go r
            end) fs
  | _ => true
  end.

Lemma nodup_keys_spec (l : list string) : nodup_keys l = true -> List.NoDup l.
Proof.
  induction l as [|x r IH]; cbn [nodup_keys]; intros H; [constructor|].
  apply andb_prop in H as [H1 H2]. constructor; [|exact (IH H2)].
  apply negb_true_iff in H1. apply str_in_false. exact H1.
Qed.

Lemma json_wf_nodup (fs : dict) : json_wf (JObj fs) = true -> List.NoDup (dict_keys fs).
Proof. cbn [json_wf]. intros H. apply andb_prop in H as [H _]. exact (nodup_keys_spec _ H). Qed.

Lemma json_wf_child (fs : dict) (k : string) (v : json) :
  json_wf (JObj fs) = true -> dict_get k fs = Some v -> json_wf v = true.
Proof.
  intros Hwf Hget. apply dict_get_in in Hget.
  cbn [json_wf] in Hwf. apply andb_prop in Hwf as [_ Hall].
  induction fs as [|[k' v'] r IH]; [destruct Hget|].
  apply andb_prop in Hall as [Hv Hr]. destruct Hget as [Heq | Hin].
  - injection Heq as -> ->. exact Hv.
  - exact (IH Hr Hin).
Qed.

(** [config_lookup node parts]: the value at [parts], [None] when a part is
    missing or a non-dict is traversed. *)
Fixpoint config_lookup (node : json) (parts : list string) : option json :=
  match parts with
  | [] => Some node
  | part :: ps =>
      match node with
      | JObj d => match dict_get part d with
                  | Some v => config_lookup v ps
                  | None => None
                  end
      | _ => None
      end
  end.

Lemma config_walk_lookup (default node : json) (parts : list string) :
  config_walk default node parts
  = match config_lookup node parts with Some v => v | None => default end.
Proof.
  revert node. induction parts as [|p ps IH]; intros node; [reflexivity|].
  cbn [config_walk config_lookup]. destruct node; try reflexivity.
  destruct (dict_get p fields); [apply IH | reflexivity].
Qed.

Lemma merge_lookup_override (parts : list string) :
  forall (base override : dict) (v : json),
  json_wf (JObj override) = true ->
  config_lookup (JObj override) parts = Some v ->
  (forall fs, v <> JObj fs) ->
  config_lookup (JObj (_deep_merge base override)) parts = Some v.
Proof.
  induction parts as [|p ps IH]; intros base override v Hwf Hl Hnot.
  - cbn in Hl. injection Hl as <-. exfalso. exact (Hnot override eq_refl).
  - cbn [config_lookup] in Hl |- *.
    destruct (dict_get p override) as [w|] eqn:Hw; [|discriminate Hl].
    unfold _deep_merge. cbn [merge_into].
    rewrite (merge_fields_get _ _ _ _ (json_wf_nodup _ Hwf)), Hw.
    destruct ps as [|q ps'].
    + cbn in Hl. injection Hl as ->.
      destruct (dict_get p base) as [[]|]; destruct v; try reflexivity;
        exfalso; exact (Hnot _ eq_refl).
    + destruct w as [| | | | | |ow]; try discriminate Hl.
      destruct (dict_get p base) as [[]|]; try exact Hl.
      apply (IH _ ow v); [exact (json_wf_child _ _ _ Hwf Hw) | exact Hl | exact Hnot].
Qed.

(** Strings whose every character satisfies [p]. *)
Fixpoint string_forall (p : ascii -> bool) (s : string) : bool :=
  match s with
  | EmptyString => true
  | String c r => p c && string_forall p r
  end.

(** A sanitized session component: characters of [a-z0-9._:-] only, no
    leading hyphen and no two hyphens in a row. *)
Definition session_safe (s : string) : bool :=
  string_forall session_char s && negb (starts_with "-" s) && negb (contains "--" s).

Lemma string_forall_app (p : ascii -> bool) (a b : string) :
  string_forall p (a ++ b) = string_forall p a && string_forall p b.
Proof. induction a as [|c a IH]; simpl; [reflexivity|]. rewrite IH. apply andb_assoc. Qed.

Lemma starts_with_app (q a b : string) : starts_with q a = true -> starts_with q (a ++ b) = true.
Proof.
  revert a. induction q as [|c q IH]; intros a H; [reflexivity|].
  destruct a as [|d a]; [discriminate H|]. simpl in H |- *.
  apply andb_prop in H as [H1 H2]. rewrite H1. exact (IH a H2).
Qed.

Lemma contains_app_l (q a b : string) : contains q a = true -> contains q (a ++ b) = true.
Proof.
  induction a as [|c a IH]; intros H.
  - destruct q; [destruct b; reflexivity | discriminate H].
  - change (contains q (String c a)) with (starts_with q (String c a) || contains q a) in H.
    change (contains q (String c a ++ b))
      with (starts_with q (String c (a ++ b)) || contains q (a ++ b)).
    apply orb_prop in H as [H | H].
    + apply orb_true_intro. left. exact (starts_with_app q (String c a) b H).
    + rewrite (IH H). apply orb_true_r.
Qed.

Lemma contains_app_r (q a b : string) : contains q b = true -> contains q (a ++ b) = true.
Proof.
  induction a as [|c a IH]; intros H; [exact H|].
  change (contains q (String c a ++ b))
    with (starts_with q (String c (a ++ b)) || contains q (a ++ b)).
  rewrite (IH H). apply orb_true_r.
Qed.

Lemma substring_prefix (n : nat) (s : string) : exists t, s = substring 0 n s ++ t.
Proof.
  revert s. induction n as [|n IH]; intros s.
  - exists s. destruct s; reflexivity.
  - destruct s as [|c r]; [exists ""; reflexivity|].
    destruct (IH r) as [t Ht]. exists t.
    change (String c r = String c (substring 0 n r ++ t)). rewrite <- Ht. reflexivity.
Qed.

Lemma substring_length (n : nat) (s : string) : String.length (substring 0 n s) <= n.
Proof.
  revert s. induction n as [|n IH]; intros s; [destruct s; cbn; lia|].
  destruct s as [|c r]; cbn; [lia|]. specialize (IH r). lia.
Qed.

Lemma substring_nonempty (n : nat) (s : string) :
  s <> "" -> substring 0 (S n) s <> "".
Proof. destruct s; [congruence | discriminate]. Qed.

Lemma session_safe_prefix (a b : string) : session_safe (a ++ b) = true -> session_safe a = true.
Proof.
  unfold session_safe. rewrite string_forall_app. intros H.
  apply andb_prop in H as [H H3]. apply andb_prop in H as [H1 H2].
  apply andb_prop in H1 as [H1 _]. rewrite H1. cbn [andb].
  destruct (starts_with "-" a) eqn:E1.
  - rewrite (starts_with_app _ _ b E1) in H2. discriminate H2.
  - destruct (contains "--" a) eqn:E2; [|reflexivity].
    rewrite (contains_app_l _ _ b E2) in H3. discriminate H3.
Qed.

Lemma session_safe_infix (a b c : string) :
  string_forall session_char (a ++ b ++ c) = true -> contains "--" (a ++ b ++ c) = false ->
  starts_with "-" b = false -> session_safe b = true.
Proof.
  intros Hf Hc Hs. unfold session_safe. rewrite Hs.
  rewrite !string_forall_app in Hf. apply andb_prop in Hf as [_ Hf].
  apply andb_prop in Hf as [Hf _]. rewrite Hf. cbn [andb negb].
  destruct (contains "--" b) eqn:E; [|reflexivity].
  rewrite (contains_app_r _ a _ (contains_app_l _ _ c E)) in Hc. discriminate Hc.
Qed.

Lemma sub_disallowed_chars (b : bool) (s : string) :
  string_forall session_char (sub_disallowed b s) = true.
Proof.
  revert b. induction s as [|c r IH]; intros b; [reflexivity|]. cbn [sub_disallowed].
  destruct (session_char c) eqn:Hc; [cbn; rewrite Hc; apply IH|].
  destruct b; [apply IH | cbn; apply IH].
Qed.

Lemma collapse_hyphens_chars (p : ascii -> bool) (b : bool) (s : string) :
  string_forall p s = true -> string_forall p (collapse_hyphens b s) = true.
Proof.
  revert b. induction s as [|c r IH]; intros b H; [reflexivity|].
  cbn in H. apply andb_prop in H as [Hc Hr]. cbn [collapse_hyphens].
  destruct (Ascii.eqb c hyphen); [destruct b|]; cbn; rewrite ?Hc; apply IH; exact Hr.
Qed.

Lemma starts_with_cons (a b : ascii) (p s : string) :
  starts_with (String a p) (String b s) = Ascii.eqb a b && starts_with p s.
Proof. reflexivity. Qed.

Lemma collapse_hyphens_head (s : string) : starts_with "-" (collapse_hyphens true s) = false.
Proof.
  induction s as [|c r IH]; [reflexivity|]. cbn [collapse_hyphens].
  destruct (Ascii.eqb c hyphen) eqn:E; [exact IH|].
  rewrite starts_with_cons, Ascii.eqb_sym. unfold hyphen in E. rewrite E. reflexivity.
Qed.

Lemma collapse_hyphens_no_double (b : bool) (s : string) :
  contains "--" (collapse_hyphens b s) = false.
Proof.
  revert b. induction s as [|c r IH]; intros b; [reflexivity|]. cbn [collapse_hyphens].
  destruct (Ascii.eqb c hyphen) eqn:E; [destruct b; [apply IH|]|].
  - apply Ascii.eqb_eq in E. subst c.
    change (contains "--" (String hyphen (collapse_hyphens true r)))
      with (starts_with "--" (String hyphen (collapse_hyphens true r))
            || contains "--" (collapse_hyphens true r)).
    rewrite IH, starts_with_cons, collapse_hyphens_head, andb_false_r. reflexivity.
  - change (contains "--" (String c (collapse_hyphens false r)))
      with (starts_with "--" (String c (collapse_hyphens false r))
            || contains "--" (collapse_hyphens false r)).
    rewrite IH, starts_with_cons, Ascii.eqb_sym. unfold hyphen in E. rewrite E.
    reflexivity.
Qed.

Lemma lstrip_char_suffix (c : ascii) (s : string) : exists t, s = t ++ lstrip_char c s.
Proof.
  induction s as [|d r IH]; [exists ""; reflexivity|]. cbn [lstrip_char].
  destruct (Ascii.eqb d c).
  - destruct IH as [t Ht]. exists (String d t).
    change (String d r = String d (t ++ lstrip_char c r)). rewrite <- Ht. reflexivity.
  - exists "". reflexivity.
Qed.

Lemma lstrip_char_head (c : ascii) (s : string) :
  starts_with (String c EmptyString) (lstrip_char c s) = false.
Proof.
  induction s as [|d r IH]; [reflexivity|]. cbn [lstrip_char].
  destruct (Ascii.eqb d c) eqn:E; [exact IH|].
  rewrite starts_with_cons, Ascii.eqb_sym, E. reflexivity.
Qed.

Lemma rstrip_char_prefix (c : ascii) (s : string) : exists t, s = rstrip_char c s ++ t.
Proof.
  induction s as [|d r IH]; [exists ""; reflexivity|]. cbn [rstrip_char].
  destruct IH as [t Ht].
  destruct (String.eqb (rstrip_char c r) "" && Ascii.eqb d c) eqn:E.
  - exists (String d r). reflexivity.
  - exists t. change (String d r = String d (rstrip_char c r ++ t)). rewrite <- Ht. reflexivity.
Qed.

Lemma rstrip_char_head (c : ascii) (s : string) :
  starts_with (String c EmptyString) s = false ->
  starts_with (String c EmptyString) (rstrip_char c s) = false.
Proof.
  destruct s as [|d r]; [reflexivity|]. cbn [rstrip_char].
  destruct (String.eqb (rstrip_char c r) "" && Ascii.eqb d c); [reflexivity|].
  cbn. intros H. exact H.
Qed.

Lemma strip_char_safe (s : string) :
  let t := strip_char hyphen (collapse_hyphens false (sub_disallowed false s)) in
  session_safe t = true.
Proof.
  cbv zeta. unfold strip_char.
  set (C := collapse_hyphens false (sub_disallowed false s)).
  destruct (lstrip_char_suffix hyphen C) as [a Ha].
  destruct (rstrip_char_prefix hyphen (lstrip_char hyphen C)) as [b Hb].
  apply (session_safe_infix a _ b).
  - rewrite <- Hb, <- Ha. apply collapse_hyphens_chars, sub_disallowed_chars.
  - rewrite <- Hb, <- Ha. apply collapse_hyphens_no_double.
  - apply rstrip_char_head, lstrip_char_head.
Qed.

Lemma safe_component_core (value : json) (fallback : string) :
  fallback <> "" -> session_safe fallback = true ->
  let r := _safe_session_component value fallback in
  r <> "" /\ String.length r <= 64 /\ session_safe r = true.
Proof.
  intros Hne Hsafe. cbv zeta. unfold _safe_session_component. cbv zeta.
  match goal with
  | |- context [substring 0 64 (if String.eqb ?t "" then fallback else ?t)] =>
      assert (Hst : session_safe t = true) by apply strip_char_safe;
      set (T := t) in *
  end.
  assert (H4 : (if String.eqb T "" then fallback else T) <> ""
               /\ session_safe (if String.eqb T "" then fallback else T) = true).
  { destruct (String.eqb T "") eqn:E; [split; assumption|].
    split; [apply String.eqb_neq; exact E | exact Hst]. }
  destruct H4 as [Hn Hs].
  set (U := if String.eqb T "" then fallback else T) in *.
  split; [apply substring_nonempty; exact Hn|].
  split; [apply substring_length|].
  destruct (substring_prefix 64 U) as [w Hw]. rewrite Hw in Hs.
  exact (session_safe_prefix _ _ Hs).
Qed.

Lemma on_off_disjoint (t : string) : str_in t on_words = true -> str_in t off_words = false.
Proof.
  intros H. apply str_in_spec in H.
  destruct H as [<-|[<-|[<-|[<-|[]]]]]; reflexivity.
Qed.

Lemma stable_component_chars (value : json) (fallback : string) :
  fallback <> "" -> session_safe fallback = true ->
  string_forall session_char (_safe_session_component value fallback) = true.
Proof.
  intros Hn Hs. destruct (safe_component_core value fallback Hn Hs) as (_ & _ & H).
  unfold session_safe in H. apply andb_prop in H as [H _]. apply andb_prop in H as [H _].
  exact H.
Qed.

(** ** Extra properties: configuration *)

(** [_deep_merge] lookup: a key absent from the override keeps the base
    value; a key present takes the override value, except that two dicts
    are merged recursively. *)
Theorem deep_merge_get (base override : dict) (k : string) :
  List.NoDup (dict_keys override) ->
  dict_get k (_deep_merge base override) =
  match dict_get k override with
  | None => dict_get k base
  | Some v => Some (match dict_get k base, v with
                    | Some (JObj e), JObj ov => JObj (_deep_merge e ov)
                    | _, _ => v
                    end)
  end.
Proof.
  intros H. unfold _deep_merge at 1. cbn [merge_into].
  rewrite (merge_fields_get _ _ _ _ H).
  destruct (dict_get k override) as [v|]; [|reflexivity].
  destruct (dict_get k base) as [[]|]; destruct v; reflexivity.
Qed.

Lemma deep_merge_get_witness :
  List.NoDup (dict_keys [("c", JInt 3); ("a", JObj [("y", JInt 9)])])
  /\ dict_get "a" (_deep_merge [("a", JObj [("x", JInt 1); ("y", JInt 2)]); ("b", JInt 1)]
                               [("c", JInt 3); ("a", JObj [("y", JInt 9)])])
     = Some (JObj (_deep_merge [("x", JInt 1); ("y", JInt 2)] [("y", JInt 9)])).
Proof.
  assert (H : List.NoDup (dict_keys [("c", JInt 3); ("a", JObj [("y", JInt 9)])])).
  { apply nodup_keys_spec. reflexivity. }
  split; [exact H|].
  exact (deep_merge_get [("a", JObj [("x", JInt 1); ("y", JInt 2)]); ("b", JInt 1)]
           [("c", JInt 3); ("a", JObj [("y", JInt 9)])] "a" H).
Defined.

(** [_deep_merge] key order: the base keys keep their order and come
    first, followed by the override keys the base lacks, in override
    order. *)
Theorem deep_merge_keys (base override : dict) :
  List.NoDup (dict_keys override) ->
  dict_keys (_deep_merge base override)
  = app (dict_keys base)
        (List.filter (fun k => negb (str_in k (dict_keys base))) (dict_keys override)).
Proof. intros H. unfold _deep_merge. cbn [merge_into]. exact (merge_fields_keys _ _ _ H). Qed.

Lemma deep_merge_keys_witness :
  dict_keys (_deep_merge [("a", JInt 1); ("b", JInt 1)] [("c", JInt 3); ("a", JInt 2)])
  = ["a"; "b"; "c"].
Proof.
  rewrite (deep_merge_keys [("a", JInt 1); ("b", JInt 1)] [("c", JInt 3); ("a", JInt 2)])
    by (apply nodup_keys_spec; reflexivity).
  reflexivity.
Defined.

(** A value that local.toml sets at a dotted path, other than a table, is
    what [_config_get] returns for that path, whatever default.toml and the
    profile file say. *)
Theorem runtime_config_local_wins (env : environ) (load : string -> dict) (path : string)
    (v default : json) :
  json_wf (JObj (load "local.toml")) = true ->
  config_lookup (JObj (load "local.toml")) (py_split_char "."%char path) = Some v ->
  (forall fs, v <> JObj fs) ->
  _config_get (_runtime_config env load) path default = v.
Proof.
  intros Hwf Hl Hnot. unfold _config_get, _runtime_config. cbv zeta.
  rewrite config_walk_lookup, (merge_lookup_override _ _ _ _ Hwf Hl Hnot). reflexivity.
Qed.

Definition three_files (f : string) : dict :=
  if String.eqb f "local.toml" then
    [("workerpals", JObj [("llm", JObj [("model", JStr "qwen")])])]
  else if String.eqb f "default.toml" then
    [("profile", JStr "dev");
     ("workerpals", JObj [("llm", JObj [("model", JStr "llama3");
                                         ("endpoint", JStr "http://localhost:1234")])])]
  else if String.eqb f "dev.toml" then
    [("workerpals", JObj [("llm", JObj [("model", JStr "mistral")])])]
  else [].

Lemma runtime_config_local_wins_witness :
  _config_get (_runtime_config (fun _ => None) three_files) "workerpals.llm.model" JNull
  = JStr "qwen".
Proof.
  apply (runtime_config_local_wins (fun _ => None) three_files "workerpals.llm.model"
           (JStr "qwen") JNull).
  - reflexivity.
  - reflexivity.
  - intros fs H. discriminate H.
Defined.

(** The tool preflight is disabled exactly when the environment variable
    holds an off word (0, false, no, off, any case and surrounding
    whitespace), or, the variable being unset, the config value is false,
    a zero number or an off word.  A set variable with any other text
    leaves the preflight enabled whatever the config says. *)
Theorem tool_preflight_disabled_iff (env : environ) (cfg : dict) :
  _tool_preflight_enabled env cfg = false <->
  match env "WORKERPALS_OPENHANDS_TOOL_PREFLIGHT_ENABLED" with
  | Some raw => str_in (py_lower (py_strip raw)) off_words = true
  | None =>
      match _config_get cfg "workerpals.openhands.tool_preflight_enabled" (JBool true) with
      | JBool b => b = false
      | JInt z => z = 0%Z
      | JFloat r => float_truthy r = false
      | JStr s => str_in (py_lower (py_strip s)) off_words = true
      | _ => False
      end
  end.
Proof.
  unfold _tool_preflight_enabled, _is_truthy_env. cbn [negb String.eqb].
  unfold _setting_bool.
  destruct (env "WORKERPALS_OPENHANDS_TOOL_PREFLIGHT_ENABLED") as [raw|].
  - set (t := py_lower (py_strip raw)).
    destruct (str_in t on_words) eqn:Hon.
    + rewrite (on_off_disjoint t Hon). split; discriminate.
    + destruct (str_in t off_words); split; congruence.
  - destruct (_config_get cfg _ (JBool true)) as [|b|z|r|s|l|f];
      try (split; [discriminate | intros []]).
    + destruct b; split; congruence.
    + destruct (Z.eqb_spec z 0); cbn; split; congruence.
    + destruct (float_truthy r); split; congruence.
    + set (t := py_lower (py_strip s)).
      destruct (str_in t on_words) eqn:Hon.
      * rewrite (on_off_disjoint t Hon). split; discriminate.
      * destruct (str_in t off_words); split; congruence.
Qed.

(** ** Extra properties: session identifiers *)

(** [_safe_session_component] with a non-empty, already safe fallback
    returns a non-empty string of at most 64 characters from
    [a-z0-9._:-], with no leading hyphen and no two hyphens in a row. *)
Theorem safe_session_component_safe (value : json) (fallback : string) :
  fallback <> "" -> session_safe fallback = true ->
  let r := _safe_session_component value fallback in
  r <> "" /\ String.length r <= 64 /\ session_safe r = true.
Proof. exact (safe_component_core value fallback). Qed.

Lemma safe_session_component_safe_witness :
  _safe_session_component (JStr "  Worker #7 -- EU ") "worker" = "worker-7-eu"
  /\ ("worker-7-eu" <> "" /\ String.length "worker-7-eu" <= 64
      /\ session_safe "worker-7-eu" = true).
Proof.
  assert (H : _safe_session_component (JStr "  Worker #7 -- EU ") "worker" = "worker-7-eu")
    by reflexivity.
  split; [exact H|].
  rewrite <- H. apply (safe_session_component_safe (JStr "  Worker #7 -- EU ") "worker").
  - discriminate.
  - reflexivity.
Defined.

(** The session user sent to the LLM server is never empty and uses only
    the characters [a-z0-9._:-], whatever the environment, configuration
    and payload hold. *)
Theorem stable_llm_session_user_chars (env : environ) (cfg : dict) (payload : option dict) :
  let u := _stable_llm_session_user env cfg payload in
  u <> "" /\ string_forall session_char u = true.
Proof.
  cbv zeta. unfold _stable_llm_session_user.
  destruct (negb (String.eqb _ "")).
  - split.
    + apply (safe_component_core _ "pushpals-worker"); [discriminate | reflexivity].
    + apply stable_component_chars; [discriminate | reflexivity].
  - split; [discriminate|].
    rewrite !string_forall_app.
    rewrite (stable_component_chars _ "session"), (stable_component_chars _ "worker"),
            (stable_component_chars _ "task") by (discriminate || reflexivity).
    reflexivity.
Qed.

(** ** Changed files *)

Definition nl_char : ascii := ascii_of_nat 10.

(** Text made of the given lines, each ended by \n. *)
Fixpoint lines_text (ls : list string) : string :=
  match ls with
  | [] => EmptyString
  | l :: rest => l ++ String nl_char (lines_text rest)
  end.

Definition no_line_break (s : string) : bool := string_forall (fun c => negb (is_line_break c)) s.
Definition no_space (s : string) : bool := string_forall (fun c => negb (py_is_space c)) s.

Lemma str_app_nil (s : string) : s ++ "" = s.
Proof.
  induction s as [|c s IH]; [reflexivity|].
  change (String c s ++ "") with (String c (s ++ "")). rewrite IH. reflexivity.
Qed.

Lemma str_app_assoc (a b c : string) : (a ++ b) ++ c = a ++ (b ++ c).
Proof.
  induction a as [|x a IH]; [reflexivity|].
  change ((String x a ++ b) ++ c) with (String x ((a ++ b) ++ c)). rewrite IH. reflexivity.
Qed.

Lemma str_length_app (a b : string) : String.length (a ++ b) = String.length a + String.length b.
Proof.
  induction a as [|c a IH]; [reflexivity|].
  change (S (String.length (a ++ b)) = S (String.length a + String.length b)). rewrite IH. reflexivity.
Qed.

Lemma string_rev_app_spec (s acc : string) : string_rev_app s acc = string_rev s ++ acc.
Proof.
  revert acc. induction s as [|c s IH]; intros acc; [reflexivity|].
  unfold string_rev. cbn [string_rev_app]. rewrite (IH (String c acc)), (IH (String c "")).
  rewrite str_app_assoc. reflexivity.
Qed.

Lemma string_rev_cons (c : ascii) (s : string) : string_rev (String c s) = string_rev s ++ String c "".
Proof. unfold string_rev at 1. cbn [string_rev_app]. apply string_rev_app_spec. Qed.

Lemma string_rev_app_distr (a b : string) : string_rev (a ++ b) = string_rev b ++ string_rev a.
Proof.
  induction a as [|c a IH]; [simpl; symmetry; apply str_app_nil|].
  change (String c a ++ b) with (String c (a ++ b)).
  rewrite !string_rev_cons, IH, str_app_assoc. reflexivity.
Qed.

Lemma string_rev_snoc (a : string) (c : ascii) : string_rev (a ++ String c "") = String c (string_rev a).
Proof. rewrite string_rev_app_distr. reflexivity. Qed.

Lemma string_rev_involutive (s : string) : string_rev (string_rev s) = s.
Proof.
  induction s as [|c s IH]; [reflexivity|].
  rewrite string_rev_cons, string_rev_snoc, IH. reflexivity.
Qed.

Lemma py_rstrip_snoc (m : string) (b : ascii) :
  py_is_space b = false -> py_rstrip (m ++ String b "") = m ++ String b "".
Proof.
  intros Hb. unfold py_rstrip. rewrite string_rev_snoc. cbn [py_lstrip]. rewrite Hb.
  rewrite <- string_rev_snoc. apply string_rev_involutive.
Qed.

Lemma no_space_snoc (p : string) :
  p <> "" -> no_space p = true -> exists m b, p = m ++ String b "" /\ py_is_space b = false.
Proof.
  induction p as [|c r IH]; intros Hne H; [congruence|].
  unfold no_space in H. cbn [string_forall] in H. apply andb_prop in H as [Hc Hr].
  destruct r as [|d r'].
  - exists "", c. split; [reflexivity|]. now destruct (py_is_space c).
  - destruct (IH ltac:(discriminate) Hr) as (m & b & -> & Hb).
    exists (String c m), b. split; [reflexivity | exact Hb].
Qed.

Lemma no_space_head_neq (c : ascii) : negb (py_is_space c) = true -> Ascii.eqb " " c = false.
Proof. intros H. destruct (Ascii.eqb_spec " " c) as [<-|]; [discriminate H | reflexivity]. Qed.

Lemma no_space_no_arrow (p : string) : no_space p = true -> contains " -> " p = false.
Proof.
  induction p as [|c r IH]; intros H; [reflexivity|].
  unfold no_space in H. cbn [string_forall] in H. apply andb_prop in H as [Hc Hr].
  cbn [contains starts_with]. rewrite (no_space_head_neq c Hc). exact (IH Hr).
Qed.

Lemma no_space_substring (n m : nat) (p : string) : no_space p = true -> no_space (substring n m p) = true.
Proof.
  revert n m. induction p as [|c r IH]; intros n m H; [destruct n, m; reflexivity|].
  unfold no_space in H. cbn [string_forall] in H. apply andb_prop in H as [Hc Hr].
  destruct n as [|n]; [destruct m as [|m]; [reflexivity|]|].
  - change (substring 0 (S m) (String c r)) with (String c (substring 0 m r)).
    unfold no_space. cbn [string_forall]. rewrite Hc. exact (IH 0 m Hr).
  - exact (IH n m Hr).
Qed.

Lemma substring_whole (s : string) : substring 0 (String.length s) s = s.
Proof. induction s as [|c s IH]; [reflexivity|]. cbn. now rewrite IH. Qed.

Lemma split_once_arrow (a b : string) :
  no_space a = true -> split_once " -> " (a ++ " -> " ++ b) = Some (a, b).
Proof.
  induction a as [|c a IH]; intros H.
  - change (split_once " -> " ("" ++ " -> " ++ b))
      with (Some (EmptyString, substring 4 (String.length (" -> " ++ b) - 4) (" -> " ++ b))).
    replace (String.length (" -> " ++ b) - 4) with (String.length b)
      by (rewrite str_length_app; cbn; lia).
    change (substring 4 (String.length b) (" -> " ++ b)) with (substring 0 (String.length b) b).
    rewrite substring_whole. reflexivity.
  - unfold no_space in H. cbn [string_forall] in H. apply andb_prop in H as [Hc Ha].
    change (String c a ++ " -> " ++ b) with (String c (a ++ " -> " ++ b)).
    cbn [split_once starts_with]. rewrite (no_space_head_neq c Hc). cbn [andb].
    rewrite (IH Ha). reflexivity.
Qed.

Lemma is_line_break_not_cr (c : ascii) : is_line_break c = false -> Nat.eqb (nat_of_ascii c) 13 = false.
Proof.
  intros H. destruct (Nat.eqb_spec (nat_of_ascii c) 13) as [E|]; [|reflexivity].
  unfold is_line_break in H. rewrite E in H. discriminate H.
Qed.

Lemma splitlines_go_line (acc l rest : string) :
  no_line_break l = true ->
  splitlines_go acc (l ++ String nl_char rest) = (string_rev acc ++ l) :: splitlines_go "" rest.
Proof.
  revert acc. induction l as [|c l IH]; intros acc H.
  - cbn. now rewrite str_app_nil.
  - unfold no_line_break in H. cbn [string_forall] in H. apply andb_prop in H as [Hc Hl].
    assert (Hb : is_line_break c = false) by now destruct (is_line_break c).
    change (String c l ++ String nl_char rest) with (String c (l ++ String nl_char rest)).
    cbn [splitlines_go]. rewrite (is_line_break_not_cr c Hb), Hb.
    rewrite (IH (String c acc) Hl), string_rev_cons, str_app_assoc. reflexivity.
Qed.

Lemma splitlines_lines_text (ls : list string) :
  Forall (fun l => no_line_break l = true) ls -> py_splitlines (lines_text ls) = ls.
Proof.
  unfold py_splitlines. induction 1 as [|l ls Hl _ IH]; [reflexivity|].
  cbn [lines_text]. rewrite (splitlines_go_line "" l _ Hl), IH. reflexivity.
Qed.

Lemma summarize_lines (ls : list string) :
  Forall (fun l => no_line_break l = true) ls ->
  _summarize_git_changes (Some (0%Z, lines_text ls)) = List.concat (map porcelain_line_path ls).
Proof. intros H. cbn -[py_splitlines]. rewrite (splitlines_lines_text ls H). reflexivity. Qed.

Lemma space_line_break (c : ascii) : py_is_space c = false -> is_line_break c = false.
Proof.
  unfold py_is_space, is_line_break. destruct (nat_of_ascii c) as [|n]; [reflexivity|].
  intros H. apply Bool.not_true_iff_false. intros H'. apply Bool.not_true_iff_false in H. apply H.
  apply orb_prop in H' as [H'|H']; apply andb_prop in H' as [H1 H2];
    apply Nat.leb_le in H1, H2; apply orb_true_intro; [left|right];
    apply andb_true_intro; split; apply Nat.leb_le; lia.
Qed.

Lemma no_space_no_line_break (s : string) : no_space s = true -> no_line_break s = true.
Proof.
  induction s as [|c s IH]; intros H; [reflexivity|].
  unfold no_space in H. cbn [string_forall] in H. apply andb_prop in H as [Hc Hs].
  unfold no_line_break. cbn [string_forall].
  rewrite space_line_break by now destruct (py_is_space c). exact (IH Hs).
Qed.

(** One entry [XY path] of [git status --porcelain]: its clean form, when
    [X] is not blank and the entry ends in a non-blank character. *)
Lemma porcelain_strip (x y : ascii) (m : string) (b : ascii) :
  py_is_space x = false -> py_is_space b = false ->
  py_strip (String x (String y (String " " (m ++ String b "")))) =
  String x (String y (String " " (m ++ String b ""))).
Proof.
  intros Hx Hb. unfold py_strip. cbn [py_lstrip]. rewrite Hx.
  change (String x (String y (String " " (m ++ String b ""))))
    with (String x (String y (String " " m)) ++ String b "").
  apply py_rstrip_snoc. exact Hb.
Qed.

Lemma porcelain_path_of (x y : ascii) (p : string) :
  py_is_space x = false -> p <> "" ->
  (exists m b, p = m ++ String b "" /\ py_is_space b = false) ->
  porcelain_line_path (String x (String y (String " " p))) =
  let path := if contains " -> " p
              then match split_once " -> " p with Some (_, b) => b | None => p end
              else p in
  if String.eqb path "" then [] else [path].
Proof.
  intros Hx Hne (m & b & -> & Hb). unfold porcelain_line_path.
  rewrite (porcelain_strip x y m b Hx Hb). cbn [String.eqb String.length].
  destruct (Nat.ltb_spec 3 (S (S (S (String.length (m ++ String b "")))))) as [_|Hl];
    [|rewrite str_length_app in Hl; cbn in Hl; lia].
  replace (S (S (S (String.length (m ++ String b "")))) - 3) with (String.length (m ++ String b "")) by lia.
  cbn [substring]. rewrite substring_whole. reflexivity.
Qed.

(** X7: splitting the output of [git status --porcelain]: on text made of
    \n-ended lines free of line breaks, [_summarize_git_changes] reports the
    paths of the lines one after the other, in the order of the lines. *)
Theorem summarize_git_changes_lines (ls : list string) :
  Forall (fun l => no_line_break l = true) ls ->
  _summarize_git_changes (Some (0%Z, lines_text ls)) = List.concat (map porcelain_line_path ls).
Proof. apply summarize_lines. Qed.

Lemma summarize_git_changes_lines_witness :
  _summarize_git_changes (Some (0%Z, lines_text ["M  a.txt"; ""; "?? dir/"]))
  = List.concat (map porcelain_line_path ["M  a.txt"; ""; "?? dir/"])
  /\ List.concat (map porcelain_line_path ["M  a.txt"; ""; "?? dir/"]) = ["a.txt"; "dir/"].
Proof.
  split; [apply summarize_git_changes_lines; repeat constructor | vm_compute; reflexivity].
Defined.

(** X8: an entry [XY path] whose status column [X] is not blank and whose
    path is free of whitespace is reported as exactly that path. *)
Theorem summarize_git_changes_entry (x y : ascii) (p : string) :
  py_is_space x = false -> is_line_break y = false -> p <> "" -> no_space p = true ->
  _summarize_git_changes (Some (0%Z, lines_text [String x (String y (String " " p))])) = [p].
Proof.
  intros Hx Hy Hne Hp.
  rewrite summarize_lines.
  2:{ repeat constructor. unfold no_line_break. cbn [string_forall].
      rewrite space_line_break, Hy by exact Hx. exact (no_space_no_line_break p Hp). }
  cbn [map List.concat]. rewrite app_nil_r.
  rewrite (porcelain_path_of x y p Hx Hne (no_space_snoc p Hne Hp)).
  cbn zeta. rewrite (no_space_no_arrow p Hp).
  destruct (String.eqb_spec p ""); [congruence | reflexivity].
Qed.

Lemma summarize_git_changes_entry_witness :
  _summarize_git_changes (Some (0%Z, lines_text ["M  src/app.py"])) = ["src/app.py"].
Proof.
  apply (summarize_git_changes_entry "M" " " "src/app.py"); vm_compute; (reflexivity || discriminate).
Defined.

(** X9: a rename entry [XY old -> new] (blank-free names, [X] not blank) is
    reported by its new name only. *)
Theorem summarize_git_changes_rename (x y : ascii) (old new : string) :
  py_is_space x = false -> is_line_break y = false -> new <> "" ->
  no_space old = true -> no_space new = true ->
  _summarize_git_changes (Some (0%Z, lines_text [String x (String y (String " " (old ++ " -> " ++ new)))])) = [new].
Proof.
  intros Hx Hy Hne Ho Hn.
  destruct (no_space_snoc new Hne Hn) as (m & b & Em & Hb).
  rewrite summarize_lines.
  2:{ repeat constructor. unfold no_line_break. cbn [string_forall].
      rewrite space_line_break, Hy by exact Hx. rewrite !string_forall_app.
      pose proof (no_space_no_line_break old Ho) as H1.
      pose proof (no_space_no_line_break new Hn) as H2.
      unfold no_line_break in H1, H2. rewrite H1, H2. reflexivity. }
  cbn [map List.concat]. rewrite app_nil_r.
  assert (Hne' : old ++ " -> " ++ new <> "") by (destruct old; discriminate).
  assert (Hlast : exists m' b', old ++ " -> " ++ new = m' ++ String b' "" /\ py_is_space b' = false).
  { exists (old ++ " -> " ++ m), b. split; [rewrite Em, !str_app_assoc; reflexivity | exact Hb]. }
  rewrite (porcelain_path_of x y (old ++ " -> " ++ new) Hx Hne' Hlast).
  cbn zeta.
  assert (Hc : contains " -> " (old ++ " -> " ++ new) = true).
  { apply contains_app_r. reflexivity. }
  rewrite Hc, (split_once_arrow old new Ho).
  destruct (String.eqb_spec new ""); [congruence | reflexivity].
Qed.

Lemma summarize_git_changes_rename_witness :
  _summarize_git_changes (Some (0%Z, lines_text ["R  old.txt -> new.txt"])) = ["new.txt"].
Proof.
  apply (summarize_git_changes_rename "R" " " "old.txt" "new.txt"); vm_compute; (reflexivity || discriminate).
Defined.

(** X10: an entry whose status column [X] is blank, as in [" M path"] for a
    change not yet staged, loses the first character of its path: the
    line is stripped before the first three characters are cut. *)
Theorem summarize_git_changes_unstaged (y c : ascii) (r : string) :
  py_is_space y = false -> r <> "" -> no_space (String c r) = true ->
  _summarize_git_changes (Some (0%Z, lines_text [String " " (String y (String " " (String c r)))])) = [r].
Proof.
  intros Hy Hne Hp.
  assert (Hr : no_space r = true).
  { unfold no_space in Hp. cbn [string_forall] in Hp. now apply andb_prop in Hp as [_ Hp]. }
  destruct (no_space_snoc r Hne Hr) as (m & b & Em & Hb).
  rewrite summarize_lines.
  2:{ repeat constructor. unfold no_line_break. cbn [string_forall].
      rewrite (space_line_break y Hy). exact (no_space_no_line_break _ Hp). }
  cbn [map List.concat]. rewrite app_nil_r.
  unfold porcelain_line_path.
  assert (Hs : py_strip (String " " (String y (String " " (String c r))))
               = String y (String " " (String c r))).
  { unfold py_strip. cbn [py_lstrip]. change (py_is_space " ") with true. cbn iota.
    cbn [py_lstrip]. rewrite Hy. rewrite Em.
    change (String y (String " " (String c (m ++ String b ""))))
      with (String y (String " " (String c m)) ++ String b "").
    apply py_rstrip_snoc. exact Hb. }
  rewrite Hs. cbn [String.eqb String.length].
  destruct (Nat.ltb_spec 3 (S (S (S (String.length r))))) as [_|Hl];
    [|destruct r; [congruence | cbn in Hl; lia]].
  replace (S (S (S (String.length r))) - 3) with (String.length r) by lia.
  cbn [substring]. rewrite substring_whole, (no_space_no_arrow r Hr).
  destruct (String.eqb_spec r ""); [congruence | reflexivity].
Qed.

Lemma summarize_git_changes_unstaged_witness :
  _summarize_git_changes (Some (0%Z, lines_text [" M src/app.py"])) = ["rc/app.py"].
Proof.
  apply (summarize_git_changes_unstaged "M" "s" "rc/app.py"); vm_compute; (reflexivity || discriminate).
Defined.

(** ** Model discovery *)

Lemma py_lstrip_suffix (s : string) : exists u, s = u ++ py_lstrip s.
Proof.
  induction s as [|c r IH]; [exists ""; reflexivity|].
  cbn [py_lstrip]. destruct (py_is_space c).
  - destruct IH as [u Hu]. exists (String c u).
    change (String c r = String c (u ++ py_lstrip r)). rewrite <- Hu. reflexivity.
  - exists "". reflexivity.
Qed.

Lemma py_lstrip_head (s : string) :
  py_lstrip s = "" \/ exists c r, py_lstrip s = String c r /\ py_is_space c = false.
Proof.
  induction s as [|c r IH]; [left; reflexivity|].
  cbn [py_lstrip]. destruct (py_is_space c) eqn:Hc; [exact IH|].
  right. exists c, r. split; [reflexivity | exact Hc].
Qed.

Lemma py_rstrip_prefix (s : string) : exists u, s = py_rstrip s ++ u.
Proof.
  destruct (py_lstrip_suffix (string_rev s)) as [u Hu]. exists (string_rev u).
  unfold py_rstrip. rewrite <- string_rev_app_distr, <- Hu. symmetry. apply string_rev_involutive.
Qed.

Lemma py_rstrip_last (s : string) :
  py_rstrip s = "" \/ exists m b, py_rstrip s = m ++ String b "" /\ py_is_space b = false.
Proof.
  unfold py_rstrip. destruct (py_lstrip_head (string_rev s)) as [-> | (c & r & -> & Hc)];
    [left; reflexivity|].
  right. exists (string_rev r), c. split; [apply string_rev_cons | exact Hc].
Qed.

Lemma py_strip_idem (s : string) : py_strip (py_strip s) = py_strip s.
Proof.
  unfold py_strip at 2 3.
  destruct (py_rstrip_last (py_lstrip s)) as [-> | (m & b & Hm & Hb)]; [reflexivity|].
  destruct (py_rstrip_prefix (py_lstrip s)) as [u Hu].
  destruct (py_rstrip (py_lstrip s)) as [|c' r'] eqn:E; [destruct m; discriminate Hm|].
  destruct (py_lstrip_head s) as [Hl | (c & r & Hl & Hc)]; [rewrite Hl in Hu; discriminate Hu|].
  rewrite Hl in Hu. change (String c r = String c' (r' ++ u)) in Hu. injection Hu as <- _.
  unfold py_strip. cbn [py_lstrip]. rewrite Hc. rewrite Hm. apply py_rstrip_snoc. exact Hb.
Qed.

Lemma first_str_id_clean (keys : list string) (f : dict) (v : string) :
  first_str_id keys f = Some v -> v <> "" /\ py_strip v = v.
Proof.
  induction keys as [|k ks IH]; intros H; [discriminate H|].
  cbn [first_str_id] in H.
  destruct (dict_get k f) as [[]|]; try exact (IH H).
  destruct (String.eqb_spec (py_strip s) "") as [_|Hne]; [exact (IH H)|].
  injection H as <-. split; [exact Hne | apply py_strip_idem].
Qed.

Lemma item_ids_clean (keys : list string) (items : list json) (v : string) :
  In v (item_ids keys items) -> v <> "" /\ py_strip v = v.
Proof.
  unfold item_ids. intros H. apply in_flat_map in H as [item [_ H]].
  destruct item; try contradiction.
  destruct (first_str_id keys fields) as [x|] eqn:E; [|contradiction].
  destruct H as [<- | []]. exact (first_str_id_clean keys fields x E).
Qed.

Lemma item_ids_complete (keys : list string) (items : list json) (f : dict) (v : string) :
  In (JObj f) items -> first_str_id keys f = Some v -> In v (item_ids keys items).
Proof.
  intros Hi Hf. unfold item_ids. apply in_flat_map. exists (JObj f). split; [exact Hi|].
  rewrite Hf. left. reflexivity.
Qed.

Lemma fromkeys_item_ids_clean (keys : list string) (items : list json) :
  List.NoDup (dict_fromkeys (item_ids keys items)) /\
  forall v, In v (dict_fromkeys (item_ids keys items)) -> v <> "" /\ py_strip v = v.
Proof.
  split; [apply dedup_go_nodup|].
  intros v H. apply dedup_go_sound in H as [H _]. exact (item_ids_clean keys items v H).
Qed.

Lemma fromkeys_item_ids_complete (keys : list string) (items : list json) (f : dict) (v : string) :
  In (JObj f) items -> first_str_id keys f = Some v -> In v (dict_fromkeys (item_ids keys items)).
Proof.
  intros Hi Hf. destruct (dedup_go_complete [] (item_ids keys items) v) as [[]|H]; [|exact H].
  exact (item_ids_complete keys items f v Hi Hf).
Qed.

Lemma extract_ids_clean (payload : json) (provider : string) :
  List.NoDup (_extract_model_ids payload provider) /\
  forall v, In v (_extract_model_ids payload provider) -> v <> "" /\ py_strip v = v.
Proof.
  unfold _extract_model_ids.
  assert (Hnil : List.NoDup (@nil string) /\ forall v : string, In v [] -> v <> "" /\ py_strip v = v)
    by (split; [constructor | intros _ []]).
  destruct (String.eqb provider "ollama"); destruct payload as [| | | | |l|fields]; try exact Hnil;
    [destruct (dict_get "models" fields) as [[]|] | destruct (dict_get "data" fields) as [[]|]];
    try exact Hnil; apply fromkeys_item_ids_clean.
Qed.

Lemma rstrip_slash_snoc (b : string) : rstrip_slash (b ++ "/") = rstrip_slash b.
Proof.
  unfold rstrip_slash. rewrite string_rev_app_distr.
  change (string_rev "/" ++ string_rev b) with (String "/" (string_rev b)). reflexivity.
Qed.

Section DiscoveryProps.

Variable fetch : string -> list (string * string) -> fetch_outcome.
Variable json_loads : string -> parse_outcome.

Lemma discover_loop_found (h : list (string * string)) (p : string) (urls : list string)
    (e : string) (ids : list string) (detail : string) :
  discover_loop fetch json_loads h p urls e = (ids, detail) -> ids <> [] ->
  exists pre url post status raw,
    urls = app pre (url :: post) /\ fetch url h = FResp status raw /\
    ids = url_ids fetch json_loads h p url /\ detail = url ++ " -> " ++ pretty status /\
    Forall (fun u => url_ids fetch json_loads h p u = []) pre.
Proof.
  revert e. induction urls as [|url rest IH]; intros e H Hne.
  - injection H as <- _. congruence.
  - cbn [discover_loop] in H.
    assert (Hstep : forall e', discover_loop fetch json_loads h p rest e' = (ids, detail) ->
                    url_ids fetch json_loads h p url = [] ->
                    exists pre url0 post status raw,
                      url :: rest = app pre (url0 :: post) /\ fetch url0 h = FResp status raw /\
                      ids = url_ids fetch json_loads h p url0 /\
                      detail = url0 ++ " -> " ++ pretty status /\
                      Forall (fun u => url_ids fetch json_loads h p u = []) pre).
    { intros e' H' Hu. destruct (IH e' H' Hne) as (pre & u & post & st & raw & -> & Hf & Hi & Hd & Hp).
      exists (url :: pre), u, post, st, raw. repeat split; try assumption. constructor; assumption. }
    unfold url_ids in Hstep. destruct (fetch url h) as [status raw|code body|msg] eqn:F.
    + destruct (loads_payload json_loads raw) as [payload|msg] eqn:L.
      * destruct (_extract_model_ids payload p) as [|i is] eqn:X.
        -- exact (Hstep _ H eq_refl).
        -- injection H as <- <-. exists [], url, rest, status, raw.
           repeat split; try reflexivity; [exact F | | constructor].
           unfold url_ids. rewrite F, L, X. reflexivity.
      * exact (Hstep _ H eq_refl).
    + exact (Hstep _ H eq_refl).
    + exact (Hstep _ H eq_refl).
Qed.

Lemma discover_loop_none (h : list (string * string)) (p : string) (urls : list string) (e : string) :
  fst (discover_loop fetch json_loads h p urls e) = [] <->
  Forall (fun u => url_ids fetch json_loads h p u = []) urls.
Proof.
  revert e. induction urls as [|url rest IH]; intros e; cbn [discover_loop].
  - split; intros _; [constructor | reflexivity].
  - rewrite Forall_cons_iff. unfold url_ids at 1.
    destruct (fetch url h) as [status raw|code body|msg];
      try (rewrite IH; tauto).
    destruct (loads_payload json_loads raw) as [payload|msg]; [|rewrite IH; tauto].
    destruct (_extract_model_ids payload p) as [|i is]; [rewrite IH; tauto|].
    cbn [fst]. split; [discriminate | intros [H _]; discriminate H].
Qed.

Lemma discover_loop_last (h : list (string * string)) (p : string) (urls : list string) (e : string) :
  fst (discover_loop fetch json_loads h p urls e) = [] -> urls <> [] ->
  exists msg, snd (discover_loop fetch json_loads h p urls e) = List.last urls "" ++ ": " ++ msg.
Proof.
  revert e. induction urls as [|url rest IH]; intros e H Hne; [congruence|].
  destruct rest as [|u2 rest'].
  - cbn [discover_loop] in *. cbn [List.last].
    destruct (fetch url h) as [status raw|code body|msg]; cbn [discover_loop fst snd] in *.
    + destruct (loads_payload json_loads raw) as [payload|msg]; cbn [discover_loop fst snd] in *.
      * destruct (_extract_model_ids payload p); [|discriminate H].
        exists "no models found in payload". reflexivity.
      * exists msg. reflexivity.
    + exists ("HTTP " ++ pretty code ++
              (let b := match body with Some b => b | None => "" end in
               let hint := if String.eqb b "" then "" else py_strip (py_prefix 120 b) in
               if String.eqb hint "" then "" else " (" ++ hint ++ ")")).
      reflexivity.
    + exists msg. reflexivity.
  - change (List.last (url :: u2 :: rest') "") with (List.last (u2 :: rest') "").
    assert (Hr : u2 :: rest' <> []) by discriminate.
    remember (u2 :: rest') as r eqn:Er. clear Er.
    cbn [discover_loop] in H |- *.
    destruct (fetch url h) as [status raw|code body|msg];
      try (apply IH; [exact H | exact Hr]).
    destruct (loads_payload json_loads raw) as [payload|msg];
      [|apply IH; [exact H | exact Hr]].
    destruct (_extract_model_ids payload p); [|discriminate H].
    apply IH; [exact H | exact Hr].
Qed.

End DiscoveryProps.

(** X11: trailing slashes of the base URL do not matter: the candidate
    model-list URLs for [base_url + "/"] are those for [base_url]. *)
Theorem model_candidates_url_trailing_slash (base_url provider : string) :
  _model_candidates_url (base_url ++ "/") provider = _model_candidates_url base_url provider.
Proof. unfold _model_candidates_url. rewrite rstrip_slash_snoc. reflexivity. Qed.

(** X12: a base URL made only of slashes is not reported as empty: no URL
    is probed and the answer is no models with "model list probe failed". *)
Theorem discover_slash_only_base fetch json_loads (base_url provider api_key : string) :
  base_url <> "" -> rstrip_slash base_url = "" ->
  _discover_available_models fetch json_loads base_url provider api_key = ([], "model list probe failed").
Proof.
  intros Hne Hs. unfold _discover_available_models, _model_candidates_url.
  destruct (String.eqb_spec base_url "") as [|_]; [congruence|]. rewrite Hs. reflexivity.
Qed.

Lemma discover_slash_only_base_witness :
  _discover_available_models (fun _ _ => FResp 200 "{}") (fun _ => PObject [])
    "///" "openai" "" = ([], "model list probe failed").
Proof. apply discover_slash_only_base; [discriminate | reflexivity]. Defined.

(** X13: the model ids extracted from a payload are distinct, not empty and
    carry no surrounding whitespace. *)
Theorem extract_model_ids_clean (payload : json) (provider : string) :
  List.NoDup (_extract_model_ids payload provider) /\
  forall v, In v (_extract_model_ids payload provider) -> v <> "" /\ py_strip v = v.
Proof. exact (extract_ids_clean payload provider). Qed.

(** X14: every entry of the payload's list that is a dict with a usable id
    is found: for Ollama the first non-blank string among "name", "model"
    and "id" of an entry of "models", for other providers the non-blank
    "id" of an entry of "data", stripped. *)
Theorem extract_model_ids_complete (d f : dict) (items : list json) (v : string) :
  (dict_get "models" d = Some (JArr items) -> In (JObj f) items ->
   first_str_id ["name"; "model"; "id"] f = Some v ->
   In v (_extract_model_ids (JObj d) "ollama")) /\
  (forall provider, provider <> "ollama" ->
   dict_get "data" d = Some (JArr items) -> In (JObj f) items ->
   first_str_id ["id"] f = Some v ->
   In v (_extract_model_ids (JObj d) provider)).
Proof.
  split.
  - intros Hd Hi Hf. unfold _extract_model_ids. cbn -[dict_get dict_fromkeys item_ids first_str_id].
    rewrite Hd. exact (fromkeys_item_ids_complete _ items f v Hi Hf).
  - intros provider Hp Hd Hi Hf. unfold _extract_model_ids.
    destruct (String.eqb_spec provider "ollama") as [|_]; [congruence|].
    rewrite Hd. exact (fromkeys_item_ids_complete _ items f v Hi Hf).
Qed.

(** X15: when discovery finds models, they are the ids of one candidate URL
    that answered with a payload, every candidate before it yielded none,
    and the detail is "<url> -> <status>". *)
Theorem discover_available_models_found fetch json_loads
    (base_url provider api_key : string) (ids : list string) (detail : string) :
  _discover_available_models fetch json_loads base_url provider api_key = (ids, detail) ->
  ids <> [] ->
  exists pre url post status raw,
    _model_candidates_url base_url provider = app pre (url :: post) /\
    fetch url (discovery_headers provider api_key) = FResp status raw /\
    ids = url_ids fetch json_loads (discovery_headers provider api_key) provider url /\
    detail = url ++ " -> " ++ pretty status /\
    Forall (fun u => url_ids fetch json_loads (discovery_headers provider api_key) provider u = []) pre.
Proof.
  unfold _discover_available_models. intros H Hne.
  destruct (String.eqb base_url ""); [injection H as <- _; congruence|].
  exact (discover_loop_found fetch json_loads _ _ _ _ ids detail H Hne).
Qed.

Definition two_url_fetch (url : string) (_ : list (string * string)) : fetch_outcome :=
  if String.eqb url "http://h/v1/models" then FHttpError 404 None else FResp 200 "ok".

Definition one_model_loads (raw : string) : parse_outcome :=
  PObject [("data", JArr [JObj [("id", JStr "m")]])].

Lemma discover_available_models_found_witness :
  exists pre url post status raw,
    _model_candidates_url "http://h" "openai" = app pre (url :: post) /\
    two_url_fetch url (discovery_headers "openai" "") = FResp status raw /\
    ["m"] = url_ids two_url_fetch one_model_loads (discovery_headers "openai" "") "openai" url /\
    "http://h/models -> 200" = url ++ " -> " ++ pretty status /\
    Forall (fun u => url_ids two_url_fetch one_model_loads (discovery_headers "openai" "") "openai" u = []) pre.
Proof.
  apply (discover_available_models_found two_url_fetch one_model_loads "http://h" "openai" "");
    [vm_compute; reflexivity | discriminate].
Defined.

(** X16: discovery finds no model exactly when no candidate URL yields an
    id, and then the detail names the last candidate: "<url>: <reason>". *)
Theorem discover_available_models_none fetch json_loads (base_url provider api_key : string) :
  base_url <> "" ->
  (fst (_discover_available_models fetch json_loads base_url provider api_key) = [] <->
   Forall (fun u => url_ids fetch json_loads (discovery_headers provider api_key) provider u = [])
          (_model_candidates_url base_url provider)) /\
  (fst (_discover_available_models fetch json_loads base_url provider api_key) = [] ->
   _model_candidates_url base_url provider <> [] ->
   exists msg, snd (_discover_available_models fetch json_loads base_url provider api_key)
               = List.last (_model_candidates_url base_url provider) "" ++ ": " ++ msg).
Proof.
  intros Hne. unfold _discover_available_models.
  destruct (String.eqb_spec base_url "") as [|_]; [congruence|].
  split; [apply discover_loop_none | apply discover_loop_last].
Qed.

Lemma discover_available_models_none_witness :
  exists msg, snd (_discover_available_models (fun _ _ => FHttpError 503 (Some " busy ")) one_model_loads
                     "http://h" "openai" "")
              = List.last (_model_candidates_url "http://h" "openai") "" ++ ": " ++ msg.
Proof.
  apply (proj2 (discover_available_models_none (fun _ _ => FHttpError 503 (Some " busy ")) one_model_loads
                  "http://h" "openai" "" ltac:(discriminate)));
    [vm_compute; reflexivity | discriminate].
Defined.

(** ** LLM configuration *)

Lemma discover_loop_clean fetch json_loads (h : list (string * string)) (p : string)
    (urls : list string) (e v : string) :
  In v (fst (discover_loop fetch json_loads h p urls e)) -> v <> "" /\ py_strip v = v.
Proof.
  revert e. induction urls as [|url rest IH]; intros e; cbn [discover_loop]; [intros []|].
  destruct (fetch url h) as [status raw|code body|msg]; try apply IH.
  destruct (loads_payload json_loads raw) as [payload|msg]; [|apply IH].
  destruct (_extract_model_ids payload p) as [|i is] eqn:X; [apply IH|].
  cbn [fst]. rewrite <- X. apply (proj2 (extract_ids_clean payload p)).
Qed.

Lemma discover_clean fetch json_loads (base_url provider api_key v : string) :
  In v (fst (_discover_available_models fetch json_loads base_url provider api_key)) ->
  v <> "" /\ py_strip v = v.
Proof.
  unfold _discover_available_models. destruct (String.eqb base_url ""); [intros []|].
  apply discover_loop_clean.
Qed.

Lemma pick_selected_nonblank (configured : string) (available : list string) :
  (forall v, In v available -> py_strip v <> "") ->
  py_strip (fst (_pick_configured_or_available_model configured available)) <> "".
Proof.
  intros Hav. unfold _pick_configured_or_available_model.
  destruct available as [|first rest].
  - destruct (String.eqb_spec (py_strip configured) "") as [_|Hne]; cbn [negb fst].
    + vm_compute. discriminate.
    + rewrite py_strip_idem. exact Hne.
  - destruct (negb (String.eqb (py_strip configured) "")); cbn [fst];
      [|apply Hav; left; reflexivity].
    destruct (find _ (first :: rest)) as [c|] eqn:F; cbn [fst];
      [apply Hav; exact (proj1 (find_some _ _ F)) | apply Hav; left; reflexivity].
Qed.

Lemma infer_provider_cases (backend base_url : string) :
  _infer_litellm_provider backend base_url = "ollama" \/
  _infer_litellm_provider backend base_url = "openai".
Proof.
  unfold _infer_litellm_provider.
  destruct (str_in backend _); [left; reflexivity|].
  destruct (str_in backend _); [right; reflexivity|].
  destruct (contains _ _); [left | right]; reflexivity.
Qed.

Lemma normalize_litellm_qualified (m provider : string) :
  provider = "ollama" \/ provider = "openai" -> py_strip m <> "" ->
  _normalize_litellm_model m provider <> "" /\
  _model_is_provider_qualified (_normalize_litellm_model m provider) = true.
Proof.
  intros Hp Hm. unfold _normalize_litellm_model.
  destruct (String.eqb_spec (py_strip m) "") as [|_]; [congruence|].
  destruct (_model_is_provider_qualified (py_strip m)) eqn:Q; [split; [exact Hm | exact Q]|].
  destruct Hp as [-> | ->]; cbn [String.eqb]; split; (discriminate || reflexivity).
Qed.

Lemma py_lstrip_app_id (b q : string) (c : ascii) (q' : string) :
  py_lstrip b = b -> q = String c q' -> py_is_space c = false -> py_lstrip (b ++ q) = b ++ q.
Proof.
  intros Hb -> Hc. destruct b as [|c0 r].
  - cbn [py_lstrip]. change ("" ++ String c q') with (String c q'). cbn [py_lstrip]. rewrite Hc. reflexivity.
  - change (String c0 r ++ String c q') with (String c0 (r ++ String c q')).
    cbn [py_lstrip] in Hb |- *. destruct (py_is_space c0); [|reflexivity].
    destruct (py_lstrip_suffix r) as [u Hu]. rewrite Hb in Hu.
    apply (f_equal String.length) in Hu. rewrite str_length_app in Hu. cbn in Hu. lia.
Qed.

Lemma rstrip_slash_snoc_char (m : string) (c : ascii) :
  Ascii.eqb c "/"%char = false -> rstrip_slash (m ++ String c "") = m ++ String c "".
Proof.
  intros Hc. unfold rstrip_slash. rewrite string_rev_snoc. cbn [lstrip_slash]. rewrite Hc.
  rewrite <- string_rev_snoc. apply string_rev_involutive.
Qed.

Lemma starts_with_refl (s : string) : starts_with s s = true.
Proof. induction s as [|c s IH]; [reflexivity|]. cbn [starts_with]. now rewrite Ascii.eqb_refl. Qed.

Lemma ends_with_app_self (b q : string) : ends_with q (b ++ q) = true.
Proof. unfold ends_with. rewrite string_rev_app_distr. apply starts_with_app, starts_with_refl. Qed.

Lemma substring_app_prefix (b x : string) : substring 0 (String.length b) (b ++ x) = b.
Proof.
  induction b as [|c b IH]; [destruct x; reflexivity|].
  change (substring 0 (String.length (String c b)) (String c b ++ x))
    with (String c (substring 0 (String.length b) (b ++ x))). rewrite IH. reflexivity.
Qed.

(** A base followed by a suffix that starts with a slash and ends with a
    letter is left alone by [strip()] and [rstrip("/")]. *)
Lemma normalize_clean_app (b q m : string) (c : ascii) :
  py_lstrip b = b -> q = String "/" (m ++ String c "") ->
  py_is_space c = false -> Ascii.eqb c "/"%char = false ->
  py_strip (b ++ q) = b ++ q /\ rstrip_slash (b ++ q) = b ++ q /\ b ++ q <> "".
Proof.
  intros Hb Hq Hc Hs.
  assert (E : b ++ q = (b ++ String "/" m) ++ String c "")
    by (rewrite Hq, str_app_assoc; reflexivity).
  split; [|split].
  - unfold py_strip. rewrite (py_lstrip_app_id b q "/" (m ++ String c "") Hb Hq eq_refl).
    rewrite E. apply py_rstrip_snoc. exact Hc.
  - rewrite E. apply rstrip_slash_snoc_char. exact Hs.
  - rewrite Hq. destruct b; discriminate.
Qed.

(** X17: the model [_resolve_llm_config] returns is never empty and always
    provider-qualified, whatever the settings, the container rewrite and
    the answers of the model-list endpoints. *)
Theorem resolve_llm_config_model_qualified (env : environ) (cfg : dict) (in_container : bool)
    (rewrite : string -> string) fetch json_loads :
  let '(model, _, _) := _resolve_llm_config env cfg in_container rewrite fetch json_loads in
  model <> "" /\ _model_is_provider_qualified model = true.
Proof.
  unfold _resolve_llm_config.
  match goal with |- context [_infer_litellm_provider ?k ?u] =>
    pose proof (infer_provider_cases k u) as Hp; set (provider := _infer_litellm_provider k u) in * end.
  match goal with |- context [_discover_available_models ?f ?j ?b provider ?k] =>
    pose proof (fun v => discover_clean f j b provider k v) as Hc;
    destruct (_discover_available_models f j b provider k) as [available detail] end.
  cbn [fst] in Hc.
  match goal with |- context [_pick_configured_or_available_model ?c available] =>
    pose proof (pick_selected_nonblank c available) as Hs;
    destruct (_pick_configured_or_available_model c available) as [selected reason] end.
  cbn [fst] in Hs.
  apply normalize_litellm_qualified; [exact Hp|].
  apply Hs. intros v Hv. destruct (Hc v Hv) as [Hne ->]. exact Hne.
Qed.

(** X18: an endpoint configured as a full chat URL is cut back to its
    base: ["<base>/chat/completions"] gives ["<base>"], and so does
    ["<base>/api/chat"] when the base does not itself end in
    ["/chat/completions"] (the base having no leading whitespace). *)
Theorem normalize_base_url_chat_suffix (b : string) :
  py_lstrip b = b ->
  _normalize_base_url (b ++ "/chat/completions") = b /\
  (ends_with "/chat/completions" b = false -> _normalize_base_url (b ++ "/api/chat") = b).
Proof.
  intros Hb. split.
  - destruct (normalize_clean_app b "/chat/completions" "chat/completion" "s" Hb eq_refl eq_refl eq_refl)
      as (H1 & H2 & H3).
    unfold _normalize_base_url. rewrite H1.
    destruct (String.eqb_spec (b ++ "/chat/completions") "") as [|_]; [congruence|]. rewrite H2.
    assert (Hapi : ends_with "/api/chat" (b ++ "/chat/completions") = false)
      by (unfold ends_with; rewrite string_rev_app_distr; reflexivity).
    rewrite Hapi. cbn beta iota zeta. rewrite ends_with_app_self. cbn iota.
    rewrite str_length_app. change (String.length "/chat/completions") with 17.
    replace (String.length b + 17 - 17) with (String.length b) by lia.
    apply substring_app_prefix.
  - intros He.
    destruct (normalize_clean_app b "/api/chat" "api/cha" "t" Hb eq_refl eq_refl eq_refl)
      as (H1 & H2 & H3).
    unfold _normalize_base_url. rewrite H1.
    destruct (String.eqb_spec (b ++ "/api/chat") "") as [|_]; [congruence|]. rewrite H2.
    rewrite ends_with_app_self. cbn beta iota zeta.
    rewrite str_length_app. change (String.length "/api/chat") with 9.
    replace (String.length b + 9 - 9) with (String.length b) by lia.
    rewrite substring_app_prefix, He. reflexivity.
Qed.

Lemma normalize_base_url_chat_suffix_witness :
  _normalize_base_url ("http://127.0.0.1:1234/v1" ++ "/chat/completions") = "http://127.0.0.1:1234/v1".
Proof. exact (proj1 (normalize_base_url_chat_suffix "http://127.0.0.1:1234/v1" eq_refl)). Defined.

(** ** Prompt templates *)

(** A template as literal text and [{{ key }}] tokens. *)
Inductive piece : Type :=
| PLit (s : string)
| PTok (ws1 key ws2 : string).

Definition piece_text (p : piece) : string :=
  match p with
  | PLit s => s
  | PTok ws1 key ws2 => "{{" ++ ws1 ++ key ++ ws2 ++ "}}"
  end.

Fixpoint template_text (ps : list piece) : string :=
  match ps with
  | [] => EmptyString
  | p :: rest => piece_text p ++ template_text rest
  end.

Definition piece_ok (p : piece) : bool :=
  match p with
  | PLit s => string_forall (fun c => negb (Ascii.eqb c "{")) s
  | PTok ws1 key ws2 =>
      string_forall py_is_space ws1 && negb (String.eqb key "")
      && string_forall is_key_char key && string_forall py_is_space ws2
  end.

Definition prepend (p : string) (x : string + string) : string + string :=
  match x with inl t => inl (p ++ t) | inr e => inr e end.

(** The intended rendering: literals kept, each token replaced by the value
    of its key, the first missing key reported. *)
Fixpoint render (replacements : list (string * string)) (ps : list piece) : string + string :=
  match ps with
  | [] => inl EmptyString
  | PLit s :: rest => prepend s (render replacements rest)
  | PTok _ key _ :: rest =>
      match str_lookup key replacements with
      | None => inr key
      | Some v => prepend v (render replacements rest)
      end
  end.

Lemma match_token_not_brace (c : ascii) (r : string) :
  Ascii.eqb c "{" = false -> match_token (String c r) = None.
Proof.
  intros H. destruct c as [[] [] [] [] [] [] [] []]; try reflexivity; discriminate H.
Qed.

Lemma key_char_not_space (c : ascii) : is_key_char c = true -> py_is_space c = false.
Proof.
  destruct c as [[] [] [] [] [] [] [] []]; intros H; vm_compute in H |- *;
    (reflexivity || discriminate H).
Qed.

Lemma span_all (p : ascii -> bool) (a b : string) :
  string_forall p a = true -> span p (a ++ b) = (a ++ fst (span p b), snd (span p b)).
Proof.
  induction a as [|c a IH]; intros H.
  - change ("" ++ b) with b. change ("" ++ fst (span p b)) with (fst (span p b)).
    destruct (span p b). reflexivity.
  - cbn [string_forall] in H. apply andb_prop in H as [Hc Ha].
    change (String c a ++ b) with (String c (a ++ b)). cbn [span]. rewrite Hc, (IH Ha). reflexivity.
Qed.

Lemma span_stop (p : ascii -> bool) (c : ascii) (r : string) :
  p c = false -> span p (String c r) = (EmptyString, String c r).
Proof. intros H. cbn [span]. rewrite H. reflexivity. Qed.

Lemma span_stop_app (p : ascii -> bool) (c : ascii) (r x : string) :
  p c = false -> span p (String c r ++ x) = (EmptyString, String c r ++ x).
Proof. intros H. change (String c r ++ x) with (String c (r ++ x)). apply span_stop. exact H. Qed.

Lemma match_token_tok (ws1 key ws2 t : string) :
  piece_ok (PTok ws1 key ws2) = true ->
  match_token (piece_text (PTok ws1 key ws2) ++ t) = Some (key, t).
Proof.
  cbn [piece_ok piece_text]. intros H.
  apply andb_prop in H as [H H4]. apply andb_prop in H as [H H3]. apply andb_prop in H as [H1 H2].
  destruct key as [|k0 key']; [discriminate H2|].
  assert (Hk0 : is_key_char k0 = true) by (cbn [string_forall] in H3; now apply andb_prop in H3).
  rewrite !str_app_assoc.
  change (match_token (String "{" (String "{" (ws1 ++ String k0 key' ++ ws2 ++ "}}" ++ t)))
          = Some (String k0 key', t)).
  cbn [match_token].
  rewrite (span_all py_is_space ws1 _ H1), (span_stop_app py_is_space k0 _ _ (key_char_not_space k0 Hk0)).
  cbn [fst snd].
  assert (Hend : span is_key_char (ws2 ++ "}}" ++ t) = (EmptyString, ws2 ++ "}}" ++ t)).
  { destruct ws2 as [|w ws2'].
    - reflexivity.
    - cbn [string_forall] in H4. apply andb_prop in H4 as [Hw _].
      apply span_stop. destruct (is_key_char w) eqn:E; [|reflexivity].
      rewrite (key_char_not_space w E) in Hw. discriminate Hw. }
  rewrite (span_all is_key_char (String k0 key') _ H3), Hend. cbn [fst snd]. rewrite str_app_nil.
  cbn [String.eqb].
  rewrite (span_all py_is_space ws2 _ H4).
  change (span py_is_space ("}}" ++ t)) with (EmptyString, "}}" ++ t).
  reflexivity.
Qed.

Lemma sub_tokens_lit (replacements : list (string * string)) (s t : string) (fuel : nat) :
  string_forall (fun c => negb (Ascii.eqb c "{")) s = true ->
  String.length s < fuel ->
  sub_tokens fuel replacements (s ++ t)
  = prepend s (sub_tokens (fuel - String.length s) replacements t).
Proof.
  revert fuel. induction s as [|c s IH]; intros fuel H Hf.
  - rewrite Nat.sub_0_r. change ("" ++ t) with t.
    destruct (sub_tokens fuel replacements t); reflexivity.
  - cbn [string_forall] in H. apply andb_prop in H as [Hc Hs].
    destruct fuel as [|fuel]; [cbn in Hf; lia|].
    change (String c s ++ t) with (String c (s ++ t)). cbn [sub_tokens].
    rewrite match_token_not_brace by now destruct (Ascii.eqb c "{").
    rewrite (IH fuel Hs) by (cbn in Hf; lia).
    change (S fuel - String.length (String c s)) with (fuel - String.length s).
    destruct (sub_tokens (fuel - String.length s) replacements t); reflexivity.
Qed.

Lemma sub_tokens_pieces (replacements : list (string * string)) (ps : list piece) (fuel : nat) :
  forallb piece_ok ps = true -> String.length (template_text ps) < fuel ->
  sub_tokens fuel replacements (template_text ps) = render replacements ps.
Proof.
  revert fuel. induction ps as [|p ps IH]; intros fuel H Hf.
  - destruct fuel; [cbn in Hf; lia | reflexivity].
  - cbn [forallb] in H. apply andb_prop in H as [Hp Hps].
    cbn [template_text] in *. rewrite str_length_app in Hf.
    destruct p as [s|ws1 key ws2].
    + cbn [piece_text] in Hf |- *.
      rewrite (sub_tokens_lit replacements s _ fuel Hp) by lia.
      rewrite (IH _ Hps) by lia. reflexivity.
    + destruct fuel as [|fuel]; [lia|].
      assert (Hne : piece_text (PTok ws1 key ws2) ++ template_text ps
                    = String "{" (String "{" (ws1 ++ key ++ ws2 ++ "}}" ++ template_text ps))).
      { cbn [piece_text]. rewrite !str_app_assoc. reflexivity. }
      rewrite Hne. cbn [sub_tokens]. rewrite <- Hne, (match_token_tok ws1 key ws2 _ Hp).
      cbn [render]. destruct (str_lookup key replacements) as [v|]; [|reflexivity].
      rewrite (IH fuel Hps); [reflexivity|].
      cbn [piece_text] in Hf. rewrite !str_length_app in Hf. cbn in Hf. lia.
Qed.

(** X19: substituting into a template made of brace-free text and
    [{{ key }}] tokens replaces every token by its value, verbatim (a
    value is not scanned again), keeps the text, and fails with the first
    key, from the left, that has no replacement. *)
Theorem prompt_sub_render (replacements : list (string * string)) (ps : list piece) :
  forallb piece_ok ps = true ->
  prompt_sub replacements (template_text ps) = render replacements ps.
Proof. intros H. apply sub_tokens_pieces; [exact H | lia]. Qed.

Lemma prompt_sub_render_witness :
  prompt_sub [("task", "{{ task }}!")] (template_text [PLit "Do: "; PTok " " "task" ""; PLit "."])
  = inl "Do: {{ task }}!.".
Proof.
  rewrite (prompt_sub_render [("task", "{{ task }}!")] [PLit "Do: "; PTok " " "task" ""; PLit "."])
    by reflexivity.
  reflexivity.
Defined.

(** X20: the template cache: once a template has been loaded for a path
    (also when the substitution then failed), later loads of that path
    never read the file again, leave the cache as it is and use the
    template first loaded; with no or an empty replacement dict that
    template is returned unchanged, tokens included. *)
Theorem load_prompt_template_cached (cache : list (string * string)) (read : string -> option string)
    (prompt_key : string) (replacements : option (list (string * string)))
    (res : string + template_error) (cache' : list (string * string)) :
  _load_prompt_template cache read prompt_key replacements = (res, cache') ->
  (forall p, res <> inr (TemplateNotFound p)) ->
  exists template,
    (str_lookup prompt_key cache = Some template \/
     (str_lookup prompt_key cache = None /\ read prompt_key = Some template)) /\
    forall read' replacements',
      _load_prompt_template cache' read' prompt_key replacements' =
      (match replacements' with
       | None | Some [] => inl template
       | Some repl => match prompt_sub repl template with
                      | inl s => inl s
                      | inr key => inr (MissingReplacement key)
                      end
       end, cache').
Proof.
  unfold _load_prompt_template at 1. intros Hload Hnf.
  destruct (str_lookup prompt_key cache) as [t|] eqn:C.
  - assert (Hc : cache' = cache) by (destruct replacements as [[|? ?]|];
      [|destruct (prompt_sub _ t)|]; injection Hload as _ <-; reflexivity).
    subst cache'. exists t. split; [left; reflexivity|].
    intros read' r'. unfold _load_prompt_template. rewrite C.
    destruct r' as [[|? ?]|]; [| destruct (prompt_sub _ t) |]; reflexivity.
  - destruct (read prompt_key) as [t|] eqn:R.
    + assert (Hc : cache' = (prompt_key, t) :: cache) by (destruct replacements as [[|? ?]|];
        [|destruct (prompt_sub _ t)|]; injection Hload as _ <-; reflexivity).
      subst cache'. exists t. split; [right; split; reflexivity|].
      intros read' r'. unfold _load_prompt_template. cbn [str_lookup].
      rewrite String.eqb_refl.
      destruct r' as [[|? ?]|]; [| destruct (prompt_sub _ t) |]; reflexivity.
    + injection Hload as <- _. exfalso. exact (Hnf prompt_key eq_refl).
Qed.

Lemma load_prompt_template_cached_witness :
  exists template,
    (str_lookup "p.md" [] = Some template \/
     (str_lookup "p.md" [] = None /\ (fun k : string => Some "Hi {{ name }}") "p.md" = Some template)) /\
    forall read' replacements',
      _load_prompt_template [("p.md", "Hi {{ name }}")] read' "p.md" replacements' =
      (match replacements' with
       | None | Some [] => inl template
       | Some repl => match prompt_sub repl template with
                      | inl s => inl s
                      | inr key => inr (MissingReplacement key)
                      end
       end, [("p.md", "Hi {{ name }}")]).
Proof.
  apply (load_prompt_template_cached [] (fun _ => Some "Hi {{ name }}") "p.md" (Some [("name", "Ann")])
           (inl "Hi Ann")); [vm_compute; reflexivity | discriminate].
Defined.


Ltac div_mod_facts x k :=
  pose proof (Nat.div_mod_eq x k); pose proof (Nat.mod_upper_bound x k ltac:(lia)).

Lemma b64_index_char (n : nat) : n < 64 -> b64_index (b64_char n) = Some n.
Proof. intros H. do 64 (destruct n as [|n]; [reflexivity|]). lia. Qed.

Lemma b64_char_text (n : nat) :
  (match b64_index (b64_char n) with Some _ => true | None => Ascii.eqb (b64_char n) "=" end) = true.
Proof. do 64 (destruct n as [|n]; [reflexivity|]). reflexivity. Qed.

Lemma b64_index_pad : b64_index "=" = None.
Proof. reflexivity. Qed.

Lemma b64_group (a b c : nat) : a < 256 -> b < 256 -> c < 256 ->
  let s1 := a / 4 in let s2 := (a mod 4) * 16 + b / 16 in
  let s3 := (b mod 16) * 4 + c / 64 in let s4 := c mod 64 in
  s1 * 4 + s2 / 16 = a /\ (s2 mod 16) * 16 + s3 / 4 = b /\ (s3 mod 4) * 64 + s4 = c
  /\ s1 < 64 /\ s2 < 64 /\ s3 < 64 /\ s4 < 64.
Proof.
  intros Ha Hb Hc. cbv zeta. div_mod_facts a 4. div_mod_facts b 16. div_mod_facts c 64.
  div_mod_facts ((a mod 4) * 16 + b / 16) 16. div_mod_facts ((b mod 16) * 4 + c / 64) 4.
  repeat split; lia.
Qed.

Lemma b64decode_encode (s : string) : b64decode (b64encode s) = Some s.
Proof.
  remember (String.length s) as n eqn:En. revert s En.
  induction n as [n IH] using lt_wf_ind. intros s En.
  destruct s as [|a [|b [|c r]]]; [reflexivity| | |].
  - pose proof (nat_ascii_bounded a) as Ha.
    destruct (b64_group (nat_of_ascii a) 0 0 Ha ltac:(lia) ltac:(lia)) as (E1 & _ & _ & L1 & L2 & _).
    rewrite Nat.Div0.div_0_l, Nat.add_0_r in E1, L2 by lia.
    cbn [b64encode b64decode]. rewrite !b64_index_char by lia.
    cbn -[Nat.div Nat.modulo Nat.mul Nat.add]. rewrite b64_index_pad. cbn -[Nat.div Nat.modulo Nat.mul Nat.add].
    rewrite E1, ascii_nat_embedding. reflexivity.
  - pose proof (nat_ascii_bounded a) as Ha. pose proof (nat_ascii_bounded b) as Hb.
    destruct (b64_group (nat_of_ascii a) (nat_of_ascii b) 0 Ha Hb ltac:(lia))
      as (E1 & E2 & _ & L1 & L2 & L3 & _).
    rewrite Nat.Div0.div_0_l, Nat.add_0_r in E2, L3 by lia.
    cbn [b64encode b64decode]. rewrite !b64_index_char by lia. cbn -[Nat.div Nat.modulo Nat.mul Nat.add].
    rewrite b64_index_pad. cbn -[Nat.div Nat.modulo Nat.mul Nat.add].
    rewrite E1, E2, !ascii_nat_embedding. reflexivity.
  - pose proof (nat_ascii_bounded a) as Ha. pose proof (nat_ascii_bounded b) as Hb.
    pose proof (nat_ascii_bounded c) as Hc.
    destruct (b64_group (nat_of_ascii a) (nat_of_ascii b) (nat_of_ascii c) Ha Hb Hc)
      as (E1 & E2 & E3 & L1 & L2 & L3 & L4).
    cbn [b64encode b64decode]. rewrite !b64_index_char by lia.
    cbn -[Nat.div Nat.modulo Nat.mul Nat.add b64encode b64decode].
    rewrite E1, E2, E3, !ascii_nat_embedding.
    rewrite (IH (String.length r)) with (s := r); [reflexivity| cbn in En; lia | reflexivity].
Qed.


Lemma b64encode_text (s : string) : string_forall b64_text (b64encode s) = true.
Proof.
  remember (String.length s) as n eqn:En. revert s En.
  induction n as [n IH] using lt_wf_ind. intros s En.
  destruct s as [|a [|b [|c r]]]; [reflexivity| | |];
    cbn [b64encode string_forall]; unfold b64_text; rewrite ?b64_char_text; try reflexivity.
  apply (IH (String.length r)); [cbn in En; lia | reflexivity].
Qed.

Lemma shlex_safe_literal (c : ascii) :
  shlex_safe_char c = true ->
  Nat.eqb (nat_of_ascii c) 0 = false /\ Nat.eqb (nat_of_ascii c) 39 = false /\
  Nat.eqb (nat_of_ascii c) 34 = false /\ Nat.eqb (nat_of_ascii c) 92 = false /\ sh_special c = false.
Proof.
  destruct c as [[] [] [] [] [] [] [] []]; intros H; vm_compute in H |- *;
    try discriminate H; repeat split.
Qed.

Lemma sh_word_safe (s : string) : find_unsafe s = false -> sh_word_go ShUnquoted s = Some s.
Proof.
  induction s as [|c r IH]; intros H; [reflexivity|].
  cbn [find_unsafe] in H. apply orb_false_elim in H as [Hc Hr].
  apply negb_false_iff in Hc.
  destruct (shlex_safe_literal c Hc) as (H0 & H39 & H34 & H92 & Hs).
  cbn [sh_word_go]. rewrite H0, H39, H34, H92, Hs, (IH Hr). reflexivity.
Qed.

Lemma sh_word_single (s t : string) :
  no_nul s = true ->
  sh_word_go ShSingle (quote_single s ++ String "'" t) =
  option_map (fun v => s ++ v) (sh_word_go ShUnquoted t).
Proof.
  induction s as [|c r IH]; intros H.
  - change (quote_single "" ++ String "'" t) with (String "'" t).
    cbn [sh_word_go]. cbn -[sh_word_go]. destruct (sh_word_go ShUnquoted t); reflexivity.
  - cbn [no_nul] in H. apply andb_prop in H as [Hc Hr].
    apply negb_true_iff in Hc.
    cbn [quote_single]. destruct (Ascii.eqb_spec c "'") as [->|Hq].
    + change (("'" ++ dq ++ "'" ++ dq ++ "'" ++ quote_single r) ++ String "'" t)
        with (String "'" (String (ascii_of_nat 34) (String "'" (String (ascii_of_nat 34)
                (String "'" (quote_single r ++ String "'" t)))))).
      cbn [sh_word_go]. cbn -[sh_word_go]. rewrite (IH Hr).
      destruct (sh_word_go ShUnquoted t); reflexivity.
    + change (String c (quote_single r) ++ String "'" t)
        with (String c (quote_single r ++ String "'" t)).
      cbn [sh_word_go]. rewrite Hc.
      assert (H39 : Nat.eqb (nat_of_ascii c) 39 = false).
      { apply Nat.eqb_neq. intros E. apply Hq.
        rewrite <- (ascii_nat_embedding c), E. reflexivity. }
      rewrite H39, (IH Hr). destruct (sh_word_go ShUnquoted t); reflexivity.
Qed.

(** X23: [shlex.quote]: the shell reads the quoted text as one word whose
    value is the original string (a string without NUL bytes). *)
Lemma shlex_quote_word (s : string) : no_nul s = true -> sh_word (shlex_quote s) = Some s.
Proof.
  intros H. unfold shlex_quote.
  destruct (String.eqb_spec s "") as [->|Hne]; [reflexivity|].
  destruct (find_unsafe s) eqn:U; cbn [negb].
  - unfold sh_word.
    change (("'" ++ quote_single s ++ "'")) with (String "'" (quote_single s ++ String "'" "")).
    cbn [String.eqb]. cbn [sh_word_go]. cbn -[sh_word_go quote_single].
    rewrite (sh_word_single s "" H). cbn. rewrite str_app_nil. reflexivity.
  - unfold sh_word. destruct (String.eqb_spec s "") as [E|_]; [congruence|].
    apply sh_word_safe. exact U.
Qed.


(** X21: [_python_cmd(script)] is the quoted interpreter followed by a
    heredoc whose program decodes a base64 text; that text holds only
    base64 characters (no quote, no newline) and decodes to the UTF-8
    bytes of [script]. *)
Theorem python_cmd_script_roundtrip (env : environ) (cfg : dict) (script : string) :
  exists encoded,
    _python_cmd env cfg script =
      shlex_quote (_setting_str env cfg "WORKERPALS_OPENHANDS_WORKSPACE_PYTHON"
                     "workerpals.openhands.workspace_python" "python3")
      ++ " - <<'PY'" ++ nl ++ "import base64" ++ nl
      ++ "exec(base64.b64decode('" ++ encoded ++ "').decode('utf-8'))" ++ nl ++ "PY"
    /\ b64decode encoded = Some (utf8_encode script)
    /\ string_forall b64_text encoded = true.
Proof.
  exists (b64encode (utf8_encode script)). split; [reflexivity|].
  split; [apply b64decode_encode | apply b64encode_text].
Qed.

(** X22: [_python_script_cmd] runs the runner script through
    [_python_cmd], and the base64 argument the runner passes to the
    script decodes to [json.dumps(payload)] (UTF-8 encoded). *)
Theorem python_script_cmd_payload_roundtrip (path_resolve : string -> string) (env : environ) (cfg : dict)
    (repo script_rel : string) (payload : dict) :
  exists payload_b64,
    _python_script_cmd path_resolve env cfg repo script_rel payload =
      _python_cmd env cfg (python_runner (path_resolve repo) script_rel payload_b64)
    /\ b64decode payload_b64 = Some (utf8_encode (json_dumps (JObj payload)))
    /\ string_forall b64_text payload_b64 = true.
Proof.
  exists (b64encode (utf8_encode (json_dumps (JObj payload)))). split; [reflexivity|].
  split; [apply b64decode_encode | apply b64encode_text].
Qed.

Lemma job_read (float_int : string -> option Z) (path_resolve : string -> string)
    (env : environ) (cfg : dict) (params : dict) (repo : string) (path : json) :
  dict_get "path" params = Some path -> path <> JNull -> path <> JStr "" ->
  _job_to_command float_int path_resolve env cfg "file.read" params repo
  = inl (Some ("cat " ++ shlex_quote (py_str_full path)), None).
Proof.
  intros Hg Hn He. unfold _job_to_command. cbn -[shlex_quote py_str_full _python_script_cmd].
  unfold req_then, job_req. rewrite Hg.
  destruct path as [| | | |[|? ?]| |]; try congruence; reflexivity.
Qed.

Lemma job_search (float_int : string -> option Z) (path_resolve : string -> string)
    (env : environ) (cfg : dict) (params : dict) (repo : string) (pattern : json) :
  dict_get "pattern" params = Some pattern -> pattern <> JNull -> pattern <> JStr "" ->
  _job_to_command float_int path_resolve env cfg "file.search" params repo
  = inl (Some ("rg --no-heading --line-number " ++ shlex_quote (py_str_full pattern)
               ++ " . || grep -rn " ++ shlex_quote (py_str_full pattern) ++ " . || true"), None).
Proof.
  intros Hg Hn He. unfold _job_to_command. cbn -[shlex_quote py_str_full _python_script_cmd].
  unfold req_then, job_req. rewrite Hg.
  destruct pattern as [| | | |[|? ?]| |]; try congruence; reflexivity.
Qed.

(** X24: [file.read] with a present, non-empty [path] gives [cat] and one
    shell word whose value is [str(path)]. *)
Theorem job_file_read_quoted (float_int : string -> option Z) (path_resolve : string -> string)
    (env : environ) (cfg : dict) (params : dict) (repo : string) (path : json) :
  dict_get "path" params = Some path -> path <> JNull -> path <> JStr "" ->
  no_nul (py_str_full path) = true ->
  exists w,
    _job_to_command float_int path_resolve env cfg "file.read" params repo
    = inl (Some ("cat " ++ w), None)
    /\ sh_word w = Some (py_str_full path).
Proof.
  intros Hg Hn He Hz. exists (shlex_quote (py_str_full path)). split.
  - apply job_read; assumption.
  - apply shlex_quote_word. exact Hz.
Qed.

(** X25: [file.search] with a present, non-empty [pattern] gives the [rg]
    and [grep] fallback with the same single shell word, of value
    [str(pattern)], in both places. *)
Theorem job_file_search_quoted (float_int : string -> option Z) (path_resolve : string -> string)
    (env : environ) (cfg : dict) (params : dict) (repo : string) (pattern : json) :
  dict_get "pattern" params = Some pattern -> pattern <> JNull -> pattern <> JStr "" ->
  no_nul (py_str_full pattern) = true ->
  exists w,
    _job_to_command float_int path_resolve env cfg "file.search" params repo
    = inl (Some ("rg --no-heading --line-number " ++ w ++ " . || grep -rn " ++ w ++ " . || true"), None)
    /\ sh_word w = Some (py_str_full pattern).
Proof.
  intros Hg Hn He Hz. exists (shlex_quote (py_str_full pattern)). split.
  - apply job_search; assumption.
  - apply shlex_quote_word. exact Hz.
Qed.

(** X26: for each job kind with a required parameter, a missing, null or
    empty-string first required parameter makes [_job_to_command] raise
    [ValueError("<kind> requires '<name>'")]. *)
Theorem job_required_param_missing (float_int : string -> option Z)
    (path_resolve : string -> string) (env : environ) (cfg : dict)
    (kind name : string) (params : dict) (repo : string) :
  In (kind, name) [("file.read", "path"); ("file.search", "pattern"); ("shell.exec", "command");
                   ("task.execute", "instruction"); ("file.write", "path"); ("file.patch", "path");
                   ("file.rename", "from"); ("file.delete", "path"); ("file.copy", "from");
                   ("file.append", "path"); ("file.mkdir", "path"); ("web.fetch", "url");
                   ("web.search", "query")] ->
  dict_get name params = None \/ dict_get name params = Some JNull
  \/ dict_get name params = Some (JStr "") ->
  _job_to_command float_int path_resolve env cfg kind params repo
  = inr (kind ++ " requires '" ++ name ++ "'").
Proof.
  intros Hin Hm.
  repeat (destruct Hin as [Hin|Hin]; [injection Hin as <- <-|]); [..|destruct Hin];
    unfold _job_to_command; cbn -[shlex_quote py_str_full _python_script_cmd job_req];
    unfold req_then, job_req;
    (destruct Hm as [Hm|[Hm|Hm]]; rewrite Hm; reflexivity).
Qed.


(** X27: [git.log]: the [-n] count is always in [1, 100]; it is 20 when
    [count] is absent and the given value when [count] is an integer or an
    integer string in that range; a truthy [branch] is appended as one
    shell word of value [str(branch)], a falsy or missing one adds
    nothing. *)
Theorem job_git_log_command (float_int : string -> option Z) (path_resolve : string -> string)
    (env : environ) (cfg : dict) (params : dict) (repo : string) :
  exists n opt,
    _job_to_command float_int path_resolve env cfg "git.log" params repo
    = inl (Some ("git log --oneline --format=%h\ %s\ (%an,\ %ar) -n " ++ pretty n ++ opt), None)
    /\ (1 <= n <= 100)%Z
    /\ (dict_get "count" params = None -> n = 20%Z)
    /\ (forall z, dict_get "count" params = Some (JInt z) -> (1 <= z <= 100)%Z -> n = z)
    /\ (forall s z, dict_get "count" params = Some (JStr s) -> py_int_str s = Some z ->
          (1 <= z <= 100)%Z -> n = z)
    /\ (get_truthy "branch" params = false -> opt = "")
    /\ (forall b, dict_get "branch" params = Some b -> py_bool b = true ->
          no_nul (py_str_full b) = true ->
          exists w, opt = " " ++ w /\ sh_word w = Some (py_str_full b)).
Proof.
  set (n := Z.min (Z.max (_to_int float_int (get_default "count" params (JInt 20)) 20) 1) 100).
  exists n, (if get_truthy "branch" params
             then " " ++ shlex_quote (py_str_full (get_default "branch" params JNull)) else "").
  split.
  { unfold _job_to_command. cbn -[shlex_quote py_str_full _python_script_cmd pretty get_truthy get_default _to_int].
    fold n. destruct (get_truthy "branch" params); [|rewrite str_app_nil];
    rewrite ?str_app_assoc; reflexivity. }
  split; [unfold n; lia|].
  split; [intros Hc; unfold n, get_default; rewrite Hc; reflexivity|].
  split; [intros z Hc Hz; unfold n, get_default; rewrite Hc; cbn [_to_int]; lia|].
  split; [intros s z Hc Hp Hz; unfold n, get_default; rewrite Hc; cbn [_to_int]; rewrite Hp; lia|].
  split; [intros Hb; rewrite Hb; reflexivity|].
  intros b Hg Hb Hz. unfold get_truthy. rewrite Hg, Hb.
  exists (shlex_quote (py_str_full (get_default "branch" params JNull))). split; [reflexivity|].
  unfold get_default. rewrite Hg. apply shlex_quote_word. exact Hz.
Qed.


Lemma span_fst_forall (p : ascii -> bool) (s : string) : string_forall p (fst (span p s)) = true.
Proof.
  induction s as [|c r IH]; [reflexivity|]. cbn [span].
  destruct (p c) eqn:Pc; [|reflexivity].
  destruct (span p r) as [a b] eqn:E. cbn in IH |- *. rewrite Pc, IH. reflexivity.
Qed.

Lemma match_path_tail_chars (t p : string) :
  match_path_tail t = Some p -> string_forall path_char p = true /\ p <> "".
Proof.
  unfold match_path_tail. destruct (match_spaces t) as [t0|]; [|discriminate].
  set (t' := match t0 with String c r => if is_quote_char c then r else t0 | EmptyString => t0 end).
  pose proof (span_fst_forall path_char t') as Hf.
  destruct (span path_char t') as [a b]. cbn in Hf.
  destruct a as [|c a]; [discriminate|]. intros E. injection E as <-. split; [exact Hf | discriminate].
Qed.

Lemma first_some_in (l : list (option string)) (p : string) : first_some l = Some p -> In (Some p) l.
Proof.
  induction l as [|[q|] l IH]; cbn; [discriminate| |].
  - intros E. injection E as ->. left. reflexivity.
  - intros E. right. apply IH. exact E.
Qed.

Lemma match_target_at_chars (s p : string) :
  match_target_at s = Some p -> string_forall path_char p = true /\ p <> "".
Proof.
  unfold match_target_at. intros M. apply first_some_in, in_map_iff in M as (t & Ht & _).
  exact (match_path_tail_chars t p Ht).
Qed.

Lemma search_target_chars (s p : string) :
  search_target s = Some p -> string_forall path_char p = true /\ p <> "".
Proof.
  induction s as [|c r IH]; cbn [search_target]; destruct (match_target_at _) as [q|] eqn:M.
  - intros E. injection E as <-. exact (match_target_at_chars _ _ M).
  - discriminate.
  - intros E. injection E as <-. exact (match_target_at_chars _ _ M).
  - exact IH.
Qed.

Lemma lstrip_set_suffix (cs s : string) : exists u, s = u ++ lstrip_set cs s.
Proof.
  induction s as [|c r IH]; [exists ""; reflexivity|]. cbn [lstrip_set].
  destruct (contains (String c "") cs).
  - destruct IH as [u Hu]. exists (String c u). change (String c r = String c (u ++ lstrip_set cs r)).
    rewrite <- Hu. reflexivity.
  - exists "". reflexivity.
Qed.

Lemma lstrip_set_head (cs s : string) (c : ascii) (r : string) :
  lstrip_set cs s = String c r -> contains (String c "") cs = false.
Proof.
  induction s as [|d s IH]; cbn [lstrip_set]; [discriminate|].
  destruct (contains (String d "") cs) eqn:Hd; [exact IH|].
  intros E. injection E as -> _. exact Hd.
Qed.

Lemma rstrip_set_prefix (cs s : string) : exists u, s = rstrip_set cs s ++ u.
Proof.
  destruct (lstrip_set_suffix cs (string_rev s)) as [u Hu]. exists (string_rev u).
  unfold rstrip_set. rewrite <- string_rev_app_distr, <- Hu. symmetry. apply string_rev_involutive.
Qed.

Lemma rstrip_set_last (cs s u : string) (c : ascii) :
  rstrip_set cs s = u ++ String c "" -> contains (String c "") cs = false.
Proof.
  unfold rstrip_set. intros E. apply (f_equal string_rev) in E.
  rewrite string_rev_involutive, string_rev_snoc in E. exact (lstrip_set_head _ _ _ _ E).
Qed.

Lemma string_forall_prefix (P : ascii -> bool) (a u : string) :
  string_forall P (a ++ u) = true -> string_forall P a = true.
Proof. rewrite string_forall_app. intros H. apply andb_prop in H. apply H. Qed.

Lemma string_forall_suffix (P : ascii -> bool) (u a : string) :
  string_forall P (u ++ a) = true -> string_forall P a = true.
Proof. rewrite string_forall_app. intros H. apply andb_prop in H. apply H. Qed.

Lemma string_forall_strip (P : ascii -> bool) (s : string) :
  string_forall P s = true -> string_forall P (py_strip s) = true.
Proof.
  intros H. unfold py_strip.
  destruct (py_lstrip_suffix s) as [u Hu]. rewrite Hu in H. apply string_forall_suffix in H.
  destruct (py_rstrip_prefix (py_lstrip s)) as [v Hv]. rewrite Hv in H.
  exact (string_forall_prefix _ _ _ H).
Qed.

(** X28: the path extracted from an instruction never holds whitespace or
    quote characters and never ends in one of [.,!?;:]. *)
Theorem extract_target_path_clean (instruction : string) :
  string_forall path_char (_extract_target_path_from_instruction instruction) = true
  /\ (forall u c, _extract_target_path_from_instruction instruction = u ++ String c "" ->
        contains (String c "") ".,!?;:" = false).
Proof.
  unfold _extract_target_path_from_instruction.
  destruct (search_target instruction) as [p|] eqn:S.
  - apply search_target_chars in S as [Hp _]. split.
    + destruct (rstrip_set_prefix ".,!?;:" (py_strip p)) as [v Hv].
      apply string_forall_strip in Hp. rewrite Hv in Hp. exact (string_forall_prefix _ _ _ Hp).
    + intros u c E. exact (rstrip_set_last _ _ _ _ E).
  - split; [reflexivity|]. intros u c E. destruct u; discriminate E.
Qed.


Lemma alt_rests_create (x : string) : alt_rests ("create a file " ++ x) = [" " ++ x].
Proof. reflexivity. Qed.

Lemma search_target_unfold (s : string) :
  search_target s = match match_target_at s with
                    | Some p => Some p
                    | None => match s with String _ r => search_target r | EmptyString => None end
                    end.
Proof. destruct s; reflexivity. Qed.

Lemma path_no_space (s : string) : string_forall path_char s = true -> no_space s = true.
Proof.
  induction s as [|c r IH]; [reflexivity|]. unfold no_space in *. cbn [string_forall].
  intros H. apply andb_prop in H as [Hc Hr]. unfold path_char in Hc.
  apply andb_prop in Hc as [Hc _]. rewrite Hc, (IH Hr). reflexivity.
Qed.

Lemma match_path_tail_word (w rest : string) :
  w <> "" -> string_forall path_char w = true ->
  (rest = "" \/ exists c r, rest = String c r /\ path_char c = false) ->
  match_path_tail (" " ++ w ++ rest) = Some w.
Proof.
  intros Hne Hw Hr. destruct w as [|c w']; [congruence|].
  pose proof Hw as Hw0. cbn [string_forall] in Hw0. apply andb_prop in Hw0 as [Hc _].
  unfold path_char in Hc. apply andb_prop in Hc as [Hsp Hq].
  apply negb_true_iff in Hsp, Hq.
  unfold match_path_tail.
  assert (Hl : py_lstrip (String c w' ++ rest) = String c w' ++ rest).
  { change (String c w' ++ rest) with (String c (w' ++ rest)). cbn [py_lstrip]. rewrite Hsp.
    reflexivity. }
  change (match_spaces (" " ++ String c w' ++ rest)) with (Some (py_lstrip (String c w' ++ rest))).
  rewrite Hl. change (String c w' ++ rest) with (String c (w' ++ rest)) at 1.
  cbn beta iota zeta. rewrite Hq. change (String c (w' ++ rest)) with (String c w' ++ rest).
  rewrite (span_all path_char (String c w') rest Hw).
  destruct Hr as [-> | (d & r & -> & Hd)].
  - cbn [span fst]. rewrite str_app_nil. reflexivity.
  - rewrite (span_stop path_char d r Hd). cbn [fst]. rewrite str_app_nil. reflexivity.
Qed.

(** X29: an instruction that starts with ["create a file "] followed by a
    word gives that word (trailing [.,!?;:] removed) as the target path,
    whatever follows: so ["create a file called notes.txt"] gives
    ["called"]. *)
Theorem extract_target_path_create_file (w rest : string) :
  w <> "" -> string_forall path_char w = true ->
  (rest = "" \/ exists c r, rest = String c r /\ path_char c = false) ->
  _extract_target_path_from_instruction ("create a file " ++ w ++ rest) = rstrip_set ".,!?;:" w.
Proof.
  intros Hne Hw Hr. unfold _extract_target_path_from_instruction.
  assert (Ht : match_target_at ("create a file " ++ w ++ rest) = Some w).
  { unfold match_target_at. rewrite alt_rests_create. cbn [map].
    rewrite (match_path_tail_word w rest Hne Hw Hr). reflexivity. }
  rewrite search_target_unfold, Ht. f_equal.
  pose proof (path_no_space w Hw) as Hns.
  destruct (no_space_snoc w Hne Hns) as (m & b & Em & Hb).
  unfold py_strip. destruct w as [|c w']; [congruence|].
  assert (Hc : py_is_space c = false).
  { unfold no_space in Hns. cbn [string_forall] in Hns. apply andb_prop in Hns as [Hc _].
    apply negb_true_iff in Hc. exact Hc. }
  cbn [py_lstrip]. rewrite Hc, Em. apply py_rstrip_snoc. exact Hb.
Qed.

Lemma large_instruction_threshold_cases (env : environ) (cfg : dict) :
  _large_instruction_threshold env cfg = 0%Z \/ (512 <= _large_instruction_threshold env cfg)%Z.
Proof.
  unfold _large_instruction_threshold, DEFAULT_LARGE_INSTRUCTION_CHARS.
  destruct (String.eqb _ ""); [right; lia|].
  destruct (py_int_str _) as [z|]; [|right; lia].
  destruct (z <=? 0)%Z; [left; reflexivity | right; lia].
Qed.

(** X30: an instruction of at most 512 characters is always passed inline,
    with no handoff file, whatever the configured threshold. *)
Theorem prepare_instruction_short_inline (env : environ) (cfg : dict)
    (write_handoff : string -> string -> string) (repo instruction : string) :
  String.length instruction <= 512 ->
  _prepare_instruction_for_agent env cfg write_handoff repo instruction = (instruction, "").
Proof.
  intros Hlen. unfold _prepare_instruction_for_agent.
  destruct (large_instruction_threshold_cases env cfg) as [E|E].
  - rewrite E. reflexivity.
  - replace (Z.of_nat (String.length instruction) <=? _large_instruction_threshold env cfg)%Z
      with true by (symmetry; apply Z.leb_le; lia).
    rewrite orb_true_r. reflexivity.
Qed.

Lemma extract_target_path_create_file_witness :
  ("called" <> "" /\ string_forall path_char "called" = true /\
   (" notes.txt" = "" \/ exists c r, " notes.txt" = String c r /\ path_char c = false)) /\
  _extract_target_path_from_instruction ("create a file " ++ "called" ++ " notes.txt") = "called".
Proof.
  split; [split; [discriminate | split; [reflexivity | right; exists " "%char, "notes.txt"; split; reflexivity]]|].
  rewrite (extract_target_path_create_file "called" " notes.txt");
    [reflexivity | discriminate | reflexivity | right; exists " "%char, "notes.txt"; split; reflexivity].
Defined.


Lemma shlex_quote_word_witness :
  no_nul "it's here" = true /\ sh_word (shlex_quote "it's here") = Some "it's here".
Proof. split; [reflexivity | apply shlex_quote_word; reflexivity]. Defined.

Lemma job_file_read_quoted_witness :
  exists w,
    _job_to_command (fun _ => None) (fun s => s) (fun _ => None) [] "file.read"
      [("path", JStr "my notes.txt")] "/repo" = inl (Some ("cat " ++ w), None)
    /\ sh_word w = Some "my notes.txt".
Proof.
  apply (job_file_read_quoted (fun _ => None) (fun s => s) (fun _ => None) []
           [("path", JStr "my notes.txt")] "/repo" (JStr "my notes.txt"));
    [reflexivity | discriminate | discriminate | reflexivity].
Defined.

Lemma job_file_search_quoted_witness :
  exists w,
    _job_to_command (fun _ => None) (fun s => s) (fun _ => None) [] "file.search"
      [("pattern", JStr "it's")] "/repo"
    = inl (Some ("rg --no-heading --line-number " ++ w ++ " . || grep -rn " ++ w ++ " . || true"), None)
    /\ sh_word w = Some "it's".
Proof.
  apply (job_file_search_quoted (fun _ => None) (fun s => s) (fun _ => None) []
           [("pattern", JStr "it's")] "/repo" (JStr "it's"));
    [reflexivity | discriminate | discriminate | reflexivity].
Defined.

Lemma job_required_param_missing_witness :
  _job_to_command (fun _ => None) (fun s => s) (fun _ => None) [] "file.write"
    [("content", JStr "x")] "/repo" = inr "file.write requires 'path'".
Proof.
  apply (job_required_param_missing (fun _ => None) (fun s => s) (fun _ => None) []
           "file.write" "path" [("content", JStr "x")] "/repo");
    [cbn; tauto | left; reflexivity].
Defined.

Lemma prepare_instruction_short_inline_witness :
  _prepare_instruction_for_agent (fun _ => None) [] (fun _ _ => "workspace/req.md") "/repo"
    "Fix the failing test." = ("Fix the failing test.", "").
Proof.
  apply prepare_instruction_short_inline. cbn. lia.
Defined.
